(** * Flight schedule parser: validation pipeline and query engine

    A shallow embedding of [flight_parser.py] (class [FlightParser]) and of
    the parts of the Python standard library it calls ([str.strip],
    [re.match], [datetime.strptime], [float], [round]), with the properties
    of the record validator, the CSV ingestion loop, the JSON database
    loader and the query engine.

    Python strings are modelled as [string]: sequences of code points below
    256 (the Latin-1 range).  Python floats are binary64 values, modelled
    with the [spec_float] operations of the standard library at precision
    53 and maximal exponent 1024. *)

From Stdlib Require Import ZArith Lia Bool List Ascii String.
From Stdlib Require Import Floats.SpecFloat Numbers.DecimalString.
From stdpp Require Import base option list strings gmap.

Import ListNotations.
Local Open Scope string_scope.

(** ** Exceptions

    Fallible Python code is embedded in an error monad; the exception
    classes are the ones the program can observe. *)

Inductive exn := ValueError | TypeError | OverflowError.

Inductive result (A : Type) :=
| Ok (a : A)
| Raise (e : exn).
Arguments Ok {A} a.
Arguments Raise {A} e.

#[global] Instance result_ret : MRet result := fun _ a => Ok a.
#[global] Instance result_bind : MBind result := fun _ _ f m =>
  match m with
  | Ok a => f a
  | Raise e => Raise e
  end.

Definition is_ok {A} (r : result A) : bool :=
  match r with Ok _ => true | Raise _ => false end.

(** ** Python string built-ins *)

Module PyStr.

Definition code (c : ascii) : N := N_of_ascii c.

Definition in_range (lo hi : N) (c : ascii) : bool :=
  ((lo <=? code c) && (code c <=? hi))%N.

(** [str.isspace] for one character, also the class [\s] of [re] on
    [str] patterns: U+0009..U+000D, U+001C..U+0020, U+0085, U+00A0. *)
Definition isspace (c : ascii) : bool :=
  in_range 9 13 c || in_range 28 32 c || (code c =? 133)%N || (code c =? 160)%N.

(** The class [\d] of [re]: below U+0100 the decimal digits are 0..9. *)
Definition isdigit (c : ascii) : bool := in_range 48 57 c.

Definition isupper_ascii (c : ascii) : bool := in_range 65 90 c.
Definition islower_ascii (c : ascii) : bool := in_range 97 122 c.
Definition isalnum_ascii (c : ascii) : bool :=
  isupper_ascii c || islower_ascii c || isdigit c.

Fixpoint lstrip (s : list ascii) : list ascii :=
  match s with
  | c :: s' => if isspace c then lstrip s' else s
  | [] => []
  end.

Definition rstrip (s : list ascii) : list ascii := rev (lstrip (rev s)).

(** [s.strip()] *)
Definition strip (s : string) : string :=
  string_of_list_ascii (rstrip (lstrip (list_ascii_of_string s))).

(** [c.lower()] for one character of the Latin-1 range. *)
Definition lower_char (c : ascii) : ascii :=
  if isupper_ascii c || (in_range 192 222 c && negb (code c =? 215)%N)
  then ascii_of_N (code c + 32) else c.

Fixpoint lower (s : string) : string :=
  match s with
  | EmptyString => EmptyString
  | String c s' => String (lower_char c) (lower s')
  end.

(** [s.startswith(p)] *)
Definition startswith (p s : string) : bool := String.prefix p s.

(** [sep.join(parts)] *)
Fixpoint join (sep : string) (parts : list string) : string :=
  match parts with
  | [] => ""
  | [p] => p
  | p :: ps => p ++ sep ++ join sep ps
  end.

(** [not s] for a string: true when it is empty. *)
Definition is_empty (s : string) : bool :=
  match s with EmptyString => true | _ => false end.

End PyStr.

(** ** The fragment of [re] the program uses

    A backtracking matcher in continuation-passing style.  [re.match]
    anchors the attempt at position 0; alternatives are tried left to right
    and repetition is greedy, as in [sre]. *)

Module Re.

Inductive regex :=
| Bol                                   (* ^ *)
| Eol                                   (* $ *)
| Lit (c : ascii)
| Cls (p : ascii -> bool)               (* [...] , \d , \s *)
| Cat (r1 r2 : regex)
| Alt (r1 r2 : regex)
| Rep (p : ascii -> bool) (lo : nat) (hi : option nat)  (* X{lo,hi}, X+ *)
| Grp (name : string) (r : regex).      (* (?P<name>...) *)

Definition captures := list (string * list ascii).

Section Matcher.
Context {R : Type}.

(** Greedy repetition of a character class: take as many characters as
    allowed, give one back each time the continuation fails. *)
Fixpoint rep (p : ascii -> bool) (lo : nat) (hi : option nat)
    (pos : nat) (s : list ascii)
    (k : nat -> list ascii -> option R) : option R :=
  let stop := match lo with O => k pos s | S _ => None end in
  let room := match hi with Some O => false | _ => true end in
  match s with
  | c :: s' =>
      if p c && room then
        match rep p (pred lo) (pred <$> hi) (S pos) s' k with
        | Some x => Some x
        | None => stop
        end
      else stop
  | [] => stop
  end.

Fixpoint mtch (r : regex) (pos : nat) (s : list ascii) (caps : captures)
    (k : nat -> list ascii -> captures -> option R) : option R :=
  match r with
  | Bol => match pos with O => k pos s caps | S _ => None end
  | Eol =>
      (* without MULTILINE: at the end, or before a final newline *)
      match s with
      | [] => k pos s caps
      | [c] => if (PyStr.code c =? 10)%N then k pos s caps else None
      | _ => None
      end
  | Lit c =>
      match s with
      | a :: s' => if Ascii.eqb a c then k (S pos) s' caps else None
      | [] => None
      end
  | Cls p =>
      match s with
      | a :: s' => if p a then k (S pos) s' caps else None
      | [] => None
      end
  | Cat r1 r2 =>
      mtch r1 pos s caps (fun pos' s' caps' => mtch r2 pos' s' caps' k)
  | Alt r1 r2 =>
      match mtch r1 pos s caps k with
      | Some x => Some x
      | None => mtch r2 pos s caps k
      end
  | Rep p lo hi => rep p lo hi pos s (fun pos' s' => k pos' s' caps)
  | Grp name r1 =>
      mtch r1 pos s caps
        (fun pos' s' caps' => k pos' s' ((name, take (pos' - pos) s) :: caps'))
  end.
End Matcher.

(** [re.match(pattern, s)]: the end position and the named groups of the
    first successful attempt, [None] when there is no match. *)
Definition re_match (r : regex) (s : string) : option (nat * captures) :=
  mtch r 0 (list_ascii_of_string s) [] (fun pos _ caps => Some (pos, caps)).

Definition group (name : string) (caps : captures) : option (list ascii) :=
  snd <$> find (fun nc => String.eqb (fst nc) name) caps.

Fixpoint cat_all (rs : list regex) : regex :=
  match rs with
  | [] => Rep (fun _ => false) 0 (Some 0)
  | [r] => r
  | r :: rs' => Cat r (cat_all rs')
  end.

End Re.


(** ** Python floats: [float()], [round(x, 2)] and comparisons

    [float] values are binary64.  Conversions from decimal text and from
    integers are correctly rounded (round-half-to-even), as [_Py_dg_strtod]
    and [PyLong_AsDouble] are; [round(x, 2)] is the correctly rounded
    double of the two-decimal numeral nearest to the exact value of [x]
    (ties to even), as [double_round] computes it through [_Py_dg_dtoa]. *)

Module PyFloat.

Abbreviation float := spec_float.

Definition prec : Z := 53.
Definition emax : Z := 1024.

Definition zero : float := S754_zero false.

(** The double nearest to [num / den], with sign [neg]. *)
Definition of_ratio (neg : bool) (num den : positive) : float :=
  SFdiv prec emax (S754_finite neg num 0) (S754_finite false den 0).

(** The double nearest to the integer [z]; infinite beyond the range. *)
Definition of_Z (z : Z) : float := binary_normalize prec emax z 0 false.

(** [sign digits * 10^e10], correctly rounded. *)
Definition of_decimal (neg : bool) (digits : N) (e10 : Z) : float :=
  match digits with
  | N0 => S754_zero neg
  | Npos d =>
      match e10 with
      | Z0 => of_ratio neg d 1
      | Zpos e => of_ratio neg (d * 10 ^ e) 1
      | Zneg e => of_ratio neg d (10 ^ e)
      end
  end.

(** [a < b], [a <= b], [a > b] on floats: false whenever a NaN is involved. *)
Definition lt (a b : float) : bool := SFltb a b.
Definition le (a b : float) : bool := SFleb a b.
Definition gt (a b : float) : bool := SFltb b a.

(** [round(x, 2)] *)
Definition round_half_even (num den : Z) : Z :=
  let q := (num / den)%Z in
  let r := (num mod den)%Z in
  match (2 * r ?= den)%Z with
  | Lt => q
  | Gt => (q + 1)%Z
  | Eq => if Z.even q then q else (q + 1)%Z
  end.

Definition round2 (x : float) : float :=
  match x with
  | S754_finite s m e =>
      let hundredths :=
        match e with
        | Zneg k => round_half_even (100 * Zpos m) (Zpos (2 ^ k))
        | _ => (100 * Zpos m * 2 ^ e)%Z
        end in
      match hundredths with
      | Zpos n => of_ratio s n 100
      | _ => S754_zero s
      end
  | _ => x      (* zeros, infinities and NaN round to themselves *)
  end.

(** *** [float(s)] for a string *)

Definition digit_val (c : ascii) : N := (PyStr.code c - 48)%N.

Definition digits_value (ds : list ascii) : N :=
  fold_left (fun acc c => (10 * acc + digit_val c)%N) ds 0%N.

Fixpoint span_digits (s : list ascii) : list ascii * list ascii :=
  match s with
  | c :: s' =>
      if PyStr.isdigit c
      then let '(ds, rest) := span_digits s' in (c :: ds, rest)
      else ([], s)
  | [] => ([], [])
  end.

Definition is_char (n : N) (c : ascii) : bool := (PyStr.code c =? n)%N.

(** An optional sign: whether it is [-], and what follows it. *)
Definition take_sign (s : list ascii) : bool * list ascii :=
  match s with
  | c :: s' =>
      if is_char 45 c then (true, s')
      else if is_char 43 c then (false, s')
      else (false, s)
  | [] => (false, [])
  end.

(** The exponent part [e[+-]digits]; without a digit the [e] is not
    consumed. *)
Definition take_exponent (s : list ascii) : Z * list ascii :=
  match s with
  | c :: s' =>
      if is_char 101 c || is_char 69 c then
        let '(eneg, s1) := take_sign s' in
        let '(ds, rest) := span_digits s1 in
        match ds with
        | [] => (0%Z, s)
        | _ => let e := Z.of_N (digits_value ds) in
               ((if eneg then - e else e)%Z, rest)
        end
      else (0%Z, s)
  | [] => (0%Z, [])
  end.

(** [_Py_dg_strtod]: the value of the longest decimal literal at the start
    of [s] and the text after it; [None] when no digit is found. *)
Definition strtod (s : list ascii) : option (float * list ascii) :=
  let '(neg, s1) := take_sign s in
  let '(ipart, s2) := span_digits s1 in
  let '(fpart, s3) :=
    match s2 with
    | c :: s2' => if is_char 46 c then span_digits s2' else ([], s2)
    | [] => ([], [])
    end in
  match app ipart fpart with
  | [] => None
  | ds =>
      let '(e, rest) := take_exponent s3 in
      Some (of_decimal neg (digits_value ds) (e - Z.of_nat (length fpart)), rest)
  end.

Definition lower_ascii (c : ascii) : ascii :=
  if PyStr.isupper_ascii c then ascii_of_N (PyStr.code c + 32) else c.

Fixpoint match_word (w s : list ascii) : option (list ascii) :=
  match w, s with
  | [], _ => Some s
  | a :: w', c :: s' =>
      if Ascii.eqb a (lower_ascii c) then match_word w' s' else None
  | _ :: _, [] => None
  end.

(** [_Py_parse_inf_or_nan] *)
Definition parse_inf_or_nan (s : list ascii) : option (float * list ascii) :=
  let '(neg, s1) := take_sign s in
  match match_word (list_ascii_of_string "inf") s1 with
  | Some s2 =>
      match match_word (list_ascii_of_string "inity") s2 with
      | Some s3 => Some (S754_infinity neg, s3)
      | None => Some (S754_infinity neg, s2)
      end
  | None =>
      match match_word (list_ascii_of_string "nan") s1 with
      | Some s2 => Some (S754_nan, s2)
      | None => None
      end
  end.

(** [_Py_string_to_number_with_underscores]: an underscore is allowed only
    between two digits. *)
Fixpoint drop_underscores (prev : ascii) (s : list ascii) : option (list ascii) :=
  match s with
  | [] => if is_char 95 prev then None else Some []
  | c :: s' =>
      if is_char 95 c then
        if PyStr.isdigit prev then drop_underscores c s' else None
      else if is_char 95 prev && negb (PyStr.isdigit c) then None
      else cons c <$> drop_underscores c s'
  end.

(** Characters from U+007F on become a space when they are whitespace and
    are not part of any numeral otherwise. *)
Definition to_ascii_space (c : ascii) : ascii :=
  if (PyStr.code c <? 127)%N then c
  else if PyStr.isspace c then " "%char else "?"%char.

(** [Py_ISSPACE] *)
Definition c_isspace (c : ascii) : bool :=
  PyStr.in_range 9 13 c || is_char 32 c.

Fixpoint c_lstrip (s : list ascii) : list ascii :=
  match s with
  | c :: s' => if c_isspace c then c_lstrip s' else s
  | [] => []
  end.

(** [float(s)]: [None] stands for [ValueError]. *)
Definition of_string (s : string) : option float :=
  s1 ← drop_underscores "000"%char (map to_ascii_space (list_ascii_of_string s));
  let body := rev (c_lstrip (rev (c_lstrip s1))) in
  '(x, rest) ← match strtod body with
               | Some r => Some r
               | None => parse_inf_or_nan body
               end;
  match rest with
  | [] => Some x
  | _ => None
  end.

End PyFloat.

(** ** [datetime.strptime]

    [_strptime] turns the format into a regular expression, matches the
    text against it, requires the match to cover the whole text, converts
    the groups with [int] and builds a [datetime], whose constructor checks
    the calendar. *)

Module PyTime.
Import Re.

Record datetime := mk_datetime {
  year : Z; month : Z; day : Z; hour : Z; minute : Z
}.

Definition digit (lo hi : N) : regex := Cls (PyStr.in_range (48 + lo) (48 + hi)).
Definition chr (c : string) : regex :=
  match c with
  | String a _ => Lit a
  | EmptyString => cat_all []
  end.

(** The entries of [TimeRE] for the directives of the program's format. *)
Definition directive (d : ascii) : option regex :=
  let d09 := Cls PyStr.isdigit in
  if Ascii.eqb d "Y" then
    (* (?P<Y>\d\d\d\d) *)
    Some (Grp "Y" (cat_all [d09; d09; d09; d09]))
  else if Ascii.eqb d "m" then
    (* (?P<m>1[0-2]|0[1-9]|[1-9]) *)
    Some (Grp "m" (Alt (Cat (chr "1") (digit 0 2))
                  (Alt (Cat (chr "0") (digit 1 9)) (digit 1 9))))
  else if Ascii.eqb d "d" then
    (* (?P<d>3[0-1]|[1-2]\d|0[1-9]|[1-9]| [1-9]) *)
    Some (Grp "d" (Alt (Cat (chr "3") (digit 0 1))
                  (Alt (Cat (digit 1 2) d09)
                  (Alt (Cat (chr "0") (digit 1 9))
                  (Alt (digit 1 9) (Cat (chr " ") (digit 1 9)))))))
  else if Ascii.eqb d "H" then
    (* (?P<H>2[0-3]|[0-1]\d|\d) *)
    Some (Grp "H" (Alt (Cat (chr "2") (digit 0 3))
                  (Alt (Cat (digit 0 1) d09) d09)))
  else if Ascii.eqb d "M" then
    (* (?P<M>[0-5]\d|\d) *)
    Some (Grp "M" (Alt (Cat (digit 0 5) d09) d09))
  else None.

(** [TimeRE.pattern]: each run of whitespace of the format becomes [\s+],
    each directive its regular expression, any other character itself. *)
Fixpoint pattern (in_space : bool) (fmt : list ascii) : option (list regex) :=
  match fmt with
  | [] => Some []
  | c :: fmt' =>
      if PyStr.isspace c then
        if in_space then pattern true fmt'
        else cons (Rep PyStr.isspace 1 None) <$> pattern true fmt'
      else if Ascii.eqb c "%" then
        match fmt' with
        | d :: fmt'' =>
            r ← directive d; rs ← pattern false fmt''; Some (r :: rs)
        | [] => None
        end
      else cons (Lit c) <$> pattern false fmt'
  end.

Definition compile (fmt : string) : option regex :=
  cat_all <$> pattern false (list_ascii_of_string fmt).

(** [int] on the text of a group: decimal digits, surrounding whitespace
    ignored. *)
Definition int_of (txt : list ascii) : option Z :=
  let body := PyStr.rstrip (PyStr.lstrip txt) in
  match body with
  | [] => None
  | _ => if forallb PyStr.isdigit body
         then Some (Z.of_N (PyFloat.digits_value body)) else None
  end.

Definition is_leap (y : Z) : bool :=
  ((y mod 4 =? 0) && (negb (y mod 100 =? 0) || (y mod 400 =? 0)))%Z.

Definition days_in_month (y m : Z) : Z :=
  if (m =? 2)%Z then (if is_leap y then 29 else 28)%Z
  else if ((m =? 4) || (m =? 6) || (m =? 9) || (m =? 11))%Z then 30%Z
  else 31%Z.

(** The checks of the [datetime] constructor. *)
Definition check_fields (y m d hh mm : Z) : bool :=
  ((1 <=? y) && (y <=? 9999) && (1 <=? m) && (m <=? 12) &&
   (1 <=? d) && (d <=? days_in_month y m) &&
   (0 <=? hh) && (hh <=? 23) && (0 <=? mm) && (mm <=? 59))%Z.

(** [datetime.strptime(s, fmt)]; [None] stands for [ValueError] (the
    argument is a [str] here). *)
Definition strptime (s fmt : string) : option datetime :=
  re ← compile fmt;
  '(stop, groups) ← re_match re s;
  if negb (String.length s =? stop)%nat then None   (* unconverted data remains *)
  else
    let field name default :=
      match group name groups with
      | Some txt => int_of txt
      | None => Some default
      end in
    y ← field "Y" 1900%Z;
    m ← field "m" 1%Z;
    d ← field "d" 1%Z;
    hh ← field "H" 0%Z;
    mm ← field "M" 0%Z;
    if check_fields y m d hh mm then Some (mk_datetime y m d hh mm) else None.

(** Comparison of two naive datetimes: lexicographic on the fields. *)
Definition compare (a b : datetime) : comparison :=
  match (year a ?= year b)%Z with
  | Eq => match (month a ?= month b)%Z with
          | Eq => match (day a ?= day b)%Z with
                  | Eq => match (hour a ?= hour b)%Z with
                          | Eq => (minute a ?= minute b)%Z
                          | c => c
                          end
                  | c => c
                  end
          | c => c
          end
  | c => c
  end.

Definition lt (a b : datetime) : bool :=
  match compare a b with Lt => true | _ => false end.
Definition gt (a b : datetime) : bool :=
  match compare a b with Gt => true | _ => false end.

End PyTime.

(** ** Values read from JSON documents *)

Inductive pyval :=
| VNone
| VBool (b : bool)
| VInt (n : Z)
| VFloat (x : PyFloat.float)
| VStr (s : string)
| VOther (rendering : string).  (* an array or object, with its [str()] *)

(** [float(v)] *)
Definition py_float (v : pyval) : result PyFloat.float :=
  match v with
  | VStr s =>
      match PyFloat.of_string s with
      | Some x => Ok x
      | None => Raise ValueError
      end
  | VFloat x => Ok x
  | VInt n =>
      match PyFloat.of_Z n with
      | S754_infinity _ => Raise OverflowError
      | x => Ok x
      end
  | VBool b => Ok (PyFloat.of_Z (if b then 1 else 0))
  | VNone | VOther _ => Raise TypeError
  end.

(** [datetime.strptime(v, fmt)] for an arbitrary value. *)
Definition py_strptime (v : pyval) (fmt : string) : result PyTime.datetime :=
  match v with
  | VStr s =>
      match PyTime.strptime s fmt with
      | Some t => Ok t
      | None => Raise ValueError
      end
  | _ => Raise TypeError
  end.

(** [s == v] for a string [s]. *)
Definition str_eq (s : string) (v : pyval) : bool :=
  match v with
  | VStr t => String.eqb s t
  | _ => false
  end.

(** ** The flight parser *)

(** A valid flight: the dictionary built by [parse_flight_record] and by
    [load_json_database]. *)
Record flight := mk_flight {
  flight_id : string;
  origin : string;
  destination : string;
  departure_datetime : string;
  arrival_datetime : string;
  price : PyFloat.float
}.

(** An entry of [self.errors]. *)
Record diagnostic := mk_diagnostic {
  file : string;
  line_number : nat;
  raw_line : string;
  error : string
}.

(** The state of a [FlightParser] instance. *)
Record parser := mk_parser {
  valid_flights : list flight;
  errors : list diagnostic
}.

(** [FlightParser()] *)
Definition init : parser := mk_parser [] [].

Definition DATE_FORMAT : string := "%Y-%m-%d %H:%M".

(** [^[A-Za-z0-9]{2,8}$] *)
Definition FLIGHT_ID_RE : Re.regex :=
  Re.cat_all [Re.Bol; Re.Rep PyStr.isalnum_ascii 2 (Some 8); Re.Eol].

(** [^[A-Z]{3}$] *)
Definition AIRPORT_CODE_RE : Re.regex :=
  Re.cat_all [Re.Bol; Re.Rep PyStr.isupper_ascii 3 (Some 3); Re.Eol].

Definition validate_flight_id (flight_id : string) : bool :=
  bool_decide (is_Some (Re.re_match FLIGHT_ID_RE flight_id)).

Definition validate_airport_code (code : string) : bool :=
  bool_decide (is_Some (Re.re_match AIRPORT_CODE_RE code)).

Definition validate_datetime (datetime_str : string) : bool :=
  match PyTime.strptime datetime_str DATE_FORMAT with
  | Some _ => true
  | None => false
  end.

Definition validate_price (price_str : string) : bool :=
  match PyFloat.of_string price_str with
  | Some price => PyFloat.gt price PyFloat.zero
  | None => false
  end.

Definition validate_times (departure_str arrival_str : string) : bool :=
  match PyTime.strptime departure_str DATE_FORMAT with
  | Some departure =>
      match PyTime.strptime arrival_str DATE_FORMAT with
      | Some arrival => PyTime.gt arrival departure
      | None => false
      end
  | None => false
  end.

(** [errors.append(msg)] *)
Definition append (errors : list string) (msg : string) : list string :=
  errors ++ [msg].

Definition is_nil {A} (l : list A) : bool :=
  match l with [] => true | _ => false end.

(** The field-level checks of [parse_flight_record], one definition for
    each [if]/[elif] statement, threading the local list [errors]. *)

Definition check_flight_id (errors : list string) (flight_id : string)
    : list string :=
  if PyStr.is_empty flight_id then append errors "missing flight_id"
  else if negb (validate_flight_id flight_id) then
    if (String.length flight_id <? 2)%nat
    then append errors "flight_id too short (less than 2 characters)"
    else if (8 <? String.length flight_id)%nat
    then append errors "flight_id too long (more than 8 characters)"
    else append errors "flight_id must be alphanumeric"
  else errors.

Definition check_origin (errors : list string) (origin : string) : list string :=
  if PyStr.is_empty origin then append errors "missing origin"
  else if negb (validate_airport_code origin)
  then append errors "invalid origin code"
  else errors.

Definition check_destination (errors : list string) (destination : string)
    : list string :=
  if PyStr.is_empty destination then append errors "missing destination"
  else if negb (validate_airport_code destination)
  then append errors "invalid destination code"
  else errors.

Definition check_departure (errors : list string) (departure_dt : string)
    : list string :=
  if PyStr.is_empty departure_dt
  then append errors "missing departure_datetime"
  else if negb (validate_datetime departure_dt)
  then append errors "invalid departure datetime"
  else errors.

Definition check_arrival (errors : list string) (departure_dt arrival_dt : string)
    : list string :=
  if PyStr.is_empty arrival_dt
  then append errors "missing arrival_datetime"
  else if negb (validate_datetime arrival_dt)
  then append errors "invalid arrival datetime"
  else if validate_datetime departure_dt &&
          validate_datetime arrival_dt &&
          negb (validate_times departure_dt arrival_dt)
  then append errors "arrival before departure"
  else errors.

Definition check_price (errors : list string) (price : string) : list string :=
  if PyStr.is_empty price then append errors "missing price"
  else if negb (validate_price price) then
    match PyFloat.of_string price with
    | Some price_val =>
        if PyFloat.le price_val PyFloat.zero
        then append errors "price must be positive"
        else append errors "invalid price format"
    | None => append errors "invalid price format"
    end
  else errors.

(** [parse_flight_record]: returns [(is_valid, flight_data, error_messages)]. *)
Definition parse_flight_record (record : list string) (line_number : nat)
    (filename : string) : result (bool * option flight * list string) :=
  let errors : list string := [] in
  if negb (length record =? 6)%nat then
    let errors :=
      if (length record <? 6)%nat
      then append errors "missing required fields"
      else append errors "extra fields" in
    Ok (false, None, errors)
  else
  match record with
  | [flight_id; origin; destination; departure_dt; arrival_dt; price] =>
    let flight_id := PyStr.strip flight_id in
    let origin := PyStr.strip origin in
    let destination := PyStr.strip destination in
    let departure_dt := PyStr.strip departure_dt in
    let arrival_dt := PyStr.strip arrival_dt in
    let price := PyStr.strip price in
    let errors := check_flight_id errors flight_id in
    let errors := check_origin errors origin in
    let errors := check_destination errors destination in
    let errors := check_departure errors departure_dt in
    let errors := check_arrival errors departure_dt arrival_dt in
    let errors := check_price errors price in
    if negb (is_nil errors) then Ok (false, None, errors)
    else
      price_val ← match PyFloat.of_string price with
                  | Some x => Ok x
                  | None => Raise ValueError
                  end;
      let flight_data :=
        mk_flight flight_id origin destination departure_dt arrival_dt
                  (PyFloat.round2 price_val) in
      Ok (true, Some flight_data, [])
  | _ => Raise ValueError     (* the unpacking needs exactly six values *)
  end.

(** *** CSV ingestion

    [rows] is what [csv.reader] yields for the file, in order. *)

(** The body of the loop of [parse_csv_file] for one row; [None] stands
    for an exception, which ends the run.  [is_valid] is true exactly when
    [flight_data] is a flight, the only case in which it is appended. *)
Definition process_row (self : parser) (file_path : string) (line_number : nat)
    (row : list string) : option parser :=
  match row with
  | [] => Some self                                  (* skip empty lines *)
  | first :: rest =>
      if PyStr.startswith "#" (PyStr.strip first) then
        Some (mk_parser (valid_flights self)
                (errors self ++
                 [mk_diagnostic file_path line_number (PyStr.join "," row)
                    "comment line, ignored for data parsing"]))
      else if (line_number =? 1)%nat && (6 <=? length row)%nat &&
              String.eqb (PyStr.lower first) "flight_id" &&
              match rest with
              | second :: _ => String.eqb (PyStr.lower second) "origin"
              | [] => false
              end
      then Some self                                 (* header row *)
      else
        match parse_flight_record row line_number file_path with
        | Ok (true, Some flight_data, _) =>
            Some (mk_parser (valid_flights self ++ [flight_data]) (errors self))
        | Ok (_, _, errs) =>
            Some (mk_parser (valid_flights self)
                    (errors self ++
                     [mk_diagnostic file_path line_number (PyStr.join "," row)
                        (PyStr.join "; " errs)]))
        | Raise _ => None
        end
  end.

Fixpoint parse_rows (self : parser) (file_path : string) (line_number : nat)
    (rows : list (list string)) : option parser :=
  match rows with
  | [] => Some self
  | row :: rows' =>
      let line_number := S line_number in
      self' ← process_row self file_path line_number row;
      parse_rows self' file_path line_number rows'
  end.

Definition parse_csv_file (self : parser) (file_path : string)
    (rows : list (list string)) : option parser :=
  parse_rows self file_path 0 rows.

(** *** The JSON database loader *)

(** An element of the top-level array: an object, or any other value. *)
Inductive json_elem :=
| JObject (fields : gmap string pyval)
| JOther.

(** The document read by [json.load]. *)
Inductive json_doc :=
| DArray (items : list json_elem)
| DOther.

Definition required_fields : list string :=
  ["flight_id"; "origin"; "destination";
   "departure_datetime"; "arrival_datetime"; "price"].

Definition require (ok : bool) : result unit :=
  if ok then Ok tt else Raise ValueError.

Section Loader.

(** [repr] of a float, the text [str] gives for it; its digits are of no
    consequence here. *)
Variable float_repr : PyFloat.float -> string.

(** [str(v)] *)
Definition py_str (v : pyval) : string :=
  match v with
  | VStr s => s
  | VInt n => NilEmpty.string_of_int (Z.to_int n)
  | VFloat x => float_repr x
  | VBool b => if b then "True" else "False"
  | VNone => "None"
  | VOther rendering => rendering
  end.

(** [flight[field]] on an object. *)
Definition getitem (fields : gmap string pyval) (field : string) : result pyval :=
  match fields !! field with
  | Some v => Ok v
  | None => Raise ValueError
  end.

(** The body of the [try] of [load_json_database] for one element.  On a
    value that is not an object either the membership test or the
    subscript raises. *)
Definition revalidate (elem : json_elem) : result flight :=
  match elem with
  | JOther => Raise TypeError
  | JObject flight =>
      _ ← mapM (fun field => require (bool_decide (is_Some (flight !! field))))
             required_fields;
      v_id ← getitem flight "flight_id";
      _ ← require (validate_flight_id (py_str v_id));
      v_origin ← getitem flight "origin";
      _ ← require (validate_airport_code (py_str v_origin));
      v_destination ← getitem flight "destination";
      _ ← require (validate_airport_code (py_str v_destination));
      v_departure ← getitem flight "departure_datetime";
      _ ← require (validate_datetime (py_str v_departure));
      v_arrival ← getitem flight "arrival_datetime";
      _ ← require (validate_datetime (py_str v_arrival));
      _ ← require (validate_times (py_str v_departure) (py_str v_arrival));
      v_price ← getitem flight "price";
      price ← py_float v_price;
      _ ← require (negb (PyFloat.le price PyFloat.zero));
      Ok (mk_flight (py_str v_id) (py_str v_origin) (py_str v_destination)
            (py_str v_departure) (py_str v_arrival) (PyFloat.round2 price))
  end.

(** The loop over the elements: a rejected element is skipped with a
    warning, an accepted one is appended to [validated_flights]. *)
Fixpoint revalidate_all (validated_flights : list flight) (data : list json_elem)
    : list flight :=
  match data with
  | [] => validated_flights
  | elem :: data' =>
      match revalidate elem with
      | Ok f => revalidate_all (validated_flights ++ [f]) data'
      | Raise _ => revalidate_all validated_flights data'
      end
  end.

(** [load_json_database]; [None] stands for [sys.exit(1)]. *)
Definition load_json_database (self : parser) (data : json_doc) : option parser :=
  match data with
  | DOther => None
  | DArray data =>
      let validated_flights := revalidate_all [] data in
      Some (mk_parser validated_flights (errors self))
  end.

End Loader.

(** The dictionary written by [export_valid_flights] for a flight and read
    back by [json.load]. *)
Definition flight_to_json (f : flight) : json_elem :=
  JObject (<["flight_id" := VStr (flight_id f)]>
          (<["origin" := VStr (origin f)]>
          (<["destination" := VStr (destination f)]>
          (<["departure_datetime" := VStr (departure_datetime f)]>
          (<["arrival_datetime" := VStr (arrival_datetime f)]>
          (<["price" := VFloat (price f)]> ∅)))))).

(** *** The query engine *)

(** A query: the items of the query object, in order. *)
Definition query := list (string * pyval).

(** One turn of the inner loop of [execute_query]: [Ok false] when the
    turn sets [match = False] and breaks, [Ok true] when the loop goes on. *)
Definition check_field (f : flight) (field : string) (value : pyval) : result bool :=
  if String.eqb field "flight_id" then
    Ok (str_eq (flight_id f) value)
  else if String.eqb field "origin" then
    Ok (str_eq (origin f) value)
  else if String.eqb field "destination" then
    Ok (str_eq (destination f) value)
  else if String.eqb field "departure_datetime" then
    flight_dt ← py_strptime (VStr (departure_datetime f)) DATE_FORMAT;
    query_dt ← py_strptime value DATE_FORMAT;
    Ok (negb (PyTime.lt flight_dt query_dt))
  else if String.eqb field "arrival_datetime" then
    flight_dt ← py_strptime (VStr (arrival_datetime f)) DATE_FORMAT;
    query_dt ← py_strptime value DATE_FORMAT;
    Ok (negb (PyTime.gt flight_dt query_dt))
  else if String.eqb field "price" then
    match py_float value with
    | Ok query_price => Ok (negb (PyFloat.gt (price f) query_price))
    | Raise ValueError => Ok false
    | Raise e => Raise e
    end
  else Ok true.

(** The inner loop: the value of [match] when it ends. *)
Fixpoint flight_matches (f : flight) (items : query) : result bool :=
  match items with
  | [] => Ok true
  | (field, value) :: items' =>
      go_on ← check_field f field value;
      if go_on : bool then flight_matches f items' else Ok false
  end.

(** The outer loop, with [matches] as accumulator. *)
Fixpoint query_loop (q : query) (flights matches : list flight)
    : result (list flight) :=
  match flights with
  | [] => Ok matches
  | f :: flights' =>
      m ← flight_matches f q;
      query_loop q flights' (if m : bool then matches ++ [f] else matches)
  end.

Definition execute_query (self : parser) (q : query) : result (list flight) :=
  query_loop q (valid_flights self) [].

(** ** Statements of the specification *)

(** The rules of the record validator (steps 3 to 7) on the trimmed fields
    of a record: [broken_rule fid org dst dep arr prc msg] holds when the
    rule whose message is [msg] is broken. *)
Inductive broken_rule (fid org dst dep arr prc : string) : string -> Prop :=
| rule_flight_id_missing :
    fid = "" -> broken_rule fid org dst dep arr prc "missing flight_id"
| rule_flight_id_short :
    fid <> "" -> validate_flight_id fid = false -> String.length fid < 2 ->
    broken_rule fid org dst dep arr prc
      "flight_id too short (less than 2 characters)"
| rule_flight_id_long :
    fid <> "" -> validate_flight_id fid = false -> 8 < String.length fid ->
    broken_rule fid org dst dep arr prc
      "flight_id too long (more than 8 characters)"
| rule_flight_id_alnum :
    fid <> "" -> validate_flight_id fid = false ->
    2 <= String.length fid <= 8 ->
    broken_rule fid org dst dep arr prc "flight_id must be alphanumeric"
| rule_origin_missing :
    org = "" -> broken_rule fid org dst dep arr prc "missing origin"
| rule_origin_invalid :
    org <> "" -> validate_airport_code org = false ->
    broken_rule fid org dst dep arr prc "invalid origin code"
| rule_destination_missing :
    dst = "" -> broken_rule fid org dst dep arr prc "missing destination"
| rule_destination_invalid :
    dst <> "" -> validate_airport_code dst = false ->
    broken_rule fid org dst dep arr prc "invalid destination code"
| rule_departure_missing :
    dep = "" -> broken_rule fid org dst dep arr prc "missing departure_datetime"
| rule_departure_invalid :
    dep <> "" -> validate_datetime dep = false ->
    broken_rule fid org dst dep arr prc "invalid departure datetime"
| rule_arrival_missing :
    arr = "" -> broken_rule fid org dst dep arr prc "missing arrival_datetime"
| rule_arrival_invalid :
    arr <> "" -> validate_datetime arr = false ->
    broken_rule fid org dst dep arr prc "invalid arrival datetime"
| rule_arrival_order :
    validate_datetime dep = true -> validate_datetime arr = true ->
    validate_times dep arr = false ->
    broken_rule fid org dst dep arr prc "arrival before departure"
| rule_price_missing :
    prc = "" -> broken_rule fid org dst dep arr prc "missing price"
| rule_price_not_positive x :
    prc <> "" -> PyFloat.of_string prc = Some x ->
    PyFloat.le x PyFloat.zero = true ->
    broken_rule fid org dst dep arr prc "price must be positive"
| rule_price_format :
    prc <> "" -> validate_price prc = false ->
    (forall x, PyFloat.of_string prc = Some x ->
               PyFloat.le x PyFloat.zero = false) ->
    broken_rule fid org dst dep arr prc "invalid price format".

(** The record that passes re-validation, if it does. *)
Definition accepted (float_repr : PyFloat.float -> string) (elem : json_elem)
    : option flight :=
  match revalidate float_repr elem with
  | Ok f => Some f
  | Raise _ => None
  end.

(** The field names a query can filter on. *)
Definition recognized (field : string) : bool :=
  bool_decide (field ∈ required_fields).

(** A flight of the valid collection: its two timestamps parse. *)
Definition flight_ok (f : flight) : bool :=
  validate_datetime (departure_datetime f) &&
  validate_datetime (arrival_datetime f).

(** "Not earlier than" and "not later than" on timestamps. *)
Definition not_earlier (t q : PyTime.datetime) : Prop := PyTime.compare t q <> Lt.
Definition not_later (t q : PyTime.datetime) : Prop := PyTime.compare t q <> Gt.

(** The predicate of one query entry on a flight (section 4.5): equality
    for the three text fields, "departs on or after", "arrives on or
    before", "costs at most"; an entry with another name holds of every
    flight. *)
Definition satisfies (f : flight) (entry : string * pyval) : bool :=
  let '(field, value) := entry in
  if String.eqb field "flight_id" then str_eq (flight_id f) value
  else if String.eqb field "origin" then str_eq (origin f) value
  else if String.eqb field "destination" then str_eq (destination f) value
  else if String.eqb field "departure_datetime" then
    match PyTime.strptime (departure_datetime f) DATE_FORMAT,
          py_strptime value DATE_FORMAT with
    | Some flight_dt, Ok query_dt =>
        bool_decide (not_earlier flight_dt query_dt)
    | _, _ => false
    end
  else if String.eqb field "arrival_datetime" then
    match PyTime.strptime (arrival_datetime f) DATE_FORMAT,
          py_strptime value DATE_FORMAT with
    | Some flight_dt, Ok query_dt =>
        bool_decide (not_later flight_dt query_dt)
    | _, _ => false
    end
  else if String.eqb field "price" then
    match py_float value with
    | Ok query_price => negb (PyFloat.gt (price f) query_price)
    | Raise _ => false
    end
  else true.

(** A query the engine can evaluate: its timestamps parse and its price is
    text or a number within the range of floats. *)
Definition entry_ok (entry : string * pyval) : bool :=
  let '(field, value) := entry in
  if String.eqb field "departure_datetime" || String.eqb field "arrival_datetime"
  then is_ok (py_strptime value DATE_FORMAT)
  else if String.eqb field "price" then
    match py_float value with
    | Raise TypeError | Raise OverflowError => false
    | _ => true
    end
  else true.

Definition query_ok (q : query) : bool := forallb entry_ok q.

(** The list the six checks build, one segment for each field. *)
Definition field_errors (fid org dst dep arr prc : string) : list string :=
  check_flight_id [] fid ++ check_origin [] org ++ check_destination [] dst ++
  check_departure [] dep ++ check_arrival [] dep arr ++ check_price [] prc.

Ltac one_msg H :=
  simpl in H; destruct H as [<-|[]].

(** The flights of scenario 4, priced 150.00 and 150.01. *)
Definition flight_150_00 : flight :=
  mk_flight "AB1" "JFK" "LAX" "2024-01-01 10:00" "2024-01-01 14:00"
    (S754_finite false 5277655813324800 (-45)).
Definition flight_150_01 : flight :=
  mk_flight "AB2" "JFK" "LAX" "2024-01-01 10:00" "2024-01-01 14:00"
    (S754_finite false 5278007657045688 (-45)).

(** The states a run can reach: a fresh parser, then CSV files and JSON
    databases loaded in any order. *)
Inductive reachable (float_repr : PyFloat.float -> string) : parser -> Prop :=
| reach_init : reachable float_repr init
| reach_csv self file_path rows self' :
    reachable float_repr self ->
    parse_csv_file self file_path rows = Some self' ->
    reachable float_repr self'
| reach_json self data self' :
    reachable float_repr self ->
    load_json_database float_repr self data = Some self' ->
    reachable float_repr self'.

(** Steps through a chain of binds that is known to return. *)
Ltac step_bind H :=
  match type of H with
  | (?m ≫= _) = Ok _ =>
      let E := fresh "E" in
      destruct m eqn:E; [|discriminate H];
      change (mbind ?k (Ok ?a)) with (k a) in H; cbv beta in H
  end.

(** [n] repetitions are allowed by the bounds [lo] and [hi]. *)
Definition within (lo : nat) (hi : option nat) (n : nat) : Prop :=
  lo <= n /\ match hi with Some h => n <= h | None => True end.

(** The text of a timestamp in the form YYYY-MM-DD HH:MM: four digits for
    the year, two for each of the other fields. *)
Definition digit_char (d : nat) : ascii := ascii_of_nat (48 + d).

Definition two_digits (v : nat) : list ascii :=
  [digit_char (v / 10); digit_char (v mod 10)].

Definition canonical (y1 y2 y3 y4 : ascii) (m d h n : nat) : string :=
  string_of_list_ascii
    (y1 :: y2 :: y3 :: y4 :: "-"%char ::
     two_digits m ++ "-"%char :: two_digits d ++ " "%char ::
     two_digits h ++ ":"%char :: two_digits n).

(** The regular expression of a directive of the format. *)
Definition directive_re (d : string) : Re.regex :=
  match d with
  | String c _ => default (Re.cat_all []) (PyTime.directive c)
  | EmptyString => Re.cat_all []
  end.

(** The collections of [b] appended to those of [a]. *)
Definition extend (a b : parser) : parser :=
  mk_parser (valid_flights a ++ valid_flights b) (errors a ++ errors b).

(** A row that the ingestion loop takes for a header when it is on line 1:
    at least six fields, the first two reading flight_id and origin in any
    letter case. *)
Definition header_like (row : list string) : bool :=
  match row with
  | first :: second :: _ =>
      (6 <=? length row)%nat &&
      String.eqb (PyStr.lower first) "flight_id" &&
      String.eqb (PyStr.lower second) "origin"
  | _ => false
  end.

(** A row that starts with the comment mark. *)
Definition comment_row (row : list string) : bool :=
  match row with
  | first :: _ => PyStr.startswith "#" (PyStr.strip first)
  | [] => false
  end.

(** The rows that leave a trace: all but the empty rows and a header on
    line 1. *)
Definition recorded (line : nat) (row : list string) : bool :=
  negb (is_nil row) &&
  (comment_row row || negb ((line =? 1)%nat && header_like row)).

(** How many of the rows numbered from [line + 1] on are recorded. *)
Fixpoint count_recorded (line : nat) (rows : list (list string)) : nat :=
  match rows with
  | [] => 0
  | row :: rows' =>
      (if recorded (S line) row then 1 else 0) + count_recorded (S line) rows'
  end.

(** *** Directory mode

    [csv_files] is what [folder.glob("*.csv")] lists, in any order: each
    file with its name and the rows [csv.reader] yields for it, or [None]
    when it cannot be read.  Paths of one folder compare as their names do,
    by code points. *)
Definition csv_file := (string * option (list (list string)))%type.

(** [sorted(csv_files)], as a stable insertion sort. *)
Fixpoint insert_file (f : csv_file) (l : list csv_file) : list csv_file :=
  match l with
  | [] => [f]
  | g :: l' =>
      if String.leb (fst f) (fst g) then f :: l else g :: insert_file f l'
  end.

Definition sorted_files (l : list csv_file) : list csv_file :=
  foldr insert_file [] l.

(** The loop of [parse_csv_folder]; a file that cannot be read ends the
    run. *)
Fixpoint parse_files (self : parser) (files : list csv_file) : option parser :=
  match files with
  | [] => Some self
  | (path, Some rows) :: files' =>
      self' ← parse_csv_file self path rows;
      parse_files self' files'
  | (_, None) :: _ => None
  end.

(** [parse_csv_folder]; [folder] is [None] when the folder does not exist,
    which ends the run. *)
Definition parse_csv_folder (self : parser) (folder : option (list csv_file))
    : option parser :=
  match folder with
  | None => None
  | Some csv_files =>
      if is_nil csv_files then Some self
      else parse_files self (sorted_files csv_files)
  end.

(** A list of line numbers that increases strictly, from above [lo]. *)
Fixpoint increasing_from (lo : nat) (l : list nat) : Prop :=
  match l with
  | [] => True
  | n :: l' => lo < n /\ increasing_from n l'
  end.

(** Files listed by ascending name. *)
Fixpoint names_ascending (l : list csv_file) : Prop :=
  match l with
  | [] => True
  | f :: l' =>
      Forall (fun g => String.leb (fst f) (fst g) = true) l' /\
      names_ascending l'
  end.

(** A well-formed flight: every field passes its validator, the arrival is
    after the departure and the price is not negative. *)
Definition flight_wf (f : flight) : bool :=
  validate_flight_id (flight_id f) &&
  validate_airport_code (origin f) &&
  validate_airport_code (destination f) &&
  validate_datetime (departure_datetime f) &&
  validate_datetime (arrival_datetime f) &&
  validate_times (departure_datetime f) (arrival_datetime f) &&
  negb (PyFloat.lt (price f) PyFloat.zero).

(** [export_valid_flights]: the document written to the output path, as
    [json.load] reads it back; [None] when nothing is written. *)
Definition export_valid_flights (self : parser) : option json_doc :=
  if is_nil (valid_flights self) then None
  else Some (DArray (map flight_to_json (valid_flights self))).

(** An object of a JSON database whose six fields are texts. *)
Definition text_record (fid org dst dep arr prc : string) : json_elem :=
  JObject (<["flight_id" := VStr fid]>
          (<["origin" := VStr org]>
          (<["destination" := VStr dst]>
          (<["departure_datetime" := VStr dep]>
          (<["arrival_datetime" := VStr arr]>
          (<["price" := VStr prc]> ∅)))))).

(** What the loader makes of a stored flight that is written out and read
    back: nothing when the price is zero or less, else the flight with its
    price rounded again. *)
Definition reloaded (f : flight) : option flight :=
  if PyFloat.le (price f) PyFloat.zero then None
  else Some (mk_flight (flight_id f) (origin f) (destination f)
               (departure_datetime f) (arrival_datetime f)
               (PyFloat.round2 (price f))).

(** An entry the engine cannot evaluate, with the exception it raises: a
    timestamp entry whose value [strptime] refuses, or a price entry whose
    value [float] refuses with anything but the [ValueError] the engine
    catches. *)
Definition aborts_with (entry : string * pyval) (e : exn) : Prop :=
  let '(field, value) := entry in
  ((field = "departure_datetime" \/ field = "arrival_datetime") /\
   py_strptime value DATE_FORMAT = Raise e) \/
  (field = "price" /\ py_float value = Raise e /\ e <> ValueError).

(** *** Queries from a file *)

(** An element of the array of a query file: an object, with its items, or
    any other value. *)
Inductive query_elem :=
| QObject (q : query)
| QOther.

(** The document read from the query file. *)
Inductive query_doc :=
| QDict (q : query)
| QList (queries : list query_elem)
| QScalar.

(** [self.execute_query(query)] inside the [try]: [None] stands for an
    exception.  On a value that is not an object [query.items()] raises
    as soon as the loop over the flights is entered. *)
Definition run_query (self : parser) (query : query_elem)
    : option (list flight) :=
  match query with
  | QObject q =>
      match execute_query self q with
      | Ok matches => Some matches
      | Raise _ => None
      end
  | QOther => if is_nil (valid_flights self) then Some [] else None
  end.

(** The loop over the queries, with [results] as accumulator. *)
Fixpoint run_queries (self : parser) (queries : list query_elem)
    (results : list (query_elem * list flight))
    : option (list (query_elem * list flight)) :=
  match queries with
  | [] => Some results
  | query :: queries' =>
      matches ← run_query self query;
      run_queries self queries' (results ++ [(query, matches)])
  end.

(** [execute_queries_from_file]; [None] stands for [sys.exit(1)]. *)
Definition execute_queries_from_file (self : parser) (queries_data : query_doc)
    : option (list (query_elem * list flight)) :=
  match queries_data with
  | QDict q => run_queries self [QObject q] []
  | QList queries => run_queries self queries []
  | QScalar => None
  end.

(** What the engine is to return for a query on a collection. *)
Definition selected (self : parser) (q : query) : list flight :=
  List.filter (fun f => forallb (satisfies f) q) (valid_flights self).

(** *** The error report *)

(** [sub in s] for two texts. *)
Fixpoint contains (sub s : string) : bool :=
  String.prefix sub s ||
  match s with
  | EmptyString => false
  | String _ s' => contains sub s'
  end.

(** [str(n)] for a line number. *)
Definition str_nat (n : nat) : string :=
  NilEmpty.string_of_uint (Nat.to_uint n).

(** The text an f-string of [export_errors] gives: line number, row, the
    separator and the message, ended by a line feed. *)
Definition report_line (arrow : string) (n : nat) (line_content message : string)
    : string :=
  "Line " ++ str_nat n ++ ": " ++ line_content ++ arrow ++ message ++
  String "010"%char "".

Section ErrorReport.

(** The separator of the report, a blank, the arrow U+2192 and a blank;
    the arrow has no code point in [string], so the text is left open. *)
Variable arrow : string.

(** The body of the loop of [export_errors]: the line written for one
    diagnostic. *)
Definition error_line (entry : diagnostic) : string :=
  let line_content := raw_line entry in
  if contains "comment line" (error entry) then
    report_line arrow (line_number entry) line_content
      "comment line, ignored for data parsing"
  else
    report_line arrow (line_number entry) line_content (error entry).

(** [export_errors]: the lines written to the report, [None] when no file
    is written. *)
Definition export_errors (self : parser) : option (list string) :=
  if is_nil (errors self) then None
  else Some (map error_line (errors self)).

End ErrorReport.

(** The messages each check of the record validator can add. *)
Definition flight_id_messages : list (list string) :=
  [[]; ["missing flight_id"];
   ["flight_id too short (less than 2 characters)"];
   ["flight_id too long (more than 8 characters)"];
   ["flight_id must be alphanumeric"]].
Definition origin_messages : list (list string) :=
  [[]; ["missing origin"]; ["invalid origin code"]].
Definition destination_messages : list (list string) :=
  [[]; ["missing destination"]; ["invalid destination code"]].
Definition departure_messages : list (list string) :=
  [[]; ["missing departure_datetime"]; ["invalid departure datetime"]].
Definition arrival_messages : list (list string) :=
  [[]; ["missing arrival_datetime"]; ["invalid arrival datetime"];
   ["arrival before departure"]].
Definition price_messages : list (list string) :=
  [[]; ["missing price"]; ["price must be positive"]; ["invalid price format"]].

(** Every list of messages [parse_flight_record] can return. *)
Definition error_lists : list (list string) :=
  [["missing required fields"]; ["extra fields"]] ++
  flat_map (fun a => flat_map (fun b => flat_map (fun c =>
  flat_map (fun d => flat_map (fun e => flat_map (fun f =>
    [a ++ b ++ c ++ d ++ e ++ f])%list
  price_messages) arrival_messages) departure_messages)
  destination_messages) origin_messages) flight_id_messages.

Definition comment_message : string := "comment line, ignored for data parsing".

Definition newline : ascii := "010"%char.

(** ** Properties *)

(** *** The record validator *)

(** C6: a record with fewer than six fields yields no flight and the single
    error "missing required fields", one with more than six fields yields no
    flight and the single error "extra fields"; no field is looked at. *)
Theorem parse_flight_record_arity (record : list string) (line : nat)
    (filename : string) :
  (length record < 6 ->
   parse_flight_record record line filename
   = Ok (false, None, ["missing required fields"])) /\
  (6 < length record ->
   parse_flight_record record line filename
   = Ok (false, None, ["extra fields"])).
Proof.
  unfold parse_flight_record, append.
  split; intros Hlen.
  - destruct (Nat.eqb_spec (length record) 6) as [E|_]; [lia|].
    destruct (Nat.ltb_spec (length record) 6); [reflexivity|lia].
  - destruct (Nat.eqb_spec (length record) 6) as [E|_]; [lia|].
    destruct (Nat.ltb_spec (length record) 6); [lia|reflexivity].
Qed.

Lemma parse_flight_record_arity_witness :
  parse_flight_record ["AB1"; "JFK"] 2 "flights.csv"
  = Ok (false, None, ["missing required fields"]) /\
  parse_flight_record ["AB1"; "JFK"; "LAX"; "x"; "y"; "100"; "extra"] 3 "flights.csv"
  = Ok (false, None, ["extra fields"]).
Proof.
  split.
  - apply (proj1 (parse_flight_record_arity ["AB1"; "JFK"] 2 "flights.csv")).
    simpl. lia.
  - apply (proj2 (parse_flight_record_arity
                    ["AB1"; "JFK"; "LAX"; "x"; "y"; "100"; "extra"] 3 "flights.csv")).
    simpl. lia.
Defined.

Lemma is_empty_true (s : string) : PyStr.is_empty s = true <-> s = "".
Proof. destruct s; simpl; split; congruence. Qed.

Lemma is_empty_false (s : string) : PyStr.is_empty s = false <-> s <> "".
Proof. destruct s; simpl; split; congruence. Qed.

(** Each check only appends to the list it is given. *)

Lemma check_flight_id_app errors s :
  check_flight_id errors s = (errors ++ check_flight_id [] s)%list.
Proof.
  unfold check_flight_id, append.
  repeat match goal with |- context [if ?c then _ else _] => destruct c end;
    simpl; now rewrite ?app_nil_r.
Qed.

Lemma check_origin_app errors s :
  check_origin errors s = (errors ++ check_origin [] s)%list.
Proof.
  unfold check_origin, append.
  repeat match goal with |- context [if ?c then _ else _] => destruct c end;
    simpl; now rewrite ?app_nil_r.
Qed.

Lemma check_destination_app errors s :
  check_destination errors s = (errors ++ check_destination [] s)%list.
Proof.
  unfold check_destination, append.
  repeat match goal with |- context [if ?c then _ else _] => destruct c end;
    simpl; now rewrite ?app_nil_r.
Qed.

Lemma check_departure_app errors s :
  check_departure errors s = (errors ++ check_departure [] s)%list.
Proof.
  unfold check_departure, append.
  repeat match goal with |- context [if ?c then _ else _] => destruct c end;
    simpl; now rewrite ?app_nil_r.
Qed.

Lemma check_arrival_app errors d s :
  check_arrival errors d s = (errors ++ check_arrival [] d s)%list.
Proof.
  unfold check_arrival, append.
  repeat match goal with |- context [if ?c then _ else _] => destruct c end;
    simpl; now rewrite ?app_nil_r.
Qed.

Lemma check_price_app errors s :
  check_price errors s = (errors ++ check_price [] s)%list.
Proof.
  unfold check_price, append.
  destruct (PyStr.is_empty s); [reflexivity|].
  destruct (negb (validate_price s)); [|now rewrite app_nil_r].
  destruct (PyFloat.of_string s) as [x|]; [|reflexivity].
  now destruct (PyFloat.le x PyFloat.zero).
Qed.

Lemma checks_field_errors fid org dst dep arr prc :
  check_price
    (check_arrival
       (check_departure
          (check_destination (check_origin (check_flight_id [] fid) org) dst)
          dep) dep arr) prc
  = field_errors fid org dst dep arr prc.
Proof.
  unfold field_errors.
  rewrite check_price_app, check_arrival_app, check_departure_app,
    check_destination_app, check_origin_app.
  now rewrite <- !app_assoc.
Qed.

(** No positive float is at most zero. *)
Lemma float_le_zero_not_gt (x : PyFloat.float) :
  PyFloat.le x PyFloat.zero = true -> PyFloat.gt x PyFloat.zero = false.
Proof.
  unfold PyFloat.le, PyFloat.gt, PyFloat.zero, SFleb, SFltb.
  destruct x as [s|s| |s m e]; simpl; try destruct s; simpl; congruence.
Qed.

Lemma field_errors_sound fid org dst dep arr prc msg :
  In msg (field_errors fid org dst dep arr prc) ->
  broken_rule fid org dst dep arr prc msg.
Proof.
  unfold field_errors. rewrite !in_app_iff.
  intros [H|[H|[H|[H|[H|H]]]]].
  - unfold check_flight_id, append in H.
    destruct (PyStr.is_empty fid) eqn:E.
    { one_msg H. apply rule_flight_id_missing. now apply is_empty_true. }
    apply is_empty_false in E.
    destruct (validate_flight_id fid) eqn:V; simpl in H; [contradiction|].
    destruct (Nat.ltb_spec (String.length fid) 2).
    { one_msg H. now apply rule_flight_id_short. }
    destruct (Nat.ltb_spec 8 (String.length fid)).
    { one_msg H. now apply rule_flight_id_long. }
    one_msg H. apply rule_flight_id_alnum; auto with lia.
  - unfold check_origin, append in H.
    destruct (PyStr.is_empty org) eqn:E.
    { one_msg H. apply rule_origin_missing. now apply is_empty_true. }
    apply is_empty_false in E.
    destruct (validate_airport_code org) eqn:V; simpl in H; [contradiction|].
    one_msg H. now apply rule_origin_invalid.
  - unfold check_destination, append in H.
    destruct (PyStr.is_empty dst) eqn:E.
    { one_msg H. apply rule_destination_missing. now apply is_empty_true. }
    apply is_empty_false in E.
    destruct (validate_airport_code dst) eqn:V; simpl in H; [contradiction|].
    one_msg H. now apply rule_destination_invalid.
  - unfold check_departure, append in H.
    destruct (PyStr.is_empty dep) eqn:E.
    { one_msg H. apply rule_departure_missing. now apply is_empty_true. }
    apply is_empty_false in E.
    destruct (validate_datetime dep) eqn:V; simpl in H; [contradiction|].
    one_msg H. now apply rule_departure_invalid.
  - unfold check_arrival, append in H.
    destruct (PyStr.is_empty arr) eqn:E.
    { one_msg H. apply rule_arrival_missing. now apply is_empty_true. }
    apply is_empty_false in E.
    destruct (validate_datetime arr) eqn:V; simpl in H.
    2:{ one_msg H. now apply rule_arrival_invalid. }
    destruct (validate_datetime dep) eqn:V'; simpl in H; [|contradiction].
    destruct (validate_times dep arr) eqn:T; simpl in H; [contradiction|].
    one_msg H. now apply rule_arrival_order.
  - unfold check_price, append in H.
    destruct (PyStr.is_empty prc) eqn:E.
    { one_msg H. apply rule_price_missing. now apply is_empty_true. }
    apply is_empty_false in E.
    destruct (validate_price prc) eqn:V; simpl in H; [contradiction|].
    destruct (PyFloat.of_string prc) as [x|] eqn:P.
    + destruct (PyFloat.le x PyFloat.zero) eqn:L; one_msg H.
      * now apply rule_price_not_positive with x.
      * apply rule_price_format; auto. intros y Hy. congruence.
    + one_msg H. apply rule_price_format; auto. intros y Hy. congruence.
Qed.

Lemma field_errors_complete fid org dst dep arr prc msg :
  broken_rule fid org dst dep arr prc msg ->
  In msg (field_errors fid org dst dep arr prc).
Proof.
  unfold field_errors. rewrite !in_app_iff.
  destruct 1;
    repeat match goal with
    | H : ?s = "" |- _ => apply is_empty_true in H
    | H : ?s <> "" |- _ => apply is_empty_false in H
    end.
  - left. unfold check_flight_id. rewrite H. now left.
  - left. unfold check_flight_id. rewrite H, H0. simpl.
    destruct (Nat.ltb_spec (String.length fid) 2); [now left|lia].
  - left. unfold check_flight_id. rewrite H, H0. simpl.
    destruct (Nat.ltb_spec (String.length fid) 2); [lia|].
    destruct (Nat.ltb_spec 8 (String.length fid)); [now left|lia].
  - left. unfold check_flight_id. rewrite H, H0. simpl.
    destruct (Nat.ltb_spec (String.length fid) 2); [lia|].
    destruct (Nat.ltb_spec 8 (String.length fid)); [lia|now left].
  - right; left. unfold check_origin. rewrite H. now left.
  - right; left. unfold check_origin. rewrite H, H0. now left.
  - do 2 right; left. unfold check_destination. rewrite H. now left.
  - do 2 right; left. unfold check_destination. rewrite H, H0. now left.
  - do 3 right; left. unfold check_departure. rewrite H. now left.
  - do 3 right; left. unfold check_departure. rewrite H, H0. now left.
  - do 4 right; left. unfold check_arrival. rewrite H. now left.
  - do 4 right; left. unfold check_arrival. rewrite H, H0. now left.
  - do 4 right; left. unfold check_arrival.
    destruct (PyStr.is_empty arr) eqn:E.
    { apply is_empty_true in E. subst arr. discriminate. }
    rewrite H, H0, H1. now left.
  - do 5 right. unfold check_price. rewrite H. now left.
  - do 5 right. unfold check_price. rewrite H.
    unfold validate_price. rewrite H0, (float_le_zero_not_gt _ H1), H1.
    now left.
  - do 5 right. unfold check_price. rewrite H, H0. simpl.
    destruct (PyFloat.of_string prc) as [x|] eqn:P; [|now left].
    rewrite (H1 x eq_refl). now left.
Qed.

Lemma field_errors_nil_price fid org dst dep arr prc :
  field_errors fid org dst dep arr prc = [] ->
  exists x, PyFloat.of_string prc = Some x.
Proof.
  unfold field_errors. intros H.
  repeat (apply app_eq_nil in H; destruct H as [_ H]).
  unfold check_price, append, validate_price in H.
  destruct (PyStr.is_empty prc); [discriminate|].
  destruct (PyFloat.of_string prc) as [x|]; [now exists x|discriminate].
Qed.

Lemma validate_datetime_empty : validate_datetime "" = false.
Proof. vm_compute. reflexivity. Qed.

Lemma order_only_when_valid fid org dst dep arr prc errs :
  (forall msg, In msg errs <-> broken_rule fid org dst dep arr prc msg) ->
  In "arrival before departure" errs ->
  validate_datetime dep = true /\ validate_datetime arr = true /\
  ~ In "invalid departure datetime" errs /\
  ~ In "invalid arrival datetime" errs /\
  ~ In "missing departure_datetime" errs /\
  ~ In "missing arrival_datetime" errs.
Proof.
  intros Hiff Hin. apply Hiff in Hin.
  inversion Hin as [| | | | | | | | | | | | Hd Ha Ht | | |].
  repeat split; auto; intros Hbad; apply Hiff in Hbad; inversion Hbad; subst;
    try congruence; rewrite validate_datetime_empty in *; discriminate.
Qed.

(** C1: for a record of six fields the validator returns the messages of
    all the broken rules, not only the first; "arrival before departure" is
    among them only when both timestamps are valid, so never beside a
    missing or malformed timestamp; the record of scenario 2 yields both
    the flight_id message and the ordering message. *)
Theorem parse_flight_record_accumulates :
  (forall (f1 f2 f3 f4 f5 f6 : string) (line : nat) (filename : string),
     let fid := PyStr.strip f1 in
     let org := PyStr.strip f2 in
     let dst := PyStr.strip f3 in
     let dep := PyStr.strip f4 in
     let arr := PyStr.strip f5 in
     let prc := PyStr.strip f6 in
     exists valid data errs,
       parse_flight_record [f1; f2; f3; f4; f5; f6] line filename
       = Ok (valid, data, errs) /\
       (forall msg, In msg errs <-> broken_rule fid org dst dep arr prc msg) /\
       (errs <> [] -> valid = false /\ data = None) /\
       (errs = [] -> valid = true /\ exists fl, data = Some fl) /\
       (In "arrival before departure" errs ->
        validate_datetime dep = true /\ validate_datetime arr = true /\
        ~ In "invalid departure datetime" errs /\
        ~ In "invalid arrival datetime" errs /\
        ~ In "missing departure_datetime" errs /\
        ~ In "missing arrival_datetime" errs)) /\
  parse_flight_record
    ["A"; "JFK"; "LAX"; "2024-01-01 10:00"; "2024-01-01 09:00"; "100"]
    1 "flights.csv"
  = Ok (false, None,
        ["flight_id too short (less than 2 characters)";
         "arrival before departure"]).
Proof.
  split; [|vm_compute; reflexivity].
  intros f1 f2 f3 f4 f5 f6 line filename fid org dst dep arr prc.
  assert (Hiff : forall msg,
             In msg (field_errors fid org dst dep arr prc) <->
             broken_rule fid org dst dep arr prc msg).
  { intros msg; split;
      [apply field_errors_sound | apply field_errors_complete]. }
  pose proof (order_only_when_valid _ _ _ _ _ _ _ Hiff) as Horder.
  unfold parse_flight_record.
  change (negb (length [f1; f2; f3; f4; f5; f6] =? 6)%nat) with false.
  cbv iota zeta.
  fold fid org dst dep arr prc.
  rewrite checks_field_errors.
  destruct (field_errors fid org dst dep arr prc) as [|e errs] eqn:E.
  - destruct (field_errors_nil_price _ _ _ _ _ _ E) as [x Hx].
    rewrite Hx. simpl.
    eexists _, _, _. split; [reflexivity|].
    split; [exact Hiff|].
    split; [congruence|].
    split; [eauto|].
    intros [].
  - simpl negb. cbv iota.
    eexists _, _, _. split; [reflexivity|].
    split; [exact Hiff|].
    split; [auto|].
    split; [discriminate|].
    exact Horder.
Qed.

(** *** The field validators *)

(** C8: the pattern of [validate_flight_id] ends with [$], which also
    matches before a final newline: the three-character text "AB" followed
    by a newline is accepted, and the loader, which does not trim, stores
    it as a flight_id. *)
Theorem validate_flight_id_trailing_newline (float_repr : PyFloat.float -> string) :
  let fid := String "A" (String "B" (String newline "")) in
  String.length fid = 3 /\
  PyStr.isalnum_ascii newline = false /\
  validate_flight_id fid = true /\
  flight_id <$> accepted float_repr
    (JObject (<["flight_id" := VStr fid]>
             (<["origin" := VStr "JFK"]>
             (<["destination" := VStr "LAX"]>
             (<["departure_datetime" := VStr "2024-01-01 10:00"]>
             (<["arrival_datetime" := VStr "2024-01-01 14:00"]>
             (<["price" := VInt 100]> ∅)))))))
  = Some fid.
Proof. vm_compute. repeat split; reflexivity. Qed.

(** C3: [strptime] takes months, days, hours and minutes of one digit, a
    day written as a space and a digit, and any run of whitespace between
    date and time: [validate_datetime] accepts texts that are not of the
    form YYYY-MM-DD HH:MM. *)
Theorem validate_datetime_accepts_unpadded :
  validate_datetime "2024-1-1 9:5" = true /\
  PyTime.strptime "2024-1-1 9:5" DATE_FORMAT
  = Some (PyTime.mk_datetime 2024 1 1 9 5) /\
  validate_datetime "2024-01- 5 10:00" = true /\
  validate_datetime "2024-01-01   10:00" = true.
Proof. vm_compute. repeat split; reflexivity. Qed.

(** *** CSV ingestion *)

(** C7 fails for a row made of one empty field: the validator is called
    and its arity error is recorded. *)
Lemma single_empty_field_row_not_skipped :
  parse_csv_file init "flights.csv" [[""]]
  = Some (mk_parser []
            [mk_diagnostic "flights.csv" 1 "" "missing required fields"]) /\
  parse_csv_file init "flights.csv" [[""]] <> Some init.
Proof. split; [vm_compute; reflexivity | vm_compute; discriminate]. Qed.

(** C7, amended: a row without fields is skipped, both collections stay as
    they are (only the line count advances); a row made of one empty field
    goes to the record validator and adds the diagnostic "missing required
    fields". *)
Theorem empty_row_skipped (self : parser) (file_path : string) (line : nat)
    (rows : list (list string)) :
  process_row self file_path line [] = Some self /\
  parse_rows self file_path line ([] :: rows)
  = parse_rows self file_path (S line) rows /\
  process_row self file_path line [""]
  = Some (mk_parser (valid_flights self)
            (errors self ++
             [mk_diagnostic file_path line "" "missing required fields"])).
Proof.
  repeat split.
  unfold process_row. simpl.
  destruct (line =? 1)%nat; reflexivity.
Qed.

(** *** The JSON database loader *)

Lemma revalidate_all_acc float_repr (data : list json_elem) (acc : list flight) :
  revalidate_all float_repr acc data
  = (acc ++ omap (accepted float_repr) data)%list.
Proof.
  revert acc; induction data as [|elem data IH]; intros acc; simpl.
  - now rewrite app_nil_r.
  - unfold accepted at 1.
    destruct (revalidate float_repr elem) as [f|e]; rewrite IH.
    + now rewrite <- app_assoc.
    + reflexivity.
Qed.

(** C10: when the loader completes, the collection is the list of the
    records of the document that pass re-validation, in document order;
    the flights held before the call are gone.  A document that is not an
    array ends the run. *)
Theorem load_json_database_replaces (float_repr : PyFloat.float -> string)
    (self : parser) :
  (forall data : list json_elem,
     load_json_database float_repr self (DArray data)
     = Some (mk_parser (omap (accepted float_repr) data) (errors self))) /\
  load_json_database float_repr self DOther = None.
Proof.
  split; [|reflexivity].
  intros data. unfold load_json_database.
  now rewrite revalidate_all_acc.
Qed.

(** C9: the price is checked before it is rounded.  The record with price
    "0.001" is accepted and stored with price 0.0; the loader rejects that
    flight, its price not being positive. *)
Theorem roundtrip_fails_on_small_price (float_repr : PyFloat.float -> string) :
  let stored := mk_flight "AB1" "JFK" "LAX" "2024-01-01 10:00"
                  "2024-01-01 14:00" (S754_zero false) in
  parse_flight_record
    ["AB1"; "JFK"; "LAX"; "2024-01-01 10:00"; "2024-01-01 14:00"; "0.001"]
    1 "flights.csv"
  = Ok (true, Some stored, []) /\
  revalidate float_repr (flight_to_json stored) = Raise ValueError /\
  load_json_database float_repr init (DArray [flight_to_json stored])
  = Some init.
Proof. vm_compute. repeat split; reflexivity. Qed.

(** *** The query engine *)

Lemma validate_datetime_parses (s : string) :
  validate_datetime s = true ->
  exists t, PyTime.strptime s DATE_FORMAT = Some t.
Proof.
  unfold validate_datetime.
  destruct (PyTime.strptime s DATE_FORMAT) as [t|]; [eauto|discriminate].
Qed.

Lemma lt_not_earlier (t q : PyTime.datetime) :
  negb (PyTime.lt t q) = bool_decide (not_earlier t q).
Proof.
  unfold PyTime.lt, not_earlier.
  destruct (PyTime.compare t q); case_bool_decide; simpl; congruence.
Qed.

Lemma gt_not_later (t q : PyTime.datetime) :
  negb (PyTime.gt t q) = bool_decide (not_later t q).
Proof.
  unfold PyTime.gt, not_later.
  destruct (PyTime.compare t q); case_bool_decide; simpl; congruence.
Qed.

Lemma compare_refl (t : PyTime.datetime) : PyTime.compare t t = Eq.
Proof. unfold PyTime.compare. now rewrite !Z.compare_refl. Qed.

Lemma compare_eq (a b : PyTime.datetime) : PyTime.compare a b = Eq -> a = b.
Proof.
  destruct a as [y m d h n], b as [y' m' d' h' n'].
  unfold PyTime.compare; simpl.
  destruct (Z.compare_spec y y'); try discriminate.
  destruct (Z.compare_spec m m'); try discriminate.
  destruct (Z.compare_spec d d'); try discriminate.
  destruct (Z.compare_spec h h'); try discriminate.
  destruct (Z.compare_spec n n'); try discriminate.
  intros _. congruence.
Qed.

(** [x > x] is false for every float. *)
Lemma float_gt_irrefl (x : PyFloat.float) : PyFloat.gt x x = false.
Proof.
  unfold PyFloat.gt, SFltb.
  destruct x as [s|s| |s m e]; simpl; try destruct s; simpl; try reflexivity.
  all: rewrite Z.compare_refl, Pos.compare_cont_refl; reflexivity.
Qed.

(** On a flight of the collection and an entry the engine can evaluate,
    one turn of the inner loop computes the predicate of the entry. *)
Lemma check_field_satisfies (f : flight) (field : string) (value : pyval) :
  flight_ok f = true -> entry_ok (field, value) = true ->
  check_field f field value = Ok (satisfies f (field, value)).
Proof.
  unfold flight_ok, entry_ok, check_field, satisfies.
  intros Hf He. apply andb_true_iff in Hf as [Hd Ha].
  apply validate_datetime_parses in Hd as [td Hd].
  apply validate_datetime_parses in Ha as [ta Ha].
  destruct (String.eqb field "flight_id"); [reflexivity|].
  destruct (String.eqb field "origin"); [reflexivity|].
  destruct (String.eqb field "destination"); [reflexivity|].
  destruct (String.eqb field "departure_datetime"); simpl in He |- *.
  { rewrite Hd. simpl.
    destruct (py_strptime value DATE_FORMAT) as [qd|]; [|discriminate].
    simpl. now rewrite lt_not_earlier. }
  destruct (String.eqb field "arrival_datetime"); simpl in He |- *.
  { rewrite Ha. simpl.
    destruct (py_strptime value DATE_FORMAT) as [qd|]; [|discriminate].
    simpl. now rewrite gt_not_later. }
  destruct (String.eqb field "price"); [|reflexivity].
  destruct (py_float value) as [qp|[]]; try reflexivity; discriminate.
Qed.

Lemma flight_matches_forallb (f : flight) (q : query) :
  flight_ok f = true -> query_ok q = true ->
  flight_matches f q = Ok (forallb (satisfies f) q).
Proof.
  intros Hf. induction q as [|[field value] q IH]; intros Hq; [reflexivity|].
  unfold query_ok in Hq. simpl in Hq. apply andb_true_iff in Hq as [He Hq].
  cbn [flight_matches forallb].
  rewrite (check_field_satisfies f field value Hf He).
  generalize (satisfies f (field, value)). intros [|]; [now apply IH|reflexivity].
Qed.

(** The outer loop filters the collection, in order, when the inner loop
    returns for every flight. *)
Lemma query_loop_filter (q : query) (b : flight -> bool)
    (flights matches : list flight) :
  (forall f, In f flights -> flight_matches f q = Ok (b f)) ->
  query_loop q flights matches = Ok (matches ++ List.filter b flights)%list.
Proof.
  revert matches; induction flights as [|f flights IH]; intros matches Hb.
  - simpl. now rewrite app_nil_r.
  - cbn [query_loop List.filter].
    rewrite (Hb f (or_introl eq_refl)). cbn.
    rewrite IH by (intros g Hg; apply Hb; now right).
    destruct (b f); [now rewrite <- app_assoc|reflexivity].
Qed.

(** Whatever the loop returns was already in [matches] or is a flight of
    the collection for which the inner loop ended with [match] true. *)
Lemma query_loop_In (q : query) (flights matches ms : list flight) (f : flight) :
  query_loop q flights matches = Ok ms -> In f ms ->
  In f matches \/ (In f flights /\ flight_matches f q = Ok true).
Proof.
  revert matches; induction flights as [|g flights IH]; intros matches Hl Hin.
  - simpl in Hl. injection Hl as <-. now left.
  - cbn [query_loop] in Hl.
    destruct (flight_matches g q) as [m|e] eqn:Hm; [|discriminate].
    cbn in Hl. destruct (IH _ Hl Hin) as [H|[H1 H2]].
    + destruct m; [|now left].
      apply in_app_iff in H as [H|[<-|[]]]; [now left|].
      right. split; [now left|assumption].
    + right. split; [now right|assumption].
Qed.

Lemma flight_matches_true_In (f : flight) (q : query) (field : string)
    (value : pyval) :
  flight_matches f q = Ok true -> In (field, value) q ->
  check_field f field value = Ok true.
Proof.
  induction q as [|[k v] q IH]; intros Hm Hin; [destruct Hin|].
  cbn [flight_matches] in Hm.
  destruct (check_field f k v) as [[]|e] eqn:Hc; cbn in Hm; try discriminate.
  destruct Hin as [Heq|Hin]; [congruence|now apply IH].
Qed.

Lemma execute_query_In (self : parser) (q : query) (ms : list flight)
    (f : flight) (field : string) (value : pyval) :
  execute_query self q = Ok ms -> In f ms -> In (field, value) q ->
  In f (valid_flights self) /\ check_field f field value = Ok true.
Proof.
  unfold execute_query. intros Hq Hin Hentry.
  destruct (query_loop_In _ _ _ _ _ Hq Hin) as [[]|[H1 H2]].
  split; [assumption|]. now apply flight_matches_true_In with q.
Qed.

(** An entry whose name is not a field of flights lets the loop go on. *)
Lemma check_field_unrecognized (f : flight) (field : string) (value : pyval) :
  recognized field = false -> check_field f field value = Ok true.
Proof.
  unfold recognized, check_field. intros Hr.
  repeat match goal with
  | |- context [String.eqb field ?s] =>
      destruct (String.eqb_spec field s) as [->|_];
      [vm_compute in Hr; discriminate|]
  end.
  reflexivity.
Qed.

Lemma flight_matches_unrecognized (f : flight) (q1 q2 : query)
    (field : string) (value : pyval) :
  recognized field = false ->
  flight_matches f (q1 ++ (field, value) :: q2)%list
  = flight_matches f (q1 ++ q2)%list.
Proof.
  intros Hr. induction q1 as [|[k v] q1 IH]; cbn [app flight_matches].
  - now rewrite (check_field_unrecognized f field value Hr).
  - destruct (check_field f k v) as [[]|e]; cbn; auto.
Qed.

Lemma query_loop_ext (q q' : query) (flights matches : list flight) :
  (forall f, flight_matches f q = flight_matches f q') ->
  query_loop q flights matches = query_loop q' flights matches.
Proof.
  intros Hext. revert matches.
  induction flights as [|f flights IH]; intros matches; [reflexivity|].
  cbn [query_loop]. rewrite Hext.
  destruct (flight_matches f q') as [m|e]; cbn; auto.
Qed.

Lemma satisfies_unrecognized (f : flight) (field : string) (value : pyval) :
  recognized field = false -> satisfies f (field, value) = true.
Proof.
  unfold recognized, satisfies. intros Hr.
  repeat match goal with
  | |- context [String.eqb field ?s] =>
      destruct (String.eqb_spec field s) as [->|_];
      [vm_compute in Hr; discriminate|]
  end.
  reflexivity.
Qed.

Lemma forallb_recognized (f : flight) (q : query) :
  forallb (satisfies f) q
  = forallb (satisfies f) (List.filter (fun e => recognized (fst e)) q).
Proof.
  induction q as [|[field value] q IH]; [reflexivity|].
  cbn [forallb List.filter fst].
  destruct (recognized field) eqn:Hr; cbn [forallb].
  - now rewrite IH.
  - now rewrite (satisfies_unrecognized f field value Hr).
Qed.

(** Whenever one turn of the inner loop returns on a flight of the
    collection, it returns the predicate of the entry. *)
Lemma check_field_returns (f : flight) (field : string) (value : pyval)
    (r : bool) :
  flight_ok f = true -> check_field f field value = Ok r ->
  satisfies f (field, value) = r.
Proof.
  unfold flight_ok, check_field, satisfies.
  intros Hf. apply andb_true_iff in Hf as [Hd Ha].
  apply validate_datetime_parses in Hd as [td Hd].
  apply validate_datetime_parses in Ha as [ta Ha].
  destruct (String.eqb field "flight_id"); [congruence|].
  destruct (String.eqb field "origin"); [congruence|].
  destruct (String.eqb field "destination"); [congruence|].
  destruct (String.eqb field "departure_datetime").
  { unfold py_strptime. rewrite Hd.
    destruct value as [| | | |s|]; simpl; try discriminate.
    destruct (PyTime.strptime s DATE_FORMAT) as [qd|]; simpl; [|discriminate].
    rewrite lt_not_earlier. congruence. }
  destruct (String.eqb field "arrival_datetime").
  { unfold py_strptime. rewrite Ha.
    destruct value as [| | | |s|]; simpl; try discriminate.
    destruct (PyTime.strptime s DATE_FORMAT) as [qd|]; simpl; [|discriminate].
    rewrite gt_not_later. congruence. }
  destruct (String.eqb field "price"); [|congruence].
  destruct (py_float value) as [qp|[]]; congruence.
Qed.

Lemma flight_matches_returns (f : flight) (q : query) (b : bool) :
  flight_ok f = true -> flight_matches f q = Ok b ->
  forallb (satisfies f) q = b.
Proof.
  intros Hf. induction q as [|[field value] q IH]; intros Hm.
  - simpl in Hm. now injection Hm.
  - cbn [flight_matches forallb] in Hm |- *.
    destruct (check_field f field value) as [r|e] eqn:Hc; [|discriminate].
    rewrite (check_field_returns f field value r Hf Hc).
    destruct r; [now apply IH|].
    change (Ok false = Ok b) in Hm. now injection Hm.
Qed.

Lemma query_loop_returns (q : query) (flights matches ms : list flight) :
  Forall (fun f => flight_ok f = true) flights ->
  query_loop q flights matches = Ok ms ->
  ms = (matches ++ List.filter (fun f => forallb (satisfies f) q) flights)%list.
Proof.
  intros Hfl. revert matches.
  induction Hfl as [|f flights Hf Hfl IH]; intros matches Hl.
  - simpl in Hl. injection Hl as <-. now rewrite app_nil_r.
  - cbn [query_loop List.filter] in Hl |- *.
    destruct (flight_matches f q) as [m|e] eqn:Hm; [|discriminate].
    rewrite (flight_matches_returns f q m Hf Hm).
    apply IH in Hl. rewrite Hl.
    destruct m; [now rewrite <- app_assoc|reflexivity].
Qed.



Lemma check_field_departure (f : flight) (value : pyval) :
  check_field f "departure_datetime" value
  = (flight_dt ← py_strptime (VStr (departure_datetime f)) DATE_FORMAT;
     query_dt ← py_strptime value DATE_FORMAT;
     Ok (negb (PyTime.lt flight_dt query_dt))).
Proof. reflexivity. Qed.

Lemma check_field_arrival (f : flight) (value : pyval) :
  check_field f "arrival_datetime" value
  = (flight_dt ← py_strptime (VStr (arrival_datetime f)) DATE_FORMAT;
     query_dt ← py_strptime value DATE_FORMAT;
     Ok (negb (PyTime.gt flight_dt query_dt))).
Proof. reflexivity. Qed.

Lemma check_field_price (f : flight) (value : pyval) :
  check_field f "price" value
  = match py_float value with
    | Ok query_price => Ok (negb (PyFloat.gt (price f) query_price))
    | Raise ValueError => Ok false
    | Raise e => Raise e
    end.
Proof. reflexivity. Qed.

(** A departure entry lets a flight through exactly when the flight does
    not depart earlier than the value of the entry. *)
Lemma departure_entry (f : flight) (s : string) (query_dt : PyTime.datetime) :
  PyTime.strptime s DATE_FORMAT = Some query_dt ->
  check_field f "departure_datetime" (VStr s) = Ok true <->
  exists t, PyTime.strptime (departure_datetime f) DATE_FORMAT = Some t /\
            not_earlier t query_dt.
Proof.
  intros Hs. rewrite check_field_departure. unfold py_strptime. rewrite Hs.
  destruct (PyTime.strptime (departure_datetime f) DATE_FORMAT) as [t|].
  - change (Ok (negb (PyTime.lt t query_dt)) = Ok true <->
            exists t0, Some t = Some t0 /\ not_earlier t0 query_dt).
    rewrite lt_not_earlier. split.
    + intros H. injection H as H. apply bool_decide_eq_true_1 in H. eauto.
    + intros (t0 & [= <-] & H). now rewrite bool_decide_eq_true_2.
  - split; [discriminate|]. intros (t0 & H & _). discriminate.
Qed.

Lemma arrival_entry (f : flight) (s : string) (query_dt : PyTime.datetime) :
  PyTime.strptime s DATE_FORMAT = Some query_dt ->
  check_field f "arrival_datetime" (VStr s) = Ok true <->
  exists t, PyTime.strptime (arrival_datetime f) DATE_FORMAT = Some t /\
            not_later t query_dt.
Proof.
  intros Hs. rewrite check_field_arrival. unfold py_strptime. rewrite Hs.
  destruct (PyTime.strptime (arrival_datetime f) DATE_FORMAT) as [t|].
  - change (Ok (negb (PyTime.gt t query_dt)) = Ok true <->
            exists t0, Some t = Some t0 /\ not_later t0 query_dt).
    rewrite gt_not_later. split.
    + intros H. injection H as H. apply bool_decide_eq_true_1 in H. eauto.
    + intros (t0 & [= <-] & H). now rewrite bool_decide_eq_true_2.
  - split; [discriminate|]. intros (t0 & H & _). discriminate.
Qed.

(** The outcome of a query with one entry, when the turn of the inner loop
    returns for every flight of the collection. *)
Lemma execute_query_single (self : parser) (field : string) (value : pyval)
    (b : flight -> bool) :
  (forall f, In f (valid_flights self) -> check_field f field value = Ok (b f)) ->
  execute_query self [(field, value)] = Ok (List.filter b (valid_flights self)).
Proof.
  intros Hb. unfold execute_query.
  rewrite (query_loop_filter _ b); [reflexivity|].
  intros f Hin. cbn [flight_matches]. rewrite (Hb f Hin).
  generalize (b f). now intros [|].
Qed.

Lemma flight_ok_check_departure (f : flight) (s : string) (q : PyTime.datetime) :
  flight_ok f = true -> PyTime.strptime s DATE_FORMAT = Some q ->
  exists b, check_field f "departure_datetime" (VStr s) = Ok b.
Proof.
  intros Hf Hs. rewrite check_field_departure. unfold py_strptime. rewrite Hs.
  apply andb_true_iff in Hf as [Hd _].
  apply validate_datetime_parses in Hd as [t ->]. eexists; reflexivity.
Qed.

Lemma flight_ok_check_arrival (f : flight) (s : string) (q : PyTime.datetime) :
  flight_ok f = true -> PyTime.strptime s DATE_FORMAT = Some q ->
  exists b, check_field f "arrival_datetime" (VStr s) = Ok b.
Proof.
  intros Hf Hs. rewrite check_field_arrival. unfold py_strptime. rewrite Hs.
  apply andb_true_iff in Hf as [_ Ha].
  apply validate_datetime_parses in Ha as [t ->]. eexists; reflexivity.
Qed.

(** C4: with a departure entry a flight matches exactly when it does not
    depart earlier than the value of the entry, with an arrival entry
    exactly when it does not arrive later; a flight whose timestamp equals
    the value matches; in a query with more entries every match meets
    these conditions. *)
Theorem datetime_predicates_inclusive (self : parser) (s : string)
    (query_dt : PyTime.datetime) :
  Forall (fun f => flight_ok f = true) (valid_flights self) ->
  PyTime.strptime s DATE_FORMAT = Some query_dt ->
  (exists ms,
     execute_query self [("departure_datetime", VStr s)] = Ok ms /\
     (forall f, In f ms <->
        In f (valid_flights self) /\
        exists t, PyTime.strptime (departure_datetime f) DATE_FORMAT = Some t /\
                  not_earlier t query_dt) /\
     (forall f, In f (valid_flights self) ->
        PyTime.strptime (departure_datetime f) DATE_FORMAT = Some query_dt ->
        In f ms)) /\
  (exists ms,
     execute_query self [("arrival_datetime", VStr s)] = Ok ms /\
     (forall f, In f ms <->
        In f (valid_flights self) /\
        exists t, PyTime.strptime (arrival_datetime f) DATE_FORMAT = Some t /\
                  not_later t query_dt) /\
     (forall f, In f (valid_flights self) ->
        PyTime.strptime (arrival_datetime f) DATE_FORMAT = Some query_dt ->
        In f ms)) /\
  (forall (q : query) (ms : list flight) (f : flight),
     execute_query self q = Ok ms -> In f ms ->
     (In ("departure_datetime", VStr s) q ->
      exists t, PyTime.strptime (departure_datetime f) DATE_FORMAT = Some t /\
                not_earlier t query_dt) /\
     (In ("arrival_datetime", VStr s) q ->
      exists t, PyTime.strptime (arrival_datetime f) DATE_FORMAT = Some t /\
                not_later t query_dt)).
Proof.
  intros Hfl Hs. rewrite List.Forall_forall in Hfl.
  split; [|split].
  - set (b := fun f =>
               match check_field f "departure_datetime" (VStr s) with
               | Ok r => r
               | Raise _ => false
               end).
    assert (Hb : forall f, In f (valid_flights self) ->
                 check_field f "departure_datetime" (VStr s) = Ok (b f)).
    { intros f Hin. unfold b.
      destruct (flight_ok_check_departure f s query_dt (Hfl f Hin) Hs) as [r ->].
      reflexivity. }
    assert (Hiff : forall f, In f (List.filter b (valid_flights self)) <->
              In f (valid_flights self) /\
              exists t, PyTime.strptime (departure_datetime f) DATE_FORMAT = Some t /\
                        not_earlier t query_dt).
    { intros f. rewrite filter_In, <- (departure_entry f s query_dt Hs).
      split; intros [Hin H]; (split; [assumption|]).
      - rewrite (Hb f Hin). now f_equal.
      - rewrite (Hb f Hin) in H. now injection H. }
    exists (List.filter b (valid_flights self)).
    split; [now apply execute_query_single|].
    split; [exact Hiff|].
    intros f Hin Hf. apply Hiff. split; [assumption|].
    exists query_dt. split; [assumption|].
    unfold not_earlier. now rewrite compare_refl.
  - set (b := fun f =>
               match check_field f "arrival_datetime" (VStr s) with
               | Ok r => r
               | Raise _ => false
               end).
    assert (Hb : forall f, In f (valid_flights self) ->
                 check_field f "arrival_datetime" (VStr s) = Ok (b f)).
    { intros f Hin. unfold b.
      destruct (flight_ok_check_arrival f s query_dt (Hfl f Hin) Hs) as [r ->].
      reflexivity. }
    assert (Hiff : forall f, In f (List.filter b (valid_flights self)) <->
              In f (valid_flights self) /\
              exists t, PyTime.strptime (arrival_datetime f) DATE_FORMAT = Some t /\
                        not_later t query_dt).
    { intros f. rewrite filter_In, <- (arrival_entry f s query_dt Hs).
      split; intros [Hin H]; (split; [assumption|]).
      - rewrite (Hb f Hin). now f_equal.
      - rewrite (Hb f Hin) in H. now injection H. }
    exists (List.filter b (valid_flights self)).
    split; [now apply execute_query_single|].
    split; [exact Hiff|].
    intros f Hin Hf. apply Hiff. split; [assumption|].
    exists query_dt. split; [assumption|].
    unfold not_later. now rewrite compare_refl.
  - intros q ms f Hq Hin. split; intros Hentry.
    + apply (departure_entry f s query_dt Hs).
      now apply (execute_query_In self q ms f _ _ Hq Hin Hentry).
    + apply (arrival_entry f s query_dt Hs).
      now apply (execute_query_In self q ms f _ _ Hq Hin Hentry).
Qed.

Lemma datetime_predicates_inclusive_witness :
  let db := mk_parser [flight_150_00; flight_150_01] [] in
  Forall (fun f => flight_ok f = true) (valid_flights db) /\
  PyTime.strptime "2024-01-01 10:00" DATE_FORMAT
  = Some (PyTime.mk_datetime 2024 1 1 10 0) /\
  exists ms,
    execute_query db [("departure_datetime", VStr "2024-01-01 10:00")] = Ok ms /\
    In flight_150_00 ms.
Proof.
  intros db.
  assert (Hfl : Forall (fun f => flight_ok f = true) (valid_flights db)).
  { repeat constructor; vm_compute; reflexivity. }
  assert (Hs : PyTime.strptime "2024-01-01 10:00" DATE_FORMAT
               = Some (PyTime.mk_datetime 2024 1 1 10 0)).
  { vm_compute; reflexivity. }
  split; [exact Hfl|]. split; [exact Hs|].
  destruct (proj1 (datetime_predicates_inclusive db _ _ Hfl Hs))
    as (ms & Hq & _ & Hb).
  exists ms. split; [exact Hq|].
  apply Hb; [now left|vm_compute; reflexivity].
Defined.




(** *** Every flight of a reachable collection is valid *)

Lemma field_errors_nil_datetimes fid org dst dep arr prc :
  field_errors fid org dst dep arr prc = [] ->
  validate_datetime dep = true /\ validate_datetime arr = true.
Proof.
  unfold field_errors. intros H.
  do 3 (apply app_eq_nil in H; destruct H as [_ H]).
  apply app_eq_nil in H as [Hd H]. apply app_eq_nil in H as [Ha _].
  unfold check_departure, append in Hd. unfold check_arrival, append in Ha.
  destruct (PyStr.is_empty dep); [discriminate|].
  destruct (validate_datetime dep); [|discriminate].
  destruct (PyStr.is_empty arr); [discriminate|].
  destruct (validate_datetime arr); [|discriminate].
  now split.
Qed.

Lemma parse_flight_record_flight_ok record line filename valid fl errs :
  parse_flight_record record line filename = Ok (valid, Some fl, errs) ->
  flight_ok fl = true.
Proof.
  unfold parse_flight_record.
  destruct (negb (length record =? 6)%nat) eqn:Hlen; [discriminate|].
  destruct record as [|f1 [|f2 [|f3 [|f4 [|f5 [|f6 [|f7 r]]]]]]]; try discriminate.
  cbv zeta. rewrite checks_field_errors.
  destruct (field_errors _ _ _ _ _ _) as [|e es] eqn:E; [|discriminate].
  apply field_errors_nil_datetimes in E as [Hd Ha].
  destruct (PyFloat.of_string (PyStr.strip f6)); [|discriminate].
  simpl. intros [= _ <- _]. unfold flight_ok. simpl. now rewrite Hd, Ha.
Qed.

Lemma process_row_flights_ok self file_path line row self' :
  Forall (fun f => flight_ok f = true) (valid_flights self) ->
  process_row self file_path line row = Some self' ->
  Forall (fun f => flight_ok f = true) (valid_flights self').
Proof.
  intros Hfl. unfold process_row.
  destruct row as [|first rest]; [now intros [= <-]|].
  destruct (PyStr.startswith _ _); [now intros [= <-]|].
  match goal with |- context [if ?c then _ else _] => destruct c end;
    [now intros [= <-]|].
  destruct (parse_flight_record _ _ _) as [[[valid data] errs]|e] eqn:P;
    [|discriminate].
  destruct valid, data as [fl|]; intros [= <-]; simpl; try assumption.
  apply Forall_app. split; [assumption|].
  constructor; [|constructor].
  now apply parse_flight_record_flight_ok in P.
Qed.

Lemma parse_rows_flights_ok self file_path line rows self' :
  Forall (fun f => flight_ok f = true) (valid_flights self) ->
  parse_rows self file_path line rows = Some self' ->
  Forall (fun f => flight_ok f = true) (valid_flights self').
Proof.
  revert self line. induction rows as [|row rows IH]; intros self line Hfl.
  - now intros [= <-].
  - cbn [parse_rows].
    destruct (process_row self file_path (S line) row) as [self1|] eqn:P;
      [|discriminate].
    apply (IH self1 (S line)). now apply process_row_flights_ok in P.
Qed.

Lemma revalidate_flight_ok float_repr elem f :
  revalidate float_repr elem = Ok f -> flight_ok f = true.
Proof.
  destruct elem as [fields|]; [|discriminate].
  unfold revalidate. intros H.
  repeat step_bind H.
  injection H as <-. unfold flight_ok. simpl.
  repeat match goal with
  | E : require ?c = Ok _ |- _ =>
      destruct c eqn:?; [clear E|discriminate E]
  end.
  now apply andb_true_iff.
Qed.

Lemma load_json_database_flights_ok float_repr self data self' :
  load_json_database float_repr self data = Some self' ->
  Forall (fun f => flight_ok f = true) (valid_flights self').
Proof.
  destruct data as [items|]; [|discriminate].
  unfold load_json_database. rewrite revalidate_all_acc. intros [= <-].
  simpl. apply List.Forall_forall. intros f Hin.
  apply list_elem_of_In, list_elem_of_omap in Hin as (elem & _ & Hacc).
  unfold accepted in Hacc.
  destruct (revalidate float_repr elem) as [g|] eqn:R; [|discriminate].
  injection Hacc as ->. now apply revalidate_flight_ok in R.
Qed.

(** The hypothesis of the theorems on queries holds in every state a run
    reaches. *)
Lemma reachable_flights_ok float_repr self :
  reachable float_repr self ->
  Forall (fun f => flight_ok f = true) (valid_flights self).
Proof.
  induction 1 as [|self file_path rows self' _ IH Hcsv|self data self' _ _ Hjson].
  - constructor.
  - now apply parse_rows_flights_ok in Hcsv.
  - now apply load_json_database_flights_ok in Hjson.
Qed.

(** *** The language of the flight_id pattern *)

(** A greedy repetition succeeds exactly when some allowed number of
    characters of the class can be followed by the continuation. *)
Lemma rep_is_Some {R} (p : ascii -> bool) (s : list ascii) :
  forall (lo : nat) (hi : option nat) (pos : nat)
         (k : nat -> list ascii -> option R),
    is_Some (Re.rep p lo hi pos s k) <->
    exists n, within lo hi n /\ n <= length s /\
              Forall (fun c => p c = true) (take n s) /\
              is_Some (k (pos + n) (drop n s)).
Proof.
  unfold within.
  induction s as [|c s IH]; intros lo hi pos k.
  - cbn [Re.rep]. split.
    + destruct lo; [|intros [x Hx]; discriminate].
      intros Hk. exists 0. rewrite Nat.add_0_r.
      repeat split; auto with lia. destruct hi; lia.
    + intros (n & [Hlo Hhi] & Hlen & _ & Hk). simpl in Hlen.
      assert (n = 0) as -> by lia. assert (lo = 0) as -> by lia.
      now rewrite Nat.add_0_r in Hk.
  - cbn [Re.rep].
    assert (Hstop :
      is_Some (match lo with 0 => k pos (c :: s) | S _ => None end) <->
      lo = 0 /\ is_Some (k pos (c :: s))).
    { destruct lo.
      - split; [intros H; split; [reflexivity|exact H] | intros [_ H]; exact H].
      - split; [intros [x Hx]; discriminate | intros [H _]; discriminate]. }
    destruct (p c) eqn:Hp; simpl andb.
    + destruct hi as [[|h]|].
      * rewrite Hstop. split.
        -- intros [-> Hk]. exists 0. rewrite Nat.add_0_r.
           repeat split; simpl; auto with lia.
        -- intros (n & [Hlo Hhi] & _ & _ & Hk).
           assert (n = 0) as -> by lia. rewrite Nat.add_0_r in Hk.
           split; [lia|assumption].
      * destruct (Re.rep p (pred lo) (pred <$> Some (S h)) (S pos) s k)
          as [x|] eqn:Hrec.
        -- split; [intros _|eauto].
           destruct (proj1 (IH _ _ _ _) (ex_intro _ x Hrec))
             as (n & [Hlo Hhi] & Hlen & Hall & Hk).
           exists (S n). simpl in Hhi |- *.
           rewrite Nat.add_succ_r. repeat split; auto with lia.
        -- rewrite Hstop. split.
           ++ intros [-> Hk]. exists 0. rewrite Nat.add_0_r.
              repeat split; simpl; auto with lia.
           ++ intros (n & [Hlo Hhi] & Hlen & Hall & Hk).
              destruct n as [|n].
              ** rewrite Nat.add_0_r in Hk. split; [lia|assumption].
              ** exfalso. simpl in Hlen, Hall, Hk. rewrite Nat.add_succ_r in Hk.
                 assert (Hsome : is_Some
                   (Re.rep p (pred lo) (pred <$> Some (S h)) (S pos) s k)).
                 { apply IH. exists n. simpl.
                   inversion Hall; subst. repeat split; auto with lia. }
                 rewrite Hrec in Hsome. destruct Hsome as [y Hy]. discriminate.
      * destruct (Re.rep p (pred lo) (pred <$> None) (S pos) s k)
          as [x|] eqn:Hrec.
        -- split; [intros _|eauto].
           destruct (proj1 (IH _ _ _ _) (ex_intro _ x Hrec))
             as (n & [Hlo Hhi] & Hlen & Hall & Hk).
           exists (S n). simpl.
           rewrite Nat.add_succ_r. repeat split; auto with lia.
        -- rewrite Hstop. split.
           ++ intros [-> Hk]. exists 0. rewrite Nat.add_0_r.
              repeat split; simpl; auto with lia.
           ++ intros (n & [Hlo Hhi] & Hlen & Hall & Hk).
              destruct n as [|n].
              ** rewrite Nat.add_0_r in Hk. split; [lia|assumption].
              ** exfalso. simpl in Hlen, Hall, Hk. rewrite Nat.add_succ_r in Hk.
                 assert (Hsome : is_Some
                   (Re.rep p (pred lo) (pred <$> None) (S pos) s k)).
                 { apply IH. exists n. simpl.
                   inversion Hall; subst. repeat split; auto with lia. }
                 rewrite Hrec in Hsome. destruct Hsome as [y Hy]. discriminate.
    + rewrite Hstop. split.
      * intros [-> Hk]. exists 0. rewrite Nat.add_0_r.
        repeat split; simpl; auto with lia. destruct hi; lia.
      * intros (n & [Hlo Hhi] & Hlen & Hall & Hk).
        destruct n as [|n].
        -- rewrite Nat.add_0_r in Hk. split; [lia|assumption].
        -- simpl in Hall. inversion Hall; subst. congruence.
Qed.

Lemma code_newline (c : ascii) : (PyStr.code c =? 10)%N = true <-> c = newline.
Proof.
  unfold PyStr.code. rewrite N.eqb_eq. split.
  - intros H. rewrite <- (ascii_N_embedding c), H. reflexivity.
  - now intros ->.
Qed.

(** What [validate_flight_id] accepts: two to eight ASCII letters or
    digits, possibly followed by one newline. *)
Lemma validate_flight_id_language (s : string) :
  validate_flight_id s = true <->
  exists body : list ascii,
    2 <= length body <= 8 /\
    Forall (fun c => PyStr.isalnum_ascii c = true) body /\
    (list_ascii_of_string s = body \/
     list_ascii_of_string s = (body ++ [newline])%list).
Proof.
  unfold validate_flight_id, Re.re_match, FLIGHT_ID_RE.
  rewrite bool_decide_eq_true. cbn [Re.cat_all Re.mtch].
  rewrite rep_is_Some. unfold within.
  set (l := list_ascii_of_string s). split.
  - intros (n & [Hlo Hhi] & Hlen & Hall & Hk).
    exists (take n l). rewrite length_take.
    split; [lia|]. split; [assumption|].
    destruct (drop n l) as [|c [|c' r]] eqn:Hd.
    + left. rewrite <- (take_drop n l) at 1. rewrite Hd. now rewrite app_nil_r.
    + destruct (PyStr.code c =? 10)%N eqn:Hc;
        [|destruct Hk as [x Hx]; discriminate].
      apply code_newline in Hc as ->.
      right. rewrite <- (take_drop n l) at 1. now rewrite Hd.
    + destruct Hk as [x Hx]; discriminate.
  - intros (body & Hlen & Hall & [Hs|Hs]).
    + exists (length body). rewrite Hs, firstn_all, drop_all. simpl.
      repeat split; eauto with lia.
    + exists (length body). rewrite Hs, take_app_length, drop_app_length.
      rewrite length_app. simpl.
      repeat split; eauto with lia.
Qed.

(** *** The extent of the round-trip failure *)

Lemma field_errors_nil_valid fid org dst dep arr prc :
  field_errors fid org dst dep arr prc = [] ->
  validate_flight_id fid = true /\ validate_airport_code org = true /\
  validate_airport_code dst = true /\ validate_datetime dep = true /\
  validate_datetime arr = true /\ validate_times dep arr = true /\
  validate_price prc = true.
Proof.
  unfold field_errors. intros H.
  apply app_eq_nil in H as [H1 H]. apply app_eq_nil in H as [H2 H].
  apply app_eq_nil in H as [H3 H]. apply app_eq_nil in H as [H4 H].
  apply app_eq_nil in H as [H5 H6].
  unfold check_flight_id, append in H1. unfold check_origin, append in H2.
  unfold check_destination, append in H3. unfold check_departure, append in H4.
  unfold check_arrival, append in H5. unfold check_price, append in H6.
  destruct (PyStr.is_empty fid); [discriminate|].
  destruct (validate_flight_id fid); simpl in H1;
    [|repeat match type of H1 with
             | context [if ?c then _ else _] => destruct c
             end; discriminate].
  destruct (PyStr.is_empty org); [discriminate|].
  destruct (validate_airport_code org); [|discriminate].
  destruct (PyStr.is_empty dst); [discriminate|].
  destruct (validate_airport_code dst); [|discriminate].
  destruct (PyStr.is_empty dep); [discriminate|].
  destruct (validate_datetime dep); [|discriminate].
  destruct (PyStr.is_empty arr); [discriminate|].
  destruct (validate_datetime arr); [|discriminate].
  destruct (validate_times dep arr); [|discriminate].
  destruct (PyStr.is_empty prc); [discriminate|].
  destruct (validate_price prc); simpl in H6; [tauto|].
  destruct (PyFloat.of_string prc) as [x|]; [|discriminate].
  destruct (PyFloat.le x PyFloat.zero); discriminate.
Qed.

(** Apart from the price the loader accepts every flight the record
    validator builds: the round trip succeeds as soon as the stored price
    is still positive and is its own rounding. *)
Lemma roundtrip_when_price_stable float_repr record line filename fl :
  parse_flight_record record line filename = Ok (true, Some fl, []) ->
  PyFloat.le (price fl) PyFloat.zero = false ->
  PyFloat.round2 (price fl) = price fl ->
  revalidate float_repr (flight_to_json fl) = Ok fl.
Proof.
  unfold parse_flight_record.
  destruct (negb (length record =? 6)%nat) eqn:Hlen; [discriminate|].
  destruct record as [|f1 [|f2 [|f3 [|f4 [|f5 [|f6 [|f7 r]]]]]]]; try discriminate.
  cbv zeta. rewrite checks_field_errors.
  destruct (field_errors _ _ _ _ _ _) as [|e es] eqn:E; [|discriminate].
  apply field_errors_nil_valid in E as (V1 & V2 & V3 & V4 & V5 & V6 & _).
  destruct (PyFloat.of_string (PyStr.strip f6)) as [x|]; [|discriminate].
  simpl. intros [= <-]. simpl. intros Hpos Hround.
  unfold revalidate, flight_to_json, getitem.
  change (mapM _ required_fields) with (Ok [tt; tt; tt; tt; tt; tt] : result (list unit)).
  repeat (rewrite lookup_insert_ne by discriminate).
  repeat (rewrite lookup_insert_eq || (rewrite lookup_insert_ne by discriminate)).
  cbn [mbind result_bind py_str py_float].
  rewrite V1, V2, V3, V4, V5, V6, Hpos. cbn [require negb mbind result_bind].
  now rewrite Hround.
Qed.

(** What [validate_airport_code] accepts: three ASCII capitals, possibly
    followed by one newline. *)
Lemma validate_airport_code_language (s : string) :
  validate_airport_code s = true <->
  exists body : list ascii,
    length body = 3 /\
    Forall (fun c => PyStr.isupper_ascii c = true) body /\
    (list_ascii_of_string s = body \/
     list_ascii_of_string s = (body ++ [newline])%list).
Proof.
  unfold validate_airport_code, Re.re_match, AIRPORT_CODE_RE.
  rewrite bool_decide_eq_true. cbn [Re.cat_all Re.mtch].
  rewrite rep_is_Some. unfold within.
  set (l := list_ascii_of_string s). split.
  - intros (n & [Hlo Hhi] & Hlen & Hall & Hk).
    exists (take n l). rewrite length_take.
    split; [lia|]. split; [assumption|].
    destruct (drop n l) as [|c [|c' r]] eqn:Hd.
    + left. rewrite <- (take_drop n l) at 1. rewrite Hd. now rewrite app_nil_r.
    + destruct (PyStr.code c =? 10)%N eqn:Hc;
        [|destruct Hk as [x Hx]; discriminate].
      apply code_newline in Hc as ->.
      right. rewrite <- (take_drop n l) at 1. now rewrite Hd.
    + destruct Hk as [x Hx]; discriminate.
  - intros (body & Hlen & Hall & [Hs|Hs]).
    + exists (length body). rewrite Hs, firstn_all, drop_all. simpl.
      repeat split; eauto with lia.
    + exists (length body). rewrite Hs, take_app_length, drop_app_length.
      rewrite length_app. simpl.
      repeat split; eauto with lia.
Qed.

(** *** Timestamps in the form YYYY-MM-DD HH:MM are accepted *)

Lemma compile_date_format :
  PyTime.compile DATE_FORMAT
  = Some (Re.cat_all
            [directive_re "Y"; Re.Lit "-"; directive_re "m"; Re.Lit "-";
             directive_re "d"; Re.Rep PyStr.isspace 1 None;
             directive_re "H"; Re.Lit ":"; directive_re "M"]).
Proof. reflexivity. Qed.

Lemma isdigit_not_space (c : ascii) :
  PyStr.isdigit c = true -> PyStr.isspace c = false.
Proof.
  unfold PyStr.isdigit, PyStr.isspace, PyStr.in_range.
  rewrite andb_true_iff, !N.leb_le. intros [H1 H2].
  repeat match goal with
  | |- context [(?a <=? ?b)%N] => destruct (N.leb_spec a b)
  | |- context [(?a =? ?b)%N] => destruct (N.eqb_spec a b)
  end; simpl; try reflexivity; lia.
Qed.

Lemma mtch_year {R} (y1 y2 y3 y4 : ascii) (rest : list ascii)
    (k : nat -> list ascii -> Re.captures -> option R) :
  PyStr.isdigit y1 = true -> PyStr.isdigit y2 = true ->
  PyStr.isdigit y3 = true -> PyStr.isdigit y4 = true ->
  Re.mtch (directive_re "Y") 0 (y1 :: y2 :: y3 :: y4 :: rest) [] k
  = k 4 rest [("Y", [y1; y2; y3; y4])].
Proof.
  intros H1 H2 H3 H4.
  cbn -[PyStr.isdigit].
  now rewrite H1, H2, H3, H4.
Qed.

Lemma mtch_month {R} (m : nat) (rest : list ascii) (caps : Re.captures)
    (k : nat -> list ascii -> Re.captures -> option R) (x : R) :
  1 <= m <= 12 ->
  k 7 rest (("m", two_digits m) :: caps) = Some x ->
  Re.mtch (directive_re "m") 5 (two_digits m ++ rest) caps k = Some x.
Proof.
  intros Hm Hk.
  do 13 (destruct m as [|m]; [try lia; vm_compute in Hk; vm_compute; now rewrite Hk|]).
  lia.
Qed.

Lemma mtch_day {R} (d : nat) (rest : list ascii) (caps : Re.captures)
    (k : nat -> list ascii -> Re.captures -> option R) (x : R) :
  1 <= d <= 31 ->
  k 10 rest (("d", two_digits d) :: caps) = Some x ->
  Re.mtch (directive_re "d") 8 (two_digits d ++ rest) caps k = Some x.
Proof.
  intros Hd Hk.
  do 32 (destruct d as [|d]; [try lia; vm_compute in Hk; vm_compute; now rewrite Hk|]).
  lia.
Qed.

Lemma mtch_space_hour {R} (h : nat) (rest : list ascii) (caps : Re.captures)
    (k : nat -> list ascii -> Re.captures -> option R) (x : R) :
  h <= 23 ->
  k 13 rest (("H", two_digits h) :: caps) = Some x ->
  Re.mtch (Re.Cat (Re.Rep PyStr.isspace 1 None) (directive_re "H")) 10
    (" "%char :: two_digits h ++ rest) caps k = Some x.
Proof.
  intros Hh Hk.
  do 24 (destruct h as [|h]; [vm_compute in Hk; vm_compute; now rewrite Hk|]).
  lia.
Qed.

Lemma mtch_minute {R} (n : nat) (caps : Re.captures)
    (k : nat -> list ascii -> Re.captures -> option R) (x : R) :
  n <= 59 ->
  k 16 [] (("M", two_digits n) :: caps) = Some x ->
  Re.mtch (directive_re "M") 14 (two_digits n) caps k = Some x.
Proof.
  intros Hn Hk.
  do 60 (destruct n as [|n]; [vm_compute in Hk; vm_compute; now rewrite Hk|]).
  lia.
Qed.

Lemma int_of_two_digits (v : nat) :
  v <= 59 -> PyTime.int_of (two_digits v) = Some (Z.of_nat v).
Proof.
  intros Hv.
  do 60 (destruct v as [|v]; [reflexivity|]).
  lia.
Qed.

Lemma mtch_cat {R} (r1 r2 : Re.regex) pos s caps
    (k : nat -> list ascii -> Re.captures -> option R) :
  Re.mtch (Re.Cat r1 r2) pos s caps k
  = Re.mtch r1 pos s caps (fun pos' s' caps' => Re.mtch r2 pos' s' caps' k).
Proof. reflexivity. Qed.

Lemma mtch_cat_assoc {R} (r1 r2 r3 : Re.regex) pos s caps
    (k : nat -> list ascii -> Re.captures -> option R) :
  Re.mtch (Re.Cat r1 (Re.Cat r2 r3)) pos s caps k
  = Re.mtch (Re.Cat r1 r2) pos s caps
      (fun pos' s' caps' => Re.mtch r3 pos' s' caps' k).
Proof. reflexivity. Qed.

Lemma mtch_lit {R} (c : ascii) pos s caps
    (k : nat -> list ascii -> Re.captures -> option R) :
  Re.mtch (Re.Lit c) pos (c :: s) caps k = k (S pos) s caps.
Proof. cbn [Re.mtch]. now rewrite Ascii.eqb_refl. Qed.

Lemma re_match_canonical (y1 y2 y3 y4 : ascii) (m d h n : nat) :
  PyStr.isdigit y1 = true -> PyStr.isdigit y2 = true ->
  PyStr.isdigit y3 = true -> PyStr.isdigit y4 = true ->
  1 <= m <= 12 -> 1 <= d <= 31 -> h <= 23 -> n <= 59 ->
  Re.re_match
    (Re.cat_all
       [directive_re "Y"; Re.Lit "-"; directive_re "m"; Re.Lit "-";
        directive_re "d"; Re.Rep PyStr.isspace 1 None;
        directive_re "H"; Re.Lit ":"; directive_re "M"])
    (canonical y1 y2 y3 y4 m d h n)
  = Some (16, [("M", two_digits n); ("H", two_digits h); ("d", two_digits d);
               ("m", two_digits m); ("Y", [y1; y2; y3; y4])]).
Proof.
  intros H1 H2 H3 H4 Hm Hd Hh Hn.
  unfold Re.re_match, canonical.
  rewrite list_ascii_of_string_of_list_ascii.
  cbn [Re.cat_all].
  rewrite mtch_cat, mtch_year by assumption. cbv beta.
  rewrite mtch_cat, mtch_lit. cbv beta. rewrite mtch_cat.
  apply mtch_month; [assumption|]. cbv beta.
  rewrite mtch_cat, mtch_lit. cbv beta. rewrite mtch_cat.
  apply mtch_day; [assumption|]. cbv beta.
  rewrite mtch_cat_assoc.
  apply mtch_space_hour; [assumption|]. cbv beta.
  rewrite mtch_cat, mtch_lit. cbv beta.
  apply mtch_minute; [assumption|].
  reflexivity.
Qed.

Lemma digit_val_bound (c : ascii) :
  PyStr.isdigit c = true -> (PyFloat.digit_val c <= 9)%N.
Proof.
  unfold PyStr.isdigit, PyStr.in_range, PyFloat.digit_val.
  rewrite andb_true_iff, !N.leb_le. lia.
Qed.

Lemma int_of_year (y1 y2 y3 y4 : ascii) :
  PyStr.isdigit y1 = true -> PyStr.isdigit y2 = true ->
  PyStr.isdigit y3 = true -> PyStr.isdigit y4 = true ->
  PyTime.int_of [y1; y2; y3; y4]
  = Some (Z.of_N (PyFloat.digits_value [y1; y2; y3; y4])) /\
  (PyFloat.digits_value [y1; y2; y3; y4] <= 9999)%N.
Proof.
  intros H1 H2 H3 H4. split.
  - unfold PyTime.int_of, PyStr.rstrip. cbn [PyStr.lstrip rev app].
    rewrite (isdigit_not_space y1 H1). cbn [PyStr.lstrip rev app].
    rewrite (isdigit_not_space y4 H4). cbn [rev app forallb].
    now rewrite H1, H2, H3, H4.
  - pose proof (digit_val_bound y1 H1). pose proof (digit_val_bound y2 H2).
    pose proof (digit_val_bound y3 H3). pose proof (digit_val_bound y4 H4).
    unfold PyFloat.digits_value. cbn [fold_left]. lia.
Qed.

(** A text of the form YYYY-MM-DD HH:MM whose fields name a date of the
    calendar (from year 1 on) and a time of the day is parsed to these
    fields. *)
Lemma strptime_canonical (y1 y2 y3 y4 : ascii) (m d h n : nat) :
  let y := Z.of_N (PyFloat.digits_value [y1; y2; y3; y4]) in
  PyStr.isdigit y1 = true -> PyStr.isdigit y2 = true ->
  PyStr.isdigit y3 = true -> PyStr.isdigit y4 = true ->
  (1 <= y)%Z -> 1 <= m <= 12 ->
  1 <= d -> (Z.of_nat d <= PyTime.days_in_month y (Z.of_nat m))%Z ->
  h <= 23 -> n <= 59 ->
  PyTime.strptime (canonical y1 y2 y3 y4 m d h n) DATE_FORMAT
  = Some (PyTime.mk_datetime y (Z.of_nat m) (Z.of_nat d)
            (Z.of_nat h) (Z.of_nat n)).
Proof.
  intros y H1 H2 H3 H4 Hy Hm Hd Hdim Hh Hn.
  assert (Hd31 : d <= 31).
  { unfold PyTime.days_in_month in Hdim.
    repeat match type of Hdim with
           | context [if ?c then _ else _] => destruct c
           end; lia. }
  destruct (int_of_year y1 y2 y3 y4 H1 H2 H3 H4) as [Hint Hy9].
  unfold PyTime.strptime.
  rewrite compile_date_format.
  cbn [mbind option_bind].
  rewrite re_match_canonical by (auto; lia).
  cbn [mbind option_bind].
  assert (Hlen : String.length (canonical y1 y2 y3 y4 m d h n) = 16).
  { unfold canonical. reflexivity. }
  rewrite Hlen. cbn [Nat.eqb negb].
  change (Re.group "Y" _) with (Some [y1; y2; y3; y4]).
  change (Re.group "m" _) with (Some (two_digits m)).
  change (Re.group "d" _) with (Some (two_digits d)).
  change (Re.group "H" _) with (Some (two_digits h)).
  change (Re.group "M" _) with (Some (two_digits n)).
  cbv beta iota.
  rewrite Hint, !int_of_two_digits by lia.
  cbn [mbind option_bind]. fold y.
  assert (Hck : PyTime.check_fields y (Z.of_nat m) (Z.of_nat d)
                  (Z.of_nat h) (Z.of_nat n) = true).
  { unfold PyTime.check_fields. rewrite !andb_true_iff, !Z.leb_le.
    unfold y in *. lia. }
  now rewrite Hck.
Qed.

Lemma validate_datetime_canonical (y1 y2 y3 y4 : ascii) (m d h n : nat) :
  let y := Z.of_N (PyFloat.digits_value [y1; y2; y3; y4]) in
  PyStr.isdigit y1 = true -> PyStr.isdigit y2 = true ->
  PyStr.isdigit y3 = true -> PyStr.isdigit y4 = true ->
  (1 <= y)%Z -> 1 <= m <= 12 ->
  1 <= d -> (Z.of_nat d <= PyTime.days_in_month y (Z.of_nat m))%Z ->
  h <= 23 -> n <= 59 ->
  validate_datetime (canonical y1 y2 y3 y4 m d h n) = true.
Proof.
  intros y H1 H2 H3 H4 Hy Hm Hd Hdim Hh Hn. unfold validate_datetime.
  now rewrite (strptime_canonical y1 y2 y3 y4 m d h n H1 H2 H3 H4 Hy Hm Hd Hdim Hh Hn).
Qed.

(** ** Further properties of the code *)

(** *** Trimming *)

Lemma lstrip_head (l t : list ascii) (c : ascii) :
  PyStr.lstrip l = c :: t -> PyStr.isspace c = false.
Proof.
  induction l as [|a l IH]; simpl; [discriminate|].
  destruct (PyStr.isspace a) eqn:Ha; [assumption|].
  intros [= <- _]. assumption.
Qed.

Lemma rstrip_last (l t : list ascii) (c : ascii) :
  PyStr.rstrip l = (t ++ [c])%list -> PyStr.isspace c = false.
Proof.
  unfold PyStr.rstrip. intros H.
  apply (f_equal (@rev ascii)) in H.
  rewrite rev_involutive, rev_app_distr in H. simpl in H.
  now apply lstrip_head in H.
Qed.

Lemma strip_list (s : string) :
  list_ascii_of_string (PyStr.strip s)
  = PyStr.rstrip (PyStr.lstrip (list_ascii_of_string s)).
Proof. unfold PyStr.strip. apply list_ascii_of_string_of_list_ascii. Qed.

Lemma lstrip_no_space (l : list ascii) :
  Forall (fun c => PyStr.isspace c = false) l -> PyStr.lstrip l = l.
Proof. destruct 1 as [|c l Hc _]; simpl; [reflexivity|now rewrite Hc]. Qed.

Lemma lstrip_idem (l : list ascii) : PyStr.lstrip (PyStr.lstrip l) = PyStr.lstrip l.
Proof.
  induction l as [|c l IH]; simpl; [reflexivity|].
  destruct (PyStr.isspace c) eqn:Hc; [assumption|]. simpl. now rewrite Hc.
Qed.

(** Trimming on the left keeps a last character that is not whitespace. *)
Lemma lstrip_snoc (l : list ascii) (c : ascii) :
  PyStr.isspace c = false ->
  PyStr.lstrip (l ++ [c]) = (PyStr.lstrip l ++ [c])%list.
Proof.
  intros Hc. induction l as [|a l IH]; simpl.
  - now rewrite Hc.
  - destruct (PyStr.isspace a); [assumption|reflexivity].
Qed.

Lemma rstrip_cons (l : list ascii) (c : ascii) :
  PyStr.isspace c = false -> PyStr.rstrip (c :: l) = c :: PyStr.rstrip l.
Proof.
  intros Hc. unfold PyStr.rstrip. simpl.
  rewrite (lstrip_snoc _ _ Hc), rev_app_distr. reflexivity.
Qed.

Lemma rstrip_idem (l : list ascii) : PyStr.rstrip (PyStr.rstrip l) = PyStr.rstrip l.
Proof. unfold PyStr.rstrip. now rewrite rev_involutive, lstrip_idem. Qed.

(** [s.strip().strip() == s.strip()] *)
Lemma strip_idem (s : string) : PyStr.strip (PyStr.strip s) = PyStr.strip s.
Proof.
  unfold PyStr.strip at 1. rewrite strip_list. unfold PyStr.strip. f_equal.
  destruct (PyStr.lstrip (list_ascii_of_string s)) as [|c t] eqn:E.
  - reflexivity.
  - pose proof (lstrip_head _ _ _ E) as Hc.
    rewrite (rstrip_cons _ _ Hc). simpl. rewrite Hc.
    now rewrite <- (rstrip_cons _ _ Hc), rstrip_idem.
Qed.

(** A trimmed text does not end with a newline. *)
Lemma strip_not_newline_end (s : string) (body : list ascii) :
  list_ascii_of_string (PyStr.strip s) <> (body ++ [newline])%list.
Proof.
  rewrite strip_list. intros H. apply rstrip_last in H. discriminate.
Qed.

(** *** Field validators on trimmed text *)

(** X1: on a trimmed field, as the record validator passes it,
    [validate_airport_code] accepts exactly the texts of three ASCII
    capital letters. *)
Theorem validate_airport_code_trimmed (field : string) :
  validate_airport_code (PyStr.strip field) = true <->
  String.length (PyStr.strip field) = 3 /\
  Forall (fun c => PyStr.isupper_ascii c = true)
    (list_ascii_of_string (PyStr.strip field)).
Proof.
  rewrite validate_airport_code_language. split.
  - intros (body & Hlen & Hall & [Hs|Hs]).
    + rewrite <- (string_of_list_ascii_of_string (PyStr.strip field)), Hs.
      rewrite list_ascii_of_string_of_list_ascii.
      split; [|assumption].
      rewrite <- Hlen. clear. induction body; simpl; congruence.
    + now apply strip_not_newline_end in Hs.
  - intros [Hlen Hall].
    exists (list_ascii_of_string (PyStr.strip field)).
    split; [|split; [assumption|now left]].
    rewrite <- Hlen. clear.
    induction (PyStr.strip field); simpl; congruence.
Qed.

(** X2: on a trimmed field [validate_flight_id] accepts exactly the texts
    of two to eight ASCII letters or digits. *)
Theorem validate_flight_id_trimmed (field : string) :
  validate_flight_id (PyStr.strip field) = true <->
  2 <= String.length (PyStr.strip field) <= 8 /\
  Forall (fun c => PyStr.isalnum_ascii c = true)
    (list_ascii_of_string (PyStr.strip field)).
Proof.
  rewrite validate_flight_id_language.
  assert (Hlen : forall s, length (list_ascii_of_string s) = String.length s).
  { induction s; simpl; congruence. }
  split.
  - intros (body & Hb & Hall & [Hs|Hs]).
    + rewrite <- Hlen, Hs. now split.
    + now apply strip_not_newline_end in Hs.
  - intros [Hb Hall].
    exists (list_ascii_of_string (PyStr.strip field)).
    rewrite Hlen. split; [assumption|]. split; [assumption|now left].
Qed.

(** X3: every text of the form YYYY-MM-DD HH:MM (four digits, then two
    digits for each field) that names a date of the calendar from year 1 on
    and a time of the day is accepted by [validate_datetime], and
    [strptime] reads exactly these fields from it. *)
Theorem validate_datetime_accepts_padded (y1 y2 y3 y4 : ascii) (m d h n : nat) :
  let y := Z.of_N (PyFloat.digits_value [y1; y2; y3; y4]) in
  PyStr.isdigit y1 = true -> PyStr.isdigit y2 = true ->
  PyStr.isdigit y3 = true -> PyStr.isdigit y4 = true ->
  (1 <= y)%Z -> 1 <= m <= 12 ->
  1 <= d -> (Z.of_nat d <= PyTime.days_in_month y (Z.of_nat m))%Z ->
  h <= 23 -> n <= 59 ->
  validate_datetime (canonical y1 y2 y3 y4 m d h n) = true /\
  PyTime.strptime (canonical y1 y2 y3 y4 m d h n) DATE_FORMAT
  = Some (PyTime.mk_datetime y (Z.of_nat m) (Z.of_nat d)
            (Z.of_nat h) (Z.of_nat n)).
Proof.
  intros y H1 H2 H3 H4 Hy Hm Hd Hdim Hh Hn.
  pose proof (strptime_canonical y1 y2 y3 y4 m d h n
                H1 H2 H3 H4 Hy Hm Hd Hdim Hh Hn) as Hp.
  split; [|exact Hp]. unfold validate_datetime. now rewrite Hp.
Qed.

Lemma validate_datetime_accepts_padded_witness :
  validate_datetime "2024-02-29 23:59" = true /\
  PyTime.strptime "2024-02-29 23:59" DATE_FORMAT
  = Some (PyTime.mk_datetime 2024 2 29 23 59).
Proof.
  apply (validate_datetime_accepts_padded "2" "0" "2" "4" 2 29 23 59);
    try reflexivity; try lia; vm_compute; try lia; discriminate.
Defined.

Lemma compare_antisym (a b : PyTime.datetime) :
  PyTime.compare b a = CompOpp (PyTime.compare a b).
Proof.
  unfold PyTime.compare.
  rewrite (Z.compare_antisym (PyTime.year a) (PyTime.year b)).
  rewrite (Z.compare_antisym (PyTime.month a) (PyTime.month b)).
  rewrite (Z.compare_antisym (PyTime.day a) (PyTime.day b)).
  rewrite (Z.compare_antisym (PyTime.hour a) (PyTime.hour b)).
  rewrite (Z.compare_antisym (PyTime.minute a) (PyTime.minute b)).
  destruct (PyTime.year a ?= PyTime.year b)%Z; simpl; try reflexivity.
  destruct (PyTime.month a ?= PyTime.month b)%Z; simpl; try reflexivity.
  destruct (PyTime.day a ?= PyTime.day b)%Z; simpl; try reflexivity.
  destruct (PyTime.hour a ?= PyTime.hour b)%Z; simpl; reflexivity.
Qed.

(** X4: [validate_times] is a strict order on timestamps: it holds only
    when both texts are valid timestamps, never in both directions, and
    never for two texts naming the same instant, the same text twice in
    particular. *)
Theorem validate_times_strict (departure arrival : string) :
  (validate_times departure arrival = true ->
   validate_datetime departure = true /\ validate_datetime arrival = true /\
   validate_times arrival departure = false) /\
  (forall t, PyTime.strptime departure DATE_FORMAT = Some t ->
             PyTime.strptime arrival DATE_FORMAT = Some t ->
             validate_times departure arrival = false) /\
  validate_times departure departure = false.
Proof.
  unfold validate_times, validate_datetime, PyTime.gt.
  split; [|split].
  - destruct (PyTime.strptime departure DATE_FORMAT) as [td|]; [|discriminate].
    destruct (PyTime.strptime arrival DATE_FORMAT) as [ta|]; [|discriminate].
    rewrite (compare_antisym ta td).
    destruct (PyTime.compare ta td); simpl; auto; discriminate.
  - intros t -> ->. now rewrite compare_refl.
  - destruct (PyTime.strptime departure DATE_FORMAT) as [td|]; [|reflexivity].
    now rewrite compare_refl.
Qed.

Lemma validate_times_strict_witness :
  validate_times "2024-01-01 10:00" "2024-01-01 14:00" = true /\
  validate_times "2024-01-01 14:00" "2024-01-01 10:00" = false /\
  validate_times "2024-1-1 9:05" "2024-01-01 09:05" = false.
Proof.
  assert (H : validate_times "2024-01-01 10:00" "2024-01-01 14:00" = true).
  { vm_compute. reflexivity. }
  split; [exact H|]. split.
  - exact (proj2 (proj2 (proj1 (validate_times_strict _ _) H))).
  - apply (proj1 (proj2 (validate_times_strict "2024-1-1 9:05" "2024-01-01 09:05"))
             (PyTime.mk_datetime 2024 1 1 9 5)); vm_compute; reflexivity.
Defined.

(** *** Signs of rounded floats *)

Lemma iter_pos_inv {A} (P : A -> Prop) (f : A -> A) :
  (forall x, P x -> P (f x)) ->
  forall (n : positive) (x : A), P x -> P (SpecFloat.iter_pos f n x).
Proof.
  intros Hf. induction n as [n IH|n IH|]; intros x Hx; simpl; auto.
Qed.

Lemma shr_1_nonneg (mrs : shr_record) :
  (0 <= shr_m mrs)%Z -> (0 <= shr_m (shr_1 mrs))%Z.
Proof.
  destruct mrs as [m r s]. simpl.
  destruct m as [|[p|p|]|p]; simpl; lia.
Qed.

Lemma shr_fexp_nonneg (m e : Z) (l : location) :
  (0 <= m)%Z ->
  (0 <= shr_m (fst (shr_fexp PyFloat.prec PyFloat.emax m e l)))%Z.
Proof.
  intros Hm. unfold shr_fexp, shr.
  assert (H0 : (0 <= shr_m (shr_record_of_loc m l))%Z).
  { destruct l as [|[]]; simpl; assumption. }
  destruct (_ - e)%Z; simpl; try assumption.
  now apply (iter_pos_inv (fun mrs => (0 <= shr_m mrs)%Z) shr_1 shr_1_nonneg).
Qed.

Lemma round_nearest_even_nonneg (m : Z) (l : location) :
  (0 <= m)%Z -> (0 <= round_nearest_even m l)%Z.
Proof.
  intros Hm. unfold round_nearest_even.
  destruct l as [|[]]; try destruct (Z.even m); lia.
Qed.

(** Rounding a non-negative mantissa gives a zero, a finite float or an
    infinity of the given sign. *)
Lemma binary_round_aux_sign (sx : bool) (mx ex : Z) (lx : location) :
  (0 <= mx)%Z ->
  match binary_round_aux PyFloat.prec PyFloat.emax sx mx ex lx with
  | S754_zero s | S754_infinity s | S754_finite s _ _ => s = sx
  | S754_nan => False
  end.
Proof.
  intros Hm. unfold binary_round_aux.
  pose proof (shr_fexp_nonneg mx ex lx Hm) as H1.
  destruct (shr_fexp PyFloat.prec PyFloat.emax mx ex lx) as [mrs' e'].
  simpl in H1.
  pose proof (shr_fexp_nonneg _ e' loc_Exact
                (round_nearest_even_nonneg _ (loc_of_shr_record mrs') H1)) as H2.
  destruct (shr_fexp PyFloat.prec PyFloat.emax _ e' loc_Exact) as [mrs'' e''].
  simpl in H2.
  destruct (shr_m mrs'') as [|p|p]; [reflexivity| |lia].
  now destruct (e'' <=? PyFloat.emax - PyFloat.prec)%Z.
Qed.

Lemma of_ratio_sign (neg : bool) (num den : positive) :
  match PyFloat.of_ratio neg num den with
  | S754_zero s | S754_infinity s | S754_finite s _ _ => s = neg
  | S754_nan => False
  end.
Proof.
  unfold PyFloat.of_ratio, SFdiv, SFdiv_core_binary.
  set (m' := match (_ - _ - _)%Z with Z0 => _ | Zpos _ => _ | Zneg _ => _ end).
  assert (Hm' : (0 <= m')%Z).
  { unfold m'. destruct (_ - _ - _)%Z; try lia.
    apply Z.shiftl_nonneg. lia. }
  pose proof (Z_div_mod_eq_full m' (Zpos den)) as Hdiv.
  assert (Hq : (0 <= m' / Zpos den)%Z) by (apply Z.div_pos; lia).
  unfold Z.div in Hq.
  destruct (Z.div_eucl m' (Zpos den)) as [q r]. simpl in Hq.
  cbv beta iota zeta. rewrite xorb_false_r.
  now apply binary_round_aux_sign.
Qed.

(** [round(x, 2)] of a float that is not negative is not negative. *)
Lemma round2_not_negative (x : PyFloat.float) :
  PyFloat.lt x PyFloat.zero = false ->
  PyFloat.lt (PyFloat.round2 x) PyFloat.zero = false.
Proof.
  destruct x as [s|s| |s m e]; try (intros H; exact H).
  destruct s; [discriminate|]. intros _. unfold PyFloat.round2.
  destruct (match e with Zneg k => _ | _ => _ end) as [|n|n]; try reflexivity.
  pose proof (of_ratio_sign false n 100) as Hs.
  destruct (PyFloat.of_ratio false n 100) as [s|s| |s m' e'];
    try (subst s; reflexivity). contradiction.
Qed.

(** [round(x, 2)] of a positive float is zero or positive, never NaN. *)
Lemma round2_positive (x : PyFloat.float) :
  PyFloat.gt x PyFloat.zero = true ->
  PyFloat.le PyFloat.zero (PyFloat.round2 x) = true.
Proof.
  destruct x as [s|s| |s m e]; try discriminate.
  - destruct s; [discriminate|reflexivity].
  - destruct s; [discriminate|]. intros _. unfold PyFloat.round2.
    destruct (match e with Zneg k => _ | _ => _ end) as [|n|n]; try reflexivity.
    pose proof (of_ratio_sign false n 100) as Hs.
    destruct (PyFloat.of_ratio false n 100) as [s|s| |s m' e'];
      try (subst s; reflexivity). contradiction.
Qed.

(** *** The outcome of the record validator *)

(** X5: [parse_flight_record] never raises.  It returns a flight exactly
    when it returns no error, and then the flight holds the six trimmed
    fields, each of which passes its validator, the arrival is after the
    departure, and the price is [round(float(price), 2)] for a positive
    float, hence not negative and not NaN; otherwise it returns no flight
    and at least one error. *)
Theorem parse_flight_record_outcome (record : list string) (line : nat)
    (filename : string) :
  exists valid data errs,
    parse_flight_record record line filename = Ok (valid, data, errs) /\
    match data with
    | Some fl =>
        valid = true /\ errs = [] /\
        exists f1 f2 f3 f4 f5 f6 x,
          record = [f1; f2; f3; f4; f5; f6] /\
          PyFloat.of_string (PyStr.strip f6) = Some x /\
          PyFloat.gt x PyFloat.zero = true /\
          fl = mk_flight (PyStr.strip f1) (PyStr.strip f2) (PyStr.strip f3)
                 (PyStr.strip f4) (PyStr.strip f5) (PyFloat.round2 x) /\
          validate_flight_id (flight_id fl) = true /\
          validate_airport_code (origin fl) = true /\
          validate_airport_code (destination fl) = true /\
          validate_datetime (departure_datetime fl) = true /\
          validate_datetime (arrival_datetime fl) = true /\
          validate_times (departure_datetime fl) (arrival_datetime fl) = true /\
          PyFloat.le PyFloat.zero (price fl) = true
    | None => valid = false /\ errs <> []
    end.
Proof.
  unfold parse_flight_record.
  destruct (negb (length record =? 6)%nat) eqn:Hlen.
  { eexists _, _, _. split; [reflexivity|]. split; [reflexivity|].
    unfold append. now destruct (length record <? 6)%nat. }
  destruct record as [|f1 [|f2 [|f3 [|f4 [|f5 [|f6 [|f7 r]]]]]]]; try discriminate.
  cbv zeta. rewrite checks_field_errors.
  destruct (field_errors _ _ _ _ _ _) as [|e es] eqn:E.
  - pose proof (field_errors_nil_valid _ _ _ _ _ _ E)
      as (V1 & V2 & V3 & V4 & V5 & V6 & V7).
    unfold validate_price in V7.
    destruct (PyFloat.of_string (PyStr.strip f6)) as [x|] eqn:Hx; [|discriminate].
    eexists _, _, _. split; [reflexivity|]. cbn [is_nil negb].
    split; [reflexivity|]. split; [reflexivity|].
    exists f1, f2, f3, f4, f5, f6, x. simpl.
    repeat split; auto. now apply round2_positive.
  - eexists _, _, _. split; [reflexivity|]. now split.
Qed.

(** X6: the validator only looks at the trimmed fields: two records whose
    fields are equal after trimming get the same outcome, whatever their
    line numbers and file names; a record and its trimmed copy in
    particular. *)
Theorem parse_flight_record_ignores_padding (record record' : list string)
    (line line' : nat) (filename filename' : string) :
  (map PyStr.strip record = map PyStr.strip record' ->
   parse_flight_record record line filename
   = parse_flight_record record' line' filename') /\
  parse_flight_record (map PyStr.strip record) line filename
  = parse_flight_record record line' filename'.
Proof.
  assert (H : forall r r', map PyStr.strip r = map PyStr.strip r' ->
              parse_flight_record r line filename
              = parse_flight_record r' line' filename').
  { intros r r' Hmap.
    assert (Hlen : length r = length r').
    { rewrite <- (length_map PyStr.strip r), Hmap. apply length_map. }
    unfold parse_flight_record. rewrite Hlen.
    destruct (negb (length r' =? 6)%nat) eqn:H6; [reflexivity|].
    destruct r as [|f1 [|f2 [|f3 [|f4 [|f5 [|f6 [|f7 r]]]]]]];
      destruct r' as [|g1 [|g2 [|g3 [|g4 [|g5 [|g6 [|g7 r']]]]]]];
      try discriminate.
    injection Hmap as -> -> -> -> -> ->. reflexivity. }
  split; [apply H|].
  apply H. rewrite map_map. apply map_ext. intros s. apply strip_idem.
Qed.

Lemma parse_flight_record_ignores_padding_witness :
  parse_flight_record
    ["  AB1"; "JFK "; " LAX "; "2024-01-01 10:00  "; " 2024-01-01 14:00"; " 99.5 "]
    7 "a.csv"
  = parse_flight_record
      ["AB1"; "JFK"; "LAX"; "2024-01-01 10:00"; "2024-01-01 14:00"; "99.5"]
      1 "b.csv".
Proof.
  apply (proj1 (parse_flight_record_ignores_padding _ _ 7 1 "a.csv" "b.csv")).
  vm_compute. reflexivity.
Defined.

(** *** The ingestion loop *)

Lemma parse_flight_record_returns (record : list string) (line : nat)
    (filename : string) :
  exists valid data errs,
    parse_flight_record record line filename = Ok (valid, data, errs).
Proof.
  unfold parse_flight_record.
  destruct (negb (length record =? 6)%nat) eqn:Hlen; [eauto|].
  destruct record as [|f1 [|f2 [|f3 [|f4 [|f5 [|f6 [|f7 r]]]]]]]; try discriminate.
  cbv zeta. rewrite checks_field_errors.
  destruct (field_errors _ _ _ _ _ _) as [|e es] eqn:E; [|simpl; eauto].
  destruct (field_errors_nil_price _ _ _ _ _ _ E) as [x ->]. simpl. eauto.
Qed.

Lemma extend_init (self : parser) : extend self init = self.
Proof. destruct self. unfold extend. simpl. now rewrite !app_nil_r. Qed.

Lemma extend_assoc (a b c : parser) :
  extend (extend a b) c = extend a (extend b c).
Proof. unfold extend. simpl. now rewrite !app_assoc. Qed.

(** What a row adds does not depend on what was collected before. *)
Lemma process_row_extend (file_path : string) (line : nat) (row : list string) :
  exists d : parser,
    (forall self, process_row self file_path line row = Some (extend self d)) /\
    length (valid_flights d) + length (errors d)
    = (if recorded line row then 1 else 0) /\
    Forall (fun e => file e = file_path /\ line_number e = line /\
                     raw_line e = PyStr.join "," row) (errors d).
Proof.
  unfold process_row, recorded, comment_row, header_like.
  destruct row as [|first rest].
  { exists init. split; [intros; now rewrite extend_init|]. now split. }
  cbn [is_nil negb andb].
  destruct (PyStr.startswith "#" (PyStr.strip first)).
  { eexists (mk_parser [] [_]). split; [intros; unfold extend; simpl; now rewrite ?app_nil_r|].
    split; [reflexivity|]. repeat constructor. }
  cbn [orb].
  destruct rest as [|second rest].
  { rewrite !andb_false_r.
    destruct (parse_flight_record_returns [first] line file_path)
      as (valid & data & errs & ->).
    destruct valid, data as [fl|].
    - exists (mk_parser [fl] []). split; [intros; unfold extend; simpl; now rewrite ?app_nil_r|]. now split.
    - eexists (mk_parser [] [_]). split; [intros; unfold extend; simpl; now rewrite ?app_nil_r|].
      split; [reflexivity|]. repeat constructor.
    - eexists (mk_parser [] [_]). split; [intros; unfold extend; simpl; now rewrite ?app_nil_r|].
      split; [reflexivity|]. repeat constructor.
    - eexists (mk_parser [] [_]). split; [intros; unfold extend; simpl; now rewrite ?app_nil_r|].
      split; [reflexivity|]. repeat constructor. }
  match goal with
  | |- context [if ?c then Some _ else _] =>
      assert (Hc : c = (line =? 1)%nat &&
                       ((6 <=? length (first :: second :: rest))%nat &&
                        String.eqb (PyStr.lower first) "flight_id" &&
                        String.eqb (PyStr.lower second) "origin"))
        by (now rewrite !andb_assoc);
      rewrite Hc; clear Hc
  end.
  destruct (_ && _).
  { exists init. split; [intros; now rewrite extend_init|]. now split. }
  destruct (parse_flight_record_returns (first :: second :: rest) line file_path)
    as (valid & data & errs & ->).
  destruct valid, data as [fl|].
  - exists (mk_parser [fl] []). split; [intros; unfold extend; simpl; now rewrite ?app_nil_r|]. now split.
  - eexists (mk_parser [] [_]). split; [intros; unfold extend; simpl; now rewrite ?app_nil_r|].
    split; [reflexivity|]. repeat constructor.
  - eexists (mk_parser [] [_]). split; [intros; unfold extend; simpl; now rewrite ?app_nil_r|].
    split; [reflexivity|]. repeat constructor.
  - eexists (mk_parser [] [_]). split; [intros; unfold extend; simpl; now rewrite ?app_nil_r|].
    split; [reflexivity|]. repeat constructor.
Qed.

Lemma increasing_from_mono (lo lo' : nat) (l : list nat) :
  lo' <= lo -> increasing_from lo l -> increasing_from lo' l.
Proof. destruct l; simpl; [trivial|]. intros H [H1 H2]. split; [lia|assumption]. Qed.

(** What the rows of a file add: independent of what was collected
    before, one entry for each recorded row, each diagnostic tagged with
    the file, the number of its row and the text of that row. *)
Lemma parse_rows_extend (file_path : string) (rows : list (list string)) :
  forall start : nat,
  exists d : parser,
    (forall self, parse_rows self file_path start rows = Some (extend self d)) /\
    length (valid_flights d) + length (errors d) = count_recorded start rows /\
    Forall (fun e => file e = file_path /\
                     exists row, rows !! (line_number e - start - 1) = Some row /\
                                 start < line_number e /\
                                 raw_line e = PyStr.join "," row) (errors d) /\
    increasing_from start (map line_number (errors d)).
Proof.
  induction rows as [|row rows IH]; intros start.
  { exists init. split; [intros; now rewrite extend_init|].
    repeat split. constructor. }
  destruct (process_row_extend file_path (S start) row) as (d1 & H1 & C1 & P1).
  destruct (IH (S start)) as (d2 & H2 & C2 & P2 & I2).
  exists (extend d1 d2). split; [|split; [|split]].
  - intros self. cbn [parse_rows]. rewrite H1. cbn. rewrite H2.
    now rewrite extend_assoc.
  - cbn [count_recorded]. rewrite <- C1, <- C2. unfold extend. simpl.
    rewrite !length_app. lia.
  - unfold extend. simpl. apply Forall_app. split.
    + eapply List.Forall_impl; [|exact P1]. intros e (Hf & Hl & Hr).
      split; [assumption|]. exists row. rewrite Hl.
      replace (S start - start - 1) with 0 by lia.
      repeat split; auto with lia.
    + eapply List.Forall_impl; [|exact P2]. intros e (Hf & row' & Hrow & Hlt & Hr).
      split; [assumption|]. exists row'.
      replace (line_number e - start - 1)
        with (S (line_number e - S start - 1)) by lia.
      repeat split; auto with lia.
  - unfold extend. simpl. rewrite map_app.
    destruct (errors d1) as [|e1 [|e1' es]].
    + simpl. now apply (increasing_from_mono (S start)); [lia|].
    + inversion P1 as [|? ? (_ & Hl & _) _]; subst. simpl. rewrite Hl.
      split; [lia|assumption].
    + exfalso. simpl in C1. destruct (recorded (S start) row); lia.
Qed.

(** X7: [parse_csv_file] never aborts on rows that were read, and it only
    appends: the result is the parser it was given, followed by what the
    same file gives on a fresh parser.  Parsing two files in turn gives
    the collections of the first followed by those of the second. *)
Theorem parse_csv_file_accumulates (file_path : string)
    (rows : list (list string)) :
  exists d : parser,
    parse_csv_file init file_path rows = Some d /\
    (forall self, parse_csv_file self file_path rows = Some (extend self d)) /\
    (forall self file_path' rows' d',
       parse_csv_file init file_path' rows' = Some d' ->
       (self1 ← parse_csv_file self file_path rows;
        parse_csv_file self1 file_path' rows')
       = Some (extend (extend self d) d')).
Proof.
  unfold parse_csv_file.
  destruct (parse_rows_extend file_path rows 0) as (d & Hd & _).
  exists d. split; [|split].
  - rewrite Hd. unfold extend, init. simpl. now destruct d.
  - exact Hd.
  - intros self file_path' rows' d' Hd'. rewrite Hd. cbn.
    destruct (parse_rows_extend file_path' rows' 0) as (d2 & Hd2 & _).
    rewrite Hd2 in Hd' |- *. injection Hd' as <-. reflexivity.
Qed.

(** X8: no row is lost or counted twice: after [parse_csv_file] the two
    collections have grown, together, by one entry for each row that is
    neither empty nor a header on line 1 (comment rows included), so by at
    most the number of rows. *)
Theorem parse_csv_file_counts (self : parser) (file_path : string)
    (rows : list (list string)) :
  exists self',
    parse_csv_file self file_path rows = Some self' /\
    length (valid_flights self') + length (errors self')
    = length (valid_flights self) + length (errors self)
      + count_recorded 0 rows /\
    count_recorded 0 rows <= length rows.
Proof.
  unfold parse_csv_file.
  destruct (parse_rows_extend file_path rows 0) as (d & Hd & Hc & _).
  exists (extend self d). split; [apply Hd|]. split.
  - unfold extend. simpl. rewrite !length_app. lia.
  - clear. generalize 0. induction rows as [|row rows IH]; intros n; simpl; [lia|].
    specialize (IH (S n)). destruct (recorded (S n) row); lia.
Qed.

(** X9: every diagnostic that [parse_csv_file] adds names the file, carries
    the 1-based number of the row it comes from (empty and comment rows
    counted) and the fields of that row joined by commas; the diagnostics
    are added in the order of the rows. *)
Theorem parse_csv_file_diagnostics (self : parser) (file_path : string)
    (rows : list (list string)) :
  exists (flights : list flight) (diags : list diagnostic),
    parse_csv_file self file_path rows
    = Some (mk_parser (valid_flights self ++ flights) (errors self ++ diags)) /\
    Forall (fun e => file e = file_path /\
                     exists row, rows !! (line_number e - 1) = Some row /\
                                 1 <= line_number e <= length rows /\
                                 raw_line e = PyStr.join "," row) diags /\
    increasing_from 0 (map line_number diags).
Proof.
  unfold parse_csv_file.
  destruct (parse_rows_extend file_path rows 0) as (d & Hd & _ & Hp & Hi).
  exists (valid_flights d), (errors d). split; [apply Hd|]. split; [|exact Hi].
  eapply List.Forall_impl; [|exact Hp]. intros e (Hf & row & Hrow & Hlt & Hr).
  split; [assumption|]. exists row.
  replace (line_number e - 1) with (line_number e - 0 - 1) by lia.
  split; [assumption|]. split; [|assumption].
  apply lookup_lt_Some in Hrow. lia.
Qed.

(** *** Header and comment rows *)

Lemma lower_char_space (c : ascii) :
  PyStr.isspace c = true -> PyStr.lower_char c = c.
Proof.
  unfold PyStr.isspace, PyStr.lower_char, PyStr.isupper_ascii, PyStr.in_range.
  intros H.
  repeat match goal with
  | |- context [(?a <=? ?b)%N] => destruct (N.leb_spec a b)
  | H : context [(?a <=? ?b)%N] |- _ => destruct (N.leb_spec a b)
  | H : context [(?a =? ?b)%N] |- _ => destruct (N.eqb_spec a b)
  end; simpl in *; try reflexivity; try discriminate; lia.
Qed.

Lemma lower_no_space (s t : string) :
  PyStr.lower s = t ->
  Forall (fun c => PyStr.isspace c = false) (list_ascii_of_string t) ->
  Forall (fun c => PyStr.isspace c = false) (list_ascii_of_string s).
Proof.
  revert t. induction s as [|c s IH]; intros t <-; simpl; [trivial|].
  intros H. inversion H as [|? ? Hc Hs]; subst. constructor.
  - destruct (PyStr.isspace c) eqn:E; [|reflexivity].
    now rewrite (lower_char_space c E), E in Hc.
  - now apply (IH _ eq_refl).
Qed.

Lemma strip_no_space (s : string) :
  Forall (fun c => PyStr.isspace c = false) (list_ascii_of_string s) ->
  PyStr.strip s = s.
Proof.
  intros H. unfold PyStr.strip, PyStr.rstrip.
  rewrite (lstrip_no_space _ H).
  rewrite (lstrip_no_space (rev _)) by now apply List.Forall_rev.
  rewrite rev_involutive. apply string_of_list_ascii_of_string.
Qed.

Lemma lower_length (s : string) : String.length (PyStr.lower s) = String.length s.
Proof. induction s; simpl; congruence. Qed.

Lemma validate_airport_code_length (s : string) :
  validate_airport_code s = true -> String.length s <= 4.
Proof.
  assert (Hlen : length (list_ascii_of_string s) = String.length s).
  { induction s; simpl; congruence. }
  rewrite validate_airport_code_language.
  intros (body & Hb & _ & [Hs|Hs]); rewrite <- Hlen, Hs, ?length_app; simpl; lia.
Qed.

(** The fields of a header are not valid: the record validator reports the
    row. *)
Lemma header_like_rejected (row : list string) (line : nat) (filename : string) :
  header_like row = true ->
  exists errs, parse_flight_record row line filename = Ok (false, None, errs).
Proof.
  unfold header_like.
  destruct row as [|first [|second rest]]; try discriminate.
  rewrite !andb_true_iff. intros [[Hlen _] Hsecond].
  apply Nat.leb_le in Hlen. apply String.eqb_eq in Hsecond.
  unfold parse_flight_record.
  destruct (negb (length (first :: second :: rest) =? 6)%nat) eqn:H6; [eauto|].
  destruct rest as [|f3 [|f4 [|f5 [|f6 [|f7 r]]]]]; try discriminate.
  cbv zeta. rewrite checks_field_errors.
  assert (Hstrip : PyStr.strip second = second).
  { apply strip_no_space. apply (lower_no_space _ _ Hsecond).
    repeat constructor. }
  assert (Hbad : check_origin [] (PyStr.strip second) <> []).
  { rewrite Hstrip. unfold check_origin, append.
    destruct (PyStr.is_empty second); [discriminate|].
    destruct (validate_airport_code second) eqn:V; [|discriminate].
    apply validate_airport_code_length in V.
    rewrite <- lower_length, Hsecond in V. simpl in V. lia. }
  destruct (field_errors _ _ _ _ _ _) as [|e es] eqn:E; [|simpl; eauto].
  exfalso. unfold field_errors in E.
  apply app_eq_nil in E as [_ E]. apply app_eq_nil in E as [E _]. contradiction.
Qed.

(** X10: a row that starts with the comment mark is always recorded as a
    comment, never as a flight.  A header row (six fields or more, the
    first two reading flight_id and origin in any letter case) is skipped
    on line 1 only: on any other line it is handed to the record validator
    and recorded as a rejected row. *)
Theorem special_rows (self : parser) (file_path : string) (line : nat)
    (row : list string) :
  (comment_row row = true ->
   process_row self file_path line row
   = Some (mk_parser (valid_flights self)
             (errors self ++
              [mk_diagnostic file_path line (PyStr.join "," row)
                 "comment line, ignored for data parsing"]))) /\
  (header_like row = true ->
   comment_row row = false /\
   (line = 1 -> process_row self file_path line row = Some self) /\
   (line <> 1 ->
    exists errs,
      parse_flight_record row line file_path = Ok (false, None, errs) /\
      process_row self file_path line row
      = Some (mk_parser (valid_flights self)
                (errors self ++
                 [mk_diagnostic file_path line (PyStr.join "," row)
                    (PyStr.join "; " errs)])))).
Proof.
  split.
  - unfold comment_row, process_row. destruct row as [|first rest]; [discriminate|].
    now intros ->.
  - intros Hh.
    assert (Hc : comment_row row = false).
    { unfold header_like in Hh. unfold comment_row.
      destruct row as [|first [|second rest]]; try discriminate.
      rewrite !andb_true_iff in Hh. destruct Hh as [[_ Hfirst] _].
      apply String.eqb_eq in Hfirst.
      rewrite strip_no_space
        by (apply (lower_no_space _ _ Hfirst); repeat constructor).
      destruct first as [|c first]; [discriminate|].
      simpl in Hfirst. injection Hfirst as Hchar _.
      unfold PyStr.startswith. cbn [String.prefix].
      destruct (ascii_dec "#" c) as [<-|]; [discriminate|reflexivity]. }
    split; [exact Hc|].
    unfold process_row.
    destruct row as [|first rest]; [discriminate|].
    unfold comment_row in Hc. rewrite Hc.
    assert (Hhead : (6 <=? length (first :: rest))%nat &&
                    String.eqb (PyStr.lower first) "flight_id" &&
                    match rest with
                    | second :: _ => String.eqb (PyStr.lower second) "origin"
                    | [] => false
                    end = true).
    { unfold header_like in Hh. now destruct rest. }
    split.
    + intros ->. simpl Nat.eqb. cbn [andb].
      rewrite <- !andb_assoc in Hhead |- *. now rewrite Hhead.
    + intros Hline.
      destruct (Nat.eqb_spec line 1) as [|_]; [contradiction|]. cbn [andb].
      destruct (header_like_rejected _ line file_path Hh) as [errs Herrs].
      exists errs. split; [exact Herrs|]. now rewrite Herrs.
Qed.

Lemma special_rows_witness :
  let header := ["Flight_ID"; "ORIGIN"; "destination"; "departure_datetime";
                 "arrival_datetime"; "price"] in
  process_row init "a.csv" 1 header = Some init /\
  process_row init "a.csv" 2 header
  = Some (mk_parser []
            [mk_diagnostic "a.csv" 2
               "Flight_ID,ORIGIN,destination,departure_datetime,arrival_datetime,price"
               "flight_id too long (more than 8 characters); invalid origin code; invalid destination code; invalid departure datetime; invalid arrival datetime; invalid price format"]) /\
  process_row init "a.csv" 1 ["  # AB1"; "JFK"]
  = Some (mk_parser []
            [mk_diagnostic "a.csv" 1 "  # AB1,JFK"
               "comment line, ignored for data parsing"]).
Proof.
  intros header.
  assert (Hh : header_like header = true) by reflexivity.
  destruct (proj2 (special_rows init "a.csv" 1 header) Hh) as (_ & H1 & _).
  destruct (proj2 (special_rows init "a.csv" 2 header) Hh) as (_ & _ & H2).
  split; [now apply H1|]. split.
  - destruct (H2 ltac:(discriminate)) as (errs & Herrs & ->).
    vm_compute in Herrs. injection Herrs as <-. vm_compute. reflexivity.
  - apply (proj1 (special_rows init "a.csv" 1 ["  # AB1"; "JFK"])).
    vm_compute. reflexivity.
Defined.

(** *** Directory mode *)

Lemma ascii_compare_lt_trans (a b c : ascii) :
  Ascii.compare a b = Lt -> Ascii.compare b c = Lt -> Ascii.compare a c = Lt.
Proof.
  unfold Ascii.compare. rewrite !N.compare_lt_iff. lia.
Qed.

Lemma string_compare_lt_trans (a b c : string) :
  String.compare a b = Lt -> String.compare b c = Lt -> String.compare a c = Lt.
Proof.
  revert b c. induction a as [|x a IH]; intros [|y b] [|z c]; simpl;
    try discriminate; try reflexivity.
  destruct (Ascii.compare x y) eqn:Hxy; try discriminate.
  - apply Ascii.compare_eq_iff in Hxy as ->.
    destruct (Ascii.compare y z); try discriminate; [apply IH|reflexivity].
  - intros _. destruct (Ascii.compare y z) eqn:Hyz; try discriminate.
    + apply Ascii.compare_eq_iff in Hyz as <-. now rewrite Hxy.
    + intros _. now rewrite (ascii_compare_lt_trans x y z Hxy Hyz).
Qed.

Lemma string_leb_trans (a b c : string) :
  String.leb a b = true -> String.leb b c = true -> String.leb a c = true.
Proof.
  unfold String.leb.
  destruct (String.compare a b) eqn:Hab; try discriminate; intros _.
  - apply String.compare_eq_iff in Hab as ->. trivial.
  - destruct (String.compare b c) eqn:Hbc; try discriminate; intros _.
    + apply String.compare_eq_iff in Hbc as <-. now rewrite Hab.
    + now rewrite (string_compare_lt_trans a b c Hab Hbc).
Qed.

Lemma string_leb_false (a b : string) :
  String.leb a b = false -> String.leb b a = true /\ a <> b.
Proof.
  intros H. split.
  - destruct (String.leb_total a b) as [H'|H']; [congruence|assumption].
  - intros ->. destruct (String.leb_total b b); congruence.
Qed.

(** Two files with different names can be inserted in either order. *)
Lemma insert_file_comm (f g : csv_file) (l : list csv_file) :
  fst f <> fst g ->
  insert_file f (insert_file g l) = insert_file g (insert_file f l).
Proof.
  intros Hne. induction l as [|h l IH]; simpl.
  - destruct (String.leb (fst f) (fst g)) eqn:Hfg,
             (String.leb (fst g) (fst f)) eqn:Hgf; try reflexivity.
    + now pose proof (String.leb_antisym _ _ Hfg Hgf).
    + apply string_leb_false in Hfg as [Hfg _]. congruence.
  - destruct (String.leb (fst g) (fst h)) eqn:Hgh,
             (String.leb (fst f) (fst h)) eqn:Hfh; simpl;
      destruct (String.leb (fst f) (fst g)) eqn:Hfg,
               (String.leb (fst g) (fst f)) eqn:Hgf;
      rewrite ?Hgh, ?Hfh; try reflexivity;
      try (now pose proof (String.leb_antisym _ _ Hfg Hgf));
      try (apply string_leb_false in Hfg as [Hfg _]; congruence);
      try (pose proof (string_leb_trans _ _ _ Hfg Hgh); congruence);
      try (pose proof (string_leb_trans _ _ _ Hgf Hfh); congruence).
    now rewrite IH.
Qed.

Lemma sorted_files_permutation (l l' : list csv_file) :
  Permutation l l' -> List.NoDup (map fst l) ->
  sorted_files l = sorted_files l'.
Proof.
  unfold sorted_files.
  induction 1 as [|x l l' Hp IH|x y l|l l' l'' Hp1 IH1 Hp2 IH2]; intros Hnd.
  - reflexivity.
  - simpl. rewrite IH; [reflexivity|]. now inversion Hnd.
  - simpl. apply insert_file_comm.
    simpl in Hnd. inversion Hnd as [|? ? Hin _]; subst.
    intros Heq. apply Hin. left. congruence.
  - rewrite IH1 by assumption. apply IH2.
    eapply Permutation.Permutation_NoDup; [|exact Hnd].
    now apply Permutation_map.
Qed.

Lemma insert_file_permutation (f : csv_file) (l : list csv_file) :
  Permutation (insert_file f l) (f :: l).
Proof.
  induction l as [|g l IH]; simpl; [reflexivity|].
  destruct (String.leb (fst f) (fst g)); [reflexivity|].
  rewrite IH. apply perm_swap.
Qed.

Lemma insert_file_ascending (f : csv_file) (l : list csv_file) :
  names_ascending l -> names_ascending (insert_file f l).
Proof.
  induction l as [|g l IH]; simpl; [auto|].
  intros [Hg Hl].
  destruct (String.leb (fst f) (fst g)) eqn:Hfg; simpl.
  - split; [|now split]. constructor; [assumption|].
    eapply List.Forall_impl; [|exact Hg].
    intros h Hh. now apply (string_leb_trans _ (fst g)).
  - split; [|now apply IH].
    apply string_leb_false in Hfg as [Hgf _].
    apply List.Forall_forall. intros h Hh.
    apply (Permutation_in _ (insert_file_permutation f l)) in Hh.
    destruct Hh as [<-|Hh]; [assumption|].
    rewrite List.Forall_forall in Hg. now apply Hg.
Qed.



(** *** The loader and the shape of the objects *)

Lemma revalidate_extra_key float_repr (fields : gmap string pyval)
    (key : string) (value : pyval) :
  key ∉ required_fields ->
  revalidate float_repr (JObject (<[key := value]> fields))
  = revalidate float_repr (JObject fields).
Proof.
  intros Hk. unfold revalidate, getitem. cbn [mapM required_fields].
  assert (Hne : forall f, f ∈ required_fields ->
                          <[key := value]> fields !! f = fields !! f).
  { intros f Hf. apply lookup_insert_ne. intros ->. contradiction. }
  rewrite !Hne by (unfold required_fields; set_solver).
  reflexivity.
Qed.

Lemma revalidate_missing_key float_repr (fields : gmap string pyval)
    (field : string) :
  field ∈ required_fields -> fields !! field = None ->
  revalidate float_repr (JObject fields) = Raise ValueError.
Proof.
  intros Hin Hnone. unfold revalidate. cbn [mapM required_fields].
  unfold required_fields in Hin.
  repeat (apply elem_of_cons in Hin as [->|Hin];
          [rewrite Hnone;
           repeat match goal with
                  | |- context [bool_decide (is_Some (fields !! ?f))] =>
                      destruct (fields !! f) eqn:?
                  end; reflexivity|]).
  now apply elem_of_nil in Hin.
Qed.

(** X12: the loader rejects an element that is not an object and an object
    that lacks one of the six keys, and it ignores every other key: adding
    or changing a key that is not one of the six does not change what is
    loaded. *)
Theorem load_json_database_keys (float_repr : PyFloat.float -> string)
    (self : parser) (before after : list json_elem)
    (fields : gmap string pyval) :
  (forall field, field ∈ required_fields -> fields !! field = None ->
     load_json_database float_repr self (DArray (before ++ JObject fields :: after))
     = load_json_database float_repr self (DArray (before ++ after))) /\
  load_json_database float_repr self (DArray (before ++ JOther :: after))
  = load_json_database float_repr self (DArray (before ++ after)) /\
  (forall key value, key ∉ required_fields ->
     load_json_database float_repr self
       (DArray (before ++ JObject (<[key := value]> fields) :: after))
     = load_json_database float_repr self
         (DArray (before ++ JObject fields :: after))).
Proof.
  unfold load_json_database. rewrite !revalidate_all_acc. simpl.
  rewrite !omap_app. simpl. split; [|split].
  - intros field Hin Hnone. unfold accepted at 2.
    now rewrite (revalidate_missing_key float_repr fields field Hin Hnone).
  - reflexivity.
  - intros key value Hk. rewrite !revalidate_all_acc. simpl.
    rewrite !omap_app. simpl. unfold accepted at 2 5.
    now rewrite (revalidate_extra_key float_repr fields key value Hk).
Qed.

Lemma load_json_database_keys_witness :
  load_json_database (fun _ => "") init
    (DArray [JObject (<["flight_id" := VStr "AB1"]> ∅);
             text_record "AB2" "JFK" "LAX" "2024-01-01 10:00"
               "2024-01-01 14:00" "100"])
  = load_json_database (fun _ => "") init
      (DArray [text_record "AB2" "JFK" "LAX" "2024-01-01 10:00"
                 "2024-01-01 14:00" "100"]).
Proof.
  apply (proj1 (load_json_database_keys (fun _ => "") init []
                  [text_record "AB2" "JFK" "LAX" "2024-01-01 10:00"
                     "2024-01-01 14:00" "100"]
                  (<["flight_id" := VStr "AB1"]> ∅)) "price").
  - unfold required_fields. set_solver.
  - reflexivity.
Defined.

(** *** The invariant of the valid collection *)

(** A property that both ways of building a flight establish holds of
    every flight of every state a run reaches. *)
Lemma reachable_invariant float_repr (P : flight -> Prop) :
  (forall record line filename valid fl errs,
     parse_flight_record record line filename = Ok (valid, Some fl, errs) ->
     P fl) ->
  (forall elem f, revalidate float_repr elem = Ok f -> P f) ->
  forall self, reachable float_repr self -> Forall P (valid_flights self).
Proof.
  intros Hcsv Hjson self Hreach.
  induction Hreach as [|self file_path rows self' _ IH Hrows
                        |self data self' _ _ Hload].
  - constructor.
  - unfold parse_csv_file in Hrows. revert self IH Hrows.
    generalize 0%nat as line.
    induction rows as [|row rows IHrows]; intros line self IH.
    + now intros [= <-].
    + cbn [parse_rows].
      destruct (process_row self file_path (S line) row) as [self1|] eqn:Prow;
        [|discriminate].
      apply (IHrows (S line) self1). clear IHrows.
      revert Prow. unfold process_row.
      destruct row as [|first rest]; [now intros [= <-]|].
      destruct (PyStr.startswith _ _); [now intros [= <-]|].
      match goal with |- context [if ?c then _ else _] => destruct c end;
        [now intros [= <-]|].
      destruct (parse_flight_record _ _ _) as [[[valid data] errs]|e] eqn:Prec;
        [|discriminate].
      destruct valid, data as [fl|]; intros [= <-]; simpl; try assumption.
      apply Forall_app. split; [assumption|].
      constructor; [|constructor]. now apply Hcsv in Prec.
  - destruct data as [items|]; [|discriminate].
    unfold load_json_database in Hload. rewrite revalidate_all_acc in Hload.
    injection Hload as <-. simpl. apply List.Forall_forall. intros f Hin.
    apply list_elem_of_In, list_elem_of_omap in Hin as (elem & _ & Hacc).
    unfold accepted in Hacc.
    destruct (revalidate float_repr elem) as [g|] eqn:R; [|discriminate].
    injection Hacc as ->. now apply Hjson in R.
Qed.

Lemma float_lt_le_zero (x : PyFloat.float) :
  PyFloat.le x PyFloat.zero = false -> PyFloat.lt x PyFloat.zero = false.
Proof. destruct x as [[]|[]| |[] m e]; (discriminate || reflexivity). Qed.

Lemma float_gt_not_lt_zero (x : PyFloat.float) :
  PyFloat.gt x PyFloat.zero = true -> PyFloat.lt x PyFloat.zero = false.
Proof. destruct x as [[]|[]| |[] m e]; (discriminate || reflexivity). Qed.

Lemma parse_flight_record_wf record line filename valid fl errs :
  parse_flight_record record line filename = Ok (valid, Some fl, errs) ->
  flight_wf fl = true.
Proof.
  unfold parse_flight_record.
  destruct (negb (length record =? 6)%nat) eqn:Hlen; [discriminate|].
  destruct record as [|f1 [|f2 [|f3 [|f4 [|f5 [|f6 [|f7 r]]]]]]]; try discriminate.
  cbv zeta. rewrite checks_field_errors.
  destruct (field_errors _ _ _ _ _ _) as [|e es] eqn:E; [|discriminate].
  apply field_errors_nil_valid in E as (V1 & V2 & V3 & V4 & V5 & V6 & V7).
  unfold validate_price in V7.
  destruct (PyFloat.of_string (PyStr.strip f6)) as [x|]; [|discriminate].
  simpl. intros [= _ <- _]. unfold flight_wf. simpl.
  rewrite V1, V2, V3, V4, V5, V6. simpl.
  now rewrite round2_not_negative by now apply float_gt_not_lt_zero.
Qed.

Lemma revalidate_wf float_repr elem f :
  revalidate float_repr elem = Ok f -> flight_wf f = true.
Proof.
  destruct elem as [fields|]; [|discriminate].
  unfold revalidate. intros H.
  repeat step_bind H.
  injection H as <-. unfold flight_wf. simpl.
  repeat match goal with
  | E : require ?c = Ok _ |- _ =>
      destruct c eqn:?; [clear E|discriminate E]
  end.
  simpl. rewrite round2_not_negative; [reflexivity|].
  apply float_lt_le_zero.
  match goal with H : negb _ = true |- _ => now apply negb_true_iff in H end.
Qed.

(** X13: in every state a run reaches (a fresh parser, then CSV files and
    JSON databases in any order) every flight of the valid collection is
    well formed: its flight_id, its two airport codes and its two
    timestamps pass their validators, its arrival is after its departure,
    and its price is not negative. *)
Theorem valid_flights_well_formed (float_repr : PyFloat.float -> string)
    (self : parser) :
  reachable float_repr self ->
  Forall (fun f => flight_wf f = true) (valid_flights self).
Proof.
  apply reachable_invariant.
  - intros record line filename valid fl errs.
    apply parse_flight_record_wf.
  - apply revalidate_wf.
Qed.

Lemma valid_flights_well_formed_witness :
  Forall (fun f => flight_wf f = true)
    (valid_flights
       (mk_parser
          [mk_flight "AB1" "JFK" "LAX" "2024-01-01 10:00" "2024-01-01 14:00"
             (S754_finite false 5277655813324800 (-45))] [])).
Proof.
  apply (valid_flights_well_formed (fun _ => "")).
  apply (reach_csv _ init "flights.csv"
           [["AB1"; "JFK"; "LAX"; "2024-01-01 10:00"; "2024-01-01 14:00";
             "150.00"]]).
  - apply reach_init.
  - vm_compute. reflexivity.
Defined.

(** *** The two ways into the collection *)

(** Re-validation of an object whose six fields are texts. *)
Lemma revalidate_text_record float_repr (fid org dst dep arr prc : string) :
  revalidate float_repr (text_record fid org dst dep arr prc)
  = (_ ← require (validate_flight_id fid);
     _ ← require (validate_airport_code org);
     _ ← require (validate_airport_code dst);
     _ ← require (validate_datetime dep);
     _ ← require (validate_datetime arr);
     _ ← require (validate_times dep arr);
     price ← py_float (VStr prc);
     _ ← require (negb (PyFloat.le price PyFloat.zero));
     Ok (mk_flight fid org dst dep arr (PyFloat.round2 price))).
Proof.
  unfold revalidate, text_record, getitem.
  change (mapM _ required_fields) with (Ok [tt; tt; tt; tt; tt; tt] : result (list unit)).
  repeat (rewrite lookup_insert_eq || (rewrite lookup_insert_ne by discriminate)).
  reflexivity.
Qed.

Lemma field_errors_nil_intro fid org dst dep arr prc :
  validate_flight_id fid = true -> validate_airport_code org = true ->
  validate_airport_code dst = true -> validate_datetime dep = true ->
  validate_datetime arr = true -> validate_times dep arr = true ->
  field_errors fid org dst dep arr prc = check_price [] prc.
Proof.
  intros V1 V2 V3 V4 V5 V6. unfold field_errors.
  unfold check_flight_id, check_origin, check_destination, check_departure,
    check_arrival, append.
  assert (E1 : PyStr.is_empty fid = false).
  { apply is_empty_false. intros ->. discriminate V1. }
  assert (E2 : PyStr.is_empty org = false).
  { apply is_empty_false. intros ->. discriminate V2. }
  assert (E3 : PyStr.is_empty dst = false).
  { apply is_empty_false. intros ->. discriminate V3. }
  assert (E4 : PyStr.is_empty dep = false).
  { apply is_empty_false. intros ->. now rewrite validate_datetime_empty in V4. }
  assert (E5 : PyStr.is_empty arr = false).
  { apply is_empty_false. intros ->. now rewrite validate_datetime_empty in V5. }
  rewrite E1, E2, E3, E4, E5, V1, V2, V3, V4, V5, V6. reflexivity.
Qed.

Lemma float_not_le_zero (x : PyFloat.float) :
  PyFloat.le x PyFloat.zero = false ->
  PyFloat.gt x PyFloat.zero = true \/ x = S754_nan.
Proof. destruct x as [[]|[]| |[] m e]; (discriminate || auto). Qed.

(** X14: the loader and the record validator agree on a record given as
    text.  A record the CSV path accepts is accepted by the loader, with
    the same flight, when the loader is given the six trimmed fields as
    texts; conversely a record of trimmed texts the loader accepts is
    accepted by the CSV path with the same flight, unless its price reads
    as NaN, which the loader stores and the CSV path reports as an invalid
    price format. *)
Theorem loader_agrees_with_record_validator
    (float_repr : PyFloat.float -> string)
    (f1 f2 f3 f4 f5 f6 : string) (line : nat) (filename : string) :
  let record := [f1; f2; f3; f4; f5; f6] in
  let elem := text_record (PyStr.strip f1) (PyStr.strip f2) (PyStr.strip f3)
                (PyStr.strip f4) (PyStr.strip f5) (PyStr.strip f6) in
  (forall fl,
     parse_flight_record record line filename = Ok (true, Some fl, []) ->
     revalidate float_repr elem = Ok fl) /\
  (forall fl,
     revalidate float_repr elem = Ok fl ->
     parse_flight_record record line filename = Ok (true, Some fl, []) \/
     (PyFloat.of_string (PyStr.strip f6) = Some S754_nan /\
      price fl = S754_nan /\
      parse_flight_record record line filename
      = Ok (false, None, ["invalid price format"]))).
Proof.
  intros record elem. subst record elem. rewrite revalidate_text_record.
  unfold parse_flight_record. cbn [length Nat.eqb negb]. cbv zeta.
  rewrite checks_field_errors. split.
  - intros fl.
    destruct (field_errors _ _ _ _ _ _) as [|e es] eqn:E; [|discriminate].
    apply field_errors_nil_valid in E as (V1 & V2 & V3 & V4 & V5 & V6 & V7).
    unfold validate_price in V7.
    destruct (PyFloat.of_string (PyStr.strip f6)) as [x|] eqn:Hx; [|discriminate].
    simpl. intros [= <-]. rewrite V1, V2, V3, V4, V5, V6.
    cbn [require mbind result_bind py_float]. rewrite Hx.
    assert (Hle : PyFloat.le x PyFloat.zero = false).
    { revert V7. clear. destruct x as [[]|[]| |[] m e]; (discriminate || reflexivity). }
    cbn [mbind result_bind]. rewrite Hle. reflexivity.
  - intros fl H.
    destruct (validate_flight_id (PyStr.strip f1)) eqn:V1; [|discriminate H].
    destruct (validate_airport_code (PyStr.strip f2)) eqn:V2; [|discriminate H].
    destruct (validate_airport_code (PyStr.strip f3)) eqn:V3; [|discriminate H].
    destruct (validate_datetime (PyStr.strip f4)) eqn:V4; [|discriminate H].
    destruct (validate_datetime (PyStr.strip f5)) eqn:V5; [|discriminate H].
    destruct (validate_times (PyStr.strip f4) (PyStr.strip f5)) eqn:V6;
      [|discriminate H].
    cbn [require mbind result_bind py_float] in H.
    rewrite (field_errors_nil_intro _ _ _ _ _ _ V1 V2 V3 V4 V5 V6).
    unfold check_price, append, validate_price.
    destruct (PyFloat.of_string (PyStr.strip f6)) as [x|] eqn:Hx;
      [|discriminate H].
    assert (E6 : PyStr.is_empty (PyStr.strip f6) = false).
    { apply is_empty_false. intros Hs. rewrite Hs in Hx. discriminate Hx. }
    rewrite E6. cbn [mbind result_bind] in H.
    destruct (PyFloat.le x PyFloat.zero) eqn:Hle; [discriminate H|].
    cbn [require negb mbind result_bind] in H. injection H as <-.
    destruct (float_not_le_zero x Hle) as [Hgt| ->].
    + left. rewrite Hgt. reflexivity.
    + right. split; [reflexivity|]. split; reflexivity.
Qed.

(** *** Writing the collection out and reading it back *)

Lemma accepted_flight_to_json float_repr (f : flight) :
  flight_wf f = true ->
  accepted float_repr (flight_to_json f) = reloaded f.
Proof.
  unfold flight_wf. rewrite !andb_true_iff.
  intros [[[[[[V1 V2] V3] V4] V5] V6] _].
  unfold accepted, reloaded, revalidate, flight_to_json, getitem.
  change (mapM _ required_fields) with (Ok [tt; tt; tt; tt; tt; tt] : result (list unit)).
  repeat (rewrite lookup_insert_eq || (rewrite lookup_insert_ne by discriminate)).
  cbn [mbind result_bind py_str py_float].
  rewrite V1, V2, V3, V4, V5, V6. cbn [require mbind result_bind].
  now destruct (PyFloat.le (price f) PyFloat.zero).
Qed.

Lemma omap_accepted_flight_to_json float_repr (flights : list flight) :
  Forall (fun f => flight_wf f = true) flights ->
  omap (accepted float_repr) (map flight_to_json flights)
  = omap reloaded flights.
Proof.
  induction 1 as [|f flights Hf _ IH]; [reflexivity|].
  change (omap (accepted float_repr) (map flight_to_json (f :: flights)))
    with (match accepted float_repr (flight_to_json f) with
          | Some g => g :: omap (accepted float_repr) (map flight_to_json flights)
          | None => omap (accepted float_repr) (map flight_to_json flights)
          end).
  change (omap reloaded (f :: flights))
    with (match reloaded f with
          | Some g => g :: omap reloaded flights
          | None => omap reloaded flights
          end).
  now rewrite (accepted_flight_to_json float_repr f Hf), IH.
Qed.

Lemma omap_reloaded_stable (flights : list flight) :
  Forall (fun f => PyFloat.le (price f) PyFloat.zero = false /\
                   PyFloat.round2 (price f) = price f) flights ->
  omap reloaded flights = flights.
Proof.
  induction 1 as [|f flights [Hle Hr] _ IH]; [reflexivity|].
  change (omap reloaded (f :: flights))
    with (match reloaded f with
          | Some g => g :: omap reloaded flights
          | None => omap reloaded flights
          end).
  unfold reloaded at 1. rewrite Hle, Hr, IH. now destruct f.
Qed.

(** X15: what [export_valid_flights] writes in a state a run reaches, read
    back by [load_json_database], gives the stored flights in their order,
    without those priced at zero or less and with every price rounded
    again; so the collection comes back unchanged when every price is
    above zero and is its own rounding.  Nothing is written for an empty
    collection, and only then. *)
Theorem export_then_load (float_repr : PyFloat.float -> string)
    (self other : parser) :
  reachable float_repr self ->
  (export_valid_flights self = None <-> valid_flights self = []) /\
  (forall doc, export_valid_flights self = Some doc ->
     load_json_database float_repr other doc
     = Some (mk_parser (omap reloaded (valid_flights self)) (errors other)) /\
     (Forall (fun f => PyFloat.le (price f) PyFloat.zero = false /\
                       PyFloat.round2 (price f) = price f)
        (valid_flights self) ->
      load_json_database float_repr other doc
      = Some (mk_parser (valid_flights self) (errors other)))).
Proof.
  intros Hreach.
  assert (Hwf : Forall (fun f => flight_wf f = true) (valid_flights self)).
  { revert self Hreach. apply reachable_invariant.
    - intros record line filename valid fl errs. apply parse_flight_record_wf.
    - apply revalidate_wf. }
  unfold export_valid_flights. split.
  - destruct (valid_flights self); simpl; split; congruence.
  - intros doc. destruct (is_nil (valid_flights self)); [discriminate|].
    intros [= <-]. unfold load_json_database.
    rewrite revalidate_all_acc. simpl.
    rewrite (omap_accepted_flight_to_json float_repr _ Hwf).
    split; [reflexivity|].
    intros Hst. now rewrite (omap_reloaded_stable _ Hst).
Qed.

Lemma export_then_load_witness :
  let self :=
    mk_parser
      [mk_flight "AB1" "JFK" "LAX" "2024-01-01 10:00" "2024-01-01 14:00"
         (S754_finite false 5277655813324800 (-45));
       mk_flight "AB2" "JFK" "LAX" "2024-01-01 10:00" "2024-01-01 14:00"
         (S754_zero false)] [] in
  load_json_database (fun _ => "") init
    (DArray (map flight_to_json (valid_flights self)))
  = Some (mk_parser (omap reloaded (valid_flights self)) []).
Proof.
  intros self.
  refine (proj1 (proj2 (export_then_load (fun _ => "") self init _) _ eq_refl)).
  apply (reach_csv _ init "flights.csv"
           [["AB1"; "JFK"; "LAX"; "2024-01-01 10:00"; "2024-01-01 14:00";
             "150.00"];
            ["AB2"; "JFK"; "LAX"; "2024-01-01 10:00"; "2024-01-01 14:00";
             "0.001"]]).
  - apply reach_init.
  - vm_compute. reflexivity.
Defined.

(** *** When a query aborts *)

Lemma flight_matches_app (f : flight) (q1 q2 : query) :
  flight_matches f (q1 ++ q2)%list
  = (m ← flight_matches f q1;
     if m : bool then flight_matches f q2 else Ok false).
Proof.
  induction q1 as [|[field value] q1 IH]; [reflexivity|].
  cbn [app flight_matches].
  destruct (check_field f field value) as [[|]|e]; cbn [mbind result_bind];
    [exact IH|reflexivity|reflexivity].
Qed.

Lemma check_field_aborts (f : flight) (field : string) (value : pyval)
    (e : exn) :
  flight_ok f = true -> aborts_with (field, value) e ->
  check_field f field value = Raise e.
Proof.
  unfold flight_ok, aborts_with, check_field.
  intros Hf. apply andb_true_iff in Hf as [Hd Ha].
  apply validate_datetime_parses in Hd as [td Hd].
  apply validate_datetime_parses in Ha as [ta Ha].
  intros [[[-> | ->] Hv]|(-> & Hv & He)]; cbn [String.eqb Ascii.eqb Bool.eqb].
  - assert (Hd' : py_strptime (VStr (departure_datetime f)) DATE_FORMAT = Ok td)
      by (unfold py_strptime; now rewrite Hd).
    rewrite Hd'. cbn [mbind result_bind]. now rewrite Hv.
  - assert (Ha' : py_strptime (VStr (arrival_datetime f)) DATE_FORMAT = Ok ta)
      by (unfold py_strptime; now rewrite Ha).
    rewrite Ha'. cbn [mbind result_bind]. now rewrite Hv.
  - rewrite Hv. now destruct e.
Qed.

Lemma query_loop_aborts (q : query) (b : flight -> bool) (e : exn)
    (flights matches : list flight) :
  (forall f, In f flights ->
     flight_matches f q = if b f then Raise e else Ok false) ->
  query_loop q flights matches
  = if existsb b flights then Raise e else Ok matches.
Proof.
  revert matches. induction flights as [|f flights IH]; intros matches Hb.
  - reflexivity.
  - cbn [query_loop existsb]. rewrite (Hb f (or_introl eq_refl)).
    destruct (b f); [reflexivity|]. cbn [mbind result_bind orb].
    apply IH. intros g Hg. apply Hb. now right.
Qed.

(** X16: how a query that cannot be evaluated ends.  When the first entry
    the engine cannot evaluate raises [e] (a timestamp that [strptime]
    refuses, a price that is no text and no number), the query raises [e]
    as soon as one flight of the collection passes the entries before it,
    whatever comes after; when no flight does, and on an empty collection
    in particular, it returns no match and the entry goes unnoticed. *)
Theorem execute_query_aborts (self : parser) (before after : query)
    (field : string) (value : pyval) (e : exn) :
  Forall (fun f => flight_ok f = true) (valid_flights self) ->
  query_ok before = true ->
  aborts_with (field, value) e ->
  execute_query self (before ++ (field, value) :: after)%list
  = if existsb (fun f => forallb (satisfies f) before) (valid_flights self)
    then Raise e else Ok [].
Proof.
  intros Hfl Hq Hab. unfold execute_query.
  apply query_loop_aborts. intros f Hin.
  rewrite List.Forall_forall in Hfl. specialize (Hfl f Hin).
  rewrite flight_matches_app, (flight_matches_forallb f before Hfl Hq).
  cbn [mbind result_bind].
  destruct (forallb (satisfies f) before); [|reflexivity].
  cbn [flight_matches]. now rewrite (check_field_aborts f field value e Hfl Hab).
Qed.

Lemma execute_query_aborts_witness :
  execute_query (mk_parser [flight_150_00; flight_150_01] [])
    [("origin", VStr "JFK"); ("departure_datetime", VStr "2024-13-01 10:00");
     ("price", VStr "150.00")]
  = Raise ValueError /\
  execute_query (mk_parser [flight_150_00; flight_150_01] [])
    [("origin", VStr "LAX"); ("price", VNone)]
  = Ok [].
Proof.
  split.
  - apply (execute_query_aborts (mk_parser [flight_150_00; flight_150_01] [])
             [("origin", VStr "JFK")] [("price", VStr "150.00")]
             "departure_datetime" (VStr "2024-13-01 10:00") ValueError).
    + repeat constructor.
    + reflexivity.
    + left. split; [now left|]. vm_compute. reflexivity.
  - apply (execute_query_aborts (mk_parser [flight_150_00; flight_150_01] [])
             [("origin", VStr "LAX")] [] "price" VNone TypeError).
    + repeat constructor.
    + reflexivity.
    + right. split; [reflexivity|]. split; [reflexivity|discriminate].
Defined.

(** *** Queries in sequence *)

Lemma query_loop_app (q1 q2 : query) (flights : list flight) :
  forall matches1 ms1, query_loop q1 flights matches1 = Ok ms1 ->
  exists selected,
    ms1 = (matches1 ++ selected)%list /\
    forall matches2,
      query_loop (q1 ++ q2)%list flights matches2
      = query_loop q2 selected matches2.
Proof.
  induction flights as [|f flights IH]; intros matches1 ms1 Hl.
  - injection Hl as <-. exists []. now rewrite app_nil_r.
  - cbn [query_loop] in Hl.
    destruct (flight_matches f q1) as [m|e] eqn:Hm; [|discriminate Hl].
    cbn [mbind result_bind] in Hl.
    destruct (IH _ _ Hl) as (selected & -> & Hsel).
    destruct m.
    + exists (f :: selected). split; [now rewrite <- app_assoc|].
      intros matches2. cbn [query_loop].
      rewrite flight_matches_app, Hm. cbn [mbind result_bind].
      destruct (flight_matches f q2) as [m2|e2]; [|reflexivity].
      cbn [mbind result_bind]. apply Hsel.
    + exists selected. split; [reflexivity|].
      intros matches2. cbn [query_loop].
      rewrite flight_matches_app, Hm. cbn [mbind result_bind]. apply Hsel.
Qed.

Lemma flight_matches_twice (f : flight) (q : query) (m : bool) :
  flight_matches f q = Ok m -> flight_matches f (q ++ q)%list = Ok m.
Proof.
  intros Hm. rewrite flight_matches_app, Hm. cbn [mbind result_bind].
  now destruct m.
Qed.

Lemma query_loop_twice (q : query) (flights : list flight) :
  forall matches ms, query_loop q flights matches = Ok ms ->
  query_loop (q ++ q)%list flights matches = Ok ms.
Proof.
  induction flights as [|f flights IH]; intros matches ms Hl; [exact Hl|].
  cbn [query_loop] in Hl |- *.
  destruct (flight_matches f q) as [m|e] eqn:Hm; [|discriminate Hl].
  rewrite (flight_matches_twice f q m Hm). cbn [mbind result_bind] in Hl |- *.
  now apply IH.
Qed.

(** X17: a query whose entries are those of [q1] followed by those of [q2]
    gives what [q2] gives on the matches of [q1], an exception included,
    whenever [q1] returns; and a query run again on its own matches
    returns all of them. *)
Theorem execute_query_in_sequence (self : parser) (q1 q2 : query)
    (ms : list flight) :
  execute_query self q1 = Ok ms ->
  execute_query self (q1 ++ q2)%list
  = execute_query (mk_parser ms (errors self)) q2 /\
  execute_query (mk_parser ms (errors self)) q1 = Ok ms.
Proof.
  unfold execute_query. cbn [valid_flights]. intros Hq.
  destruct (query_loop_app q1 q2 _ _ _ Hq) as (selected & -> & Hsel).
  split; [apply Hsel|].
  destruct (query_loop_app q1 q1 _ _ _ Hq) as (selected' & Heq & Hsel').
  apply app_inv_head in Heq. subst selected'. cbn [app].
  rewrite <- Hsel'. now apply query_loop_twice.
Qed.

Lemma execute_query_in_sequence_witness :
  let db := mk_parser [flight_150_00; flight_150_01] [] in
  execute_query db [("price", VStr "150.00"); ("origin", VStr "JFK")]
  = execute_query (mk_parser [flight_150_00] []) [("origin", VStr "JFK")].
Proof.
  intros db.
  apply (proj1 (execute_query_in_sequence db [("price", VStr "150.00")]
                  [("origin", VStr "JFK")] [flight_150_00]
                  ltac:(vm_compute; reflexivity))).
Defined.

(** *** The order of the entries *)

Lemma forallb_Permutation {A} (p : A -> bool) (l l' : list A) :
  Permutation l l' -> forallb p l = forallb p l'.
Proof.
  induction 1 as [|x l l' _ IH|x y l|l l' l'' _ IH1 _ IH2]; cbn [forallb].
  - reflexivity.
  - now rewrite IH.
  - now destruct (p x), (p y).
  - now rewrite IH1.
Qed.

(** X18: the order of the entries of a query never changes its matches.
    Two queries with the same entries in different orders return the same
    flights whenever both return, and both return, with the same result,
    when every value can be evaluated; the order can only decide whether
    an entry that cannot be evaluated is reached. *)
Theorem execute_query_entry_order (self : parser) (q q' : query) :
  Permutation q q' ->
  Forall (fun f => flight_ok f = true) (valid_flights self) ->
  (forall ms ms', execute_query self q = Ok ms ->
     execute_query self q' = Ok ms' -> ms = ms') /\
  (query_ok q = true -> execute_query self q' = execute_query self q).
Proof.
  intros Hperm Hfl.
  assert (Hsame : List.filter (fun f => forallb (satisfies f) q) (valid_flights self)
                  = List.filter (fun f => forallb (satisfies f) q') (valid_flights self)).
  { apply List.filter_ext. intros f. now apply forallb_Permutation. }
  split.
  - intros ms ms' Hq Hq'. unfold execute_query in Hq, Hq'.
    apply (query_loop_returns _ _ _ _ Hfl) in Hq.
    apply (query_loop_returns _ _ _ _ Hfl) in Hq'.
    cbn [app] in Hq, Hq'. congruence.
  - intros Hok.
    assert (Hok' : query_ok q' = true).
    { unfold query_ok in *. now rewrite <- (forallb_Permutation _ _ _ Hperm). }
    unfold execute_query.
    rewrite (query_loop_filter q (fun f => forallb (satisfies f) q)),
            (query_loop_filter q' (fun f => forallb (satisfies f) q')).
    + cbn [app]. now rewrite Hsame.
    + intros f Hin. rewrite List.Forall_forall in Hfl.
      now apply flight_matches_forallb; [apply Hfl|].
    + intros f Hin. rewrite List.Forall_forall in Hfl.
      now apply flight_matches_forallb; [apply Hfl|].
Qed.

Lemma execute_query_entry_order_witness :
  let db := mk_parser [flight_150_00; flight_150_01] [] in
  execute_query db [("origin", VStr "JFK"); ("price", VStr "150.00")]
  = execute_query db [("price", VStr "150.00"); ("origin", VStr "JFK")].
Proof.
  intros db.
  apply (proj2 (execute_query_entry_order db
                  [("price", VStr "150.00"); ("origin", VStr "JFK")]
                  [("origin", VStr "JFK"); ("price", VStr "150.00")]
                  (perm_swap _ _ _)
                  ltac:(repeat constructor))).
  reflexivity.
Defined.

(** *** Queries from a file *)

Lemma run_queries_acc (self : parser) (queries : list query_elem) :
  forall results,
    run_queries self queries results
    = rs ← run_queries self queries []; Some (results ++ rs)%list.
Proof.
  induction queries as [|query queries IH]; intros results.
  - cbn. now rewrite app_nil_r.
  - cbn [run_queries]. destruct (run_query self query) as [matches|];
      [|reflexivity].
    cbn [mbind option_bind]. rewrite IH, (IH ([] ++ [(query, matches)])%list).
    destruct (run_queries self queries []) as [rs|]; [|reflexivity].
    cbn [mbind option_bind app]. now rewrite <- app_assoc.
Qed.

Lemma run_queries_cons (self : parser) (query : query_elem)
    (queries : list query_elem) :
  run_queries self (query :: queries) []
  = matches ← run_query self query;
    rs ← run_queries self queries [];
    Some ((query, matches) :: rs).
Proof.
  cbn [run_queries]. destruct (run_query self query) as [matches|];
    [|reflexivity].
  cbn [mbind option_bind]. now rewrite run_queries_acc.
Qed.

Lemma run_queries_Forall2 (self : parser) (queries : list query_elem)
    (results : list (query_elem * list flight)) :
  run_queries self queries [] = Some results <->
  Forall2 (fun query r => fst r = query /\ run_query self query = Some (snd r))
    queries results.
Proof.
  revert results. induction queries as [|query queries IH]; intros results.
  - cbn. split.
    + intros [= <-]. constructor.
    + intros H. apply Forall2_nil_inv_l in H. now subst.
  - rewrite run_queries_cons. split.
    + destruct (run_query self query) as [matches|] eqn:Hm; [|discriminate].
      cbn [mbind option_bind].
      destruct (run_queries self queries []) as [rs|] eqn:Hrs; [|discriminate].
      intros [= <-]. constructor; [now split|]. now apply IH.
    + intros H. apply Forall2_cons_inv_l in H as ([q' ms] & rs & [Hq Hm] & Hrs & ->).
      cbn in Hq, Hm. subst q'. rewrite Hm. cbn [mbind option_bind].
      apply IH in Hrs. now rewrite Hrs.
Qed.

(** X19: [execute_queries_from_file] is all or nothing and keeps the
    order.  It returns exactly when every query of the file returns, with
    one result for each query, in the order of the file, that pairs the
    query with its own matches; one query that raises, wherever it
    stands, ends the run without any result.  A single object is treated
    as the array that holds it alone, and a document that is neither an
    object nor an array ends the run. *)
Theorem execute_queries_from_file_batch (self : parser) :
  (forall queries results,
     execute_queries_from_file self (QList queries) = Some results <->
     Forall2 (fun query r => fst r = query /\ run_query self query = Some (snd r))
       queries results) /\
  (forall before query after,
     run_query self query = None ->
     execute_queries_from_file self (QList (before ++ query :: after)) = None) /\
  (forall q,
     execute_queries_from_file self (QDict q)
     = execute_queries_from_file self (QList [QObject q])) /\
  execute_queries_from_file self QScalar = None.
Proof.
  split; [|split; [|split]]; try reflexivity.
  - intros queries results. apply run_queries_Forall2.
  - intros before query after Hq. cbn [execute_queries_from_file].
    destruct (run_queries self (before ++ query :: after) []) as [rs|] eqn:Hrs;
      [|reflexivity].
    apply run_queries_Forall2 in Hrs.
    apply Forall2_app_inv_l in Hrs as (rs1 & rs2 & _ & Hrs & _).
    apply Forall2_cons_inv_l in Hrs as (r & rs' & [_ Hm] & _ & _).
    congruence.
Qed.

Lemma run_queries_selected (self : parser) (queries : list query) :
  Forall (fun f => flight_ok f = true) (valid_flights self) ->
  Forall (fun q => query_ok q = true) queries ->
  run_queries self (map QObject queries) []
  = Some (map (fun q => (QObject q, selected self q)) queries).
Proof.
  intros Hfl. induction 1 as [|q queries Hq _ IH]; [reflexivity|].
  cbn [map]. rewrite run_queries_cons, IH. cbn [run_query].
  unfold execute_query.
  rewrite (query_loop_filter q (fun f => forallb (satisfies f) q)).
  - reflexivity.
  - intros f Hin. rewrite List.Forall_forall in Hfl.
    now apply flight_matches_forallb; [apply Hfl|].
Qed.

(** X20: on the collection of a state a run reaches, a query file whose
    queries are objects with values the engine can evaluate is answered
    in full: the call returns, and the result of each query holds the
    query and the stored flights that satisfy all its entries, in the
    order of the collection.  On an empty collection every file that holds
    an array is answered, with no match for any element, whatever the
    elements are. *)
Theorem execute_queries_from_file_answers
    (float_repr : PyFloat.float -> string) (self : parser)
    (queries : list query) :
  reachable float_repr self ->
  Forall (fun q => query_ok q = true) queries ->
  execute_queries_from_file self (QList (map QObject queries))
  = Some (map (fun q => (QObject q, selected self q)) queries) /\
  (forall elems errs,
     execute_queries_from_file (mk_parser [] errs) (QList elems)
     = Some (map (fun elem => (elem, [])) elems)).
Proof.
  intros Hreach Hq. split.
  - apply run_queries_selected; [|assumption].
    now apply (reachable_flights_ok float_repr).
  - intros elems errs. cbn [execute_queries_from_file].
    induction elems as [|elem elems IH]; [reflexivity|].
    rewrite run_queries_cons, IH. now destruct elem.
Qed.

Lemma execute_queries_from_file_answers_witness :
  execute_queries_from_file (mk_parser [flight_150_00; flight_150_01] [])
    (QList [QObject [("price", VStr "150.00")];
            QObject [("origin", VStr "LAX")]])
  = Some [(QObject [("price", VStr "150.00")], [flight_150_00]);
          (QObject [("origin", VStr "LAX")], [])].
Proof.
  refine (proj1 (execute_queries_from_file_answers (fun _ => "")
                   (mk_parser [flight_150_00; flight_150_01] [])
                   [[("price", VStr "150.00")]; [("origin", VStr "LAX")]]
                   _ _)).
  - apply (reach_csv _ init "flights.csv"
       [["AB1"; "JFK"; "LAX"; "2024-01-01 10:00"; "2024-01-01 14:00"; "150.00"];
        ["AB2"; "JFK"; "LAX"; "2024-01-01 10:00"; "2024-01-01 14:00"; "150.01"]]).
    + apply reach_init.
    + vm_compute. reflexivity.
  - repeat constructor.
Defined.

(** *** The error report *)

Lemma field_errors_listed fid org dst dep arr prc :
  In (field_errors fid org dst dep arr prc) error_lists.
Proof.
  unfold error_lists, field_errors. apply in_or_app. right.
  apply in_flat_map. exists (check_flight_id [] fid). split.
  { unfold check_flight_id, append, flight_id_messages.
    repeat match goal with |- context [if ?c then _ else _] => destruct c end;
      simpl; tauto. }
  apply in_flat_map. exists (check_origin [] org). split.
  { unfold check_origin, append, origin_messages.
    repeat match goal with |- context [if ?c then _ else _] => destruct c end;
      simpl; tauto. }
  apply in_flat_map. exists (check_destination [] dst). split.
  { unfold check_destination, append, destination_messages.
    repeat match goal with |- context [if ?c then _ else _] => destruct c end;
      simpl; tauto. }
  apply in_flat_map. exists (check_departure [] dep). split.
  { unfold check_departure, append, departure_messages.
    repeat match goal with |- context [if ?c then _ else _] => destruct c end;
      simpl; tauto. }
  apply in_flat_map. exists (check_arrival [] dep arr). split.
  { unfold check_arrival, append, arrival_messages.
    repeat match goal with |- context [if ?c then _ else _] => destruct c end;
      simpl; tauto. }
  apply in_flat_map. exists (check_price [] prc). split.
  { unfold check_price, append, price_messages.
    destruct (PyStr.is_empty prc); [simpl; tauto|].
    destruct (negb (validate_price prc)); [|simpl; tauto].
    destruct (PyFloat.of_string prc) as [x|]; [|simpl; tauto].
    destruct (PyFloat.le x PyFloat.zero); simpl; tauto. }
  now left.
Qed.

Lemma parse_flight_record_listed record line filename valid data errs :
  parse_flight_record record line filename = Ok (valid, data, errs) ->
  In errs error_lists.
Proof.
  unfold parse_flight_record.
  destruct (negb (length record =? 6)%nat) eqn:Hlen.
  { intros [= _ _ <-]. unfold error_lists, append.
    destruct (length record <? 6)%nat; simpl; tauto. }
  destruct record as [|f1 [|f2 [|f3 [|f4 [|f5 [|f6 [|f7 r]]]]]]]; try discriminate.
  cbv zeta. rewrite checks_field_errors.
  pose proof (field_errors_listed (PyStr.strip f1) (PyStr.strip f2)
                (PyStr.strip f3) (PyStr.strip f4) (PyStr.strip f5)
                (PyStr.strip f6)) as Hin.
  destruct (field_errors _ _ _ _ _ _) as [|e es] eqn:E.
  - destruct (PyFloat.of_string (PyStr.strip f6)); [|discriminate].
    simpl. now intros [= _ _ <-].
  - simpl. now intros [= _ _ <-].
Qed.

Lemma error_lists_no_comment :
  forallb (fun errs => negb (contains "comment line" (PyStr.join "; " errs)))
    error_lists = true.
Proof. vm_compute. reflexivity. Qed.

(** No message of the record validator, alone or joined with others,
    reads as the message of a comment row. *)
Lemma parse_flight_record_no_comment record line filename valid data errs :
  parse_flight_record record line filename = Ok (valid, data, errs) ->
  contains "comment line" (PyStr.join "; " errs) = false.
Proof.
  intros H. apply parse_flight_record_listed in H.
  pose proof error_lists_no_comment as Hall.
  rewrite forallb_forall in Hall. apply Hall in H.
  now apply negb_true_iff in H.
Qed.

Lemma process_row_errors (P : diagnostic -> Prop) self file_path line row self' :
  (forall raw, P (mk_diagnostic file_path line raw comment_message)) ->
  (forall raw valid data errs,
     parse_flight_record row line file_path = Ok (valid, data, errs) ->
     P (mk_diagnostic file_path line raw (PyStr.join "; " errs))) ->
  Forall P (errors self) ->
  process_row self file_path line row = Some self' ->
  Forall P (errors self').
Proof.
  intros Hc Hr Hfl. unfold process_row.
  destruct row as [|first rest]; [now intros [= <-]|].
  destruct (PyStr.startswith _ _).
  { intros [= <-]. simpl. apply Forall_app. split; [assumption|].
    constructor; [apply Hc|constructor]. }
  match goal with |- context [if ?c then _ else _] => destruct c end;
    [now intros [= <-]|].
  destruct (parse_flight_record _ _ _) as [[[valid data] errs]|e] eqn:Prec;
    [|discriminate].
  destruct valid, data as [fl|]; intros [= <-]; simpl; try assumption.
  all: apply Forall_app; split; [assumption|].
  all: constructor; [|constructor].
  all: eapply Hr; reflexivity.
Qed.

Lemma reachable_errors float_repr self :
  reachable float_repr self ->
  Forall (fun d => contains "comment line" (error d) = true ->
                   error d = comment_message) (errors self).
Proof.
  induction 1 as [|self file_path rows self' _ IH Hrows
                  |self data self' _ IH Hload].
  - constructor.
  - unfold parse_csv_file in Hrows. revert self IH Hrows.
    generalize 0%nat as line.
    induction rows as [|row rows IHrows]; intros line self IH.
    + now intros [= <-].
    + cbn [parse_rows].
      destruct (process_row self file_path (S line) row) as [self1|] eqn:Prow;
        [|discriminate].
      apply (IHrows (S line) self1). clear IHrows.
      revert Prow. apply process_row_errors; [| |assumption].
      * reflexivity.
      * intros raw valid data errs Prec. simpl.
        rewrite (parse_flight_record_no_comment _ _ _ _ _ _ Prec).
        discriminate.
  - destruct data as [items|]; [|discriminate].
    injection Hload as <-. exact IH.
Qed.

(** X21: in every state a run reaches, the comment branch of
    [export_errors] makes no difference: a stored diagnostic mentions
    "comment line" only when it is the diagnostic of a comment row, whose
    message is the text that branch writes.  So the report has one line
    for each diagnostic, in the order of the list, made of the line number,
    the row and the stored message; and no report is written exactly when
    there is no diagnostic. *)
Theorem export_errors_lines (float_repr : PyFloat.float -> string)
    (arrow : string) (self : parser) :
  reachable float_repr self ->
  (export_errors arrow self = None <-> errors self = []) /\
  (forall report, export_errors arrow self = Some report ->
     report = map (fun d => report_line arrow (line_number d) (raw_line d)
                              (error d)) (errors self)).
Proof.
  intros Hreach. apply reachable_errors in Hreach.
  unfold export_errors. split.
  - destruct (errors self); simpl; split; congruence.
  - intros report. destruct (is_nil (errors self)); [discriminate|].
    intros [= <-]. apply List.map_ext_in. intros d Hin.
    rewrite List.Forall_forall in Hreach. specialize (Hreach d Hin).
    unfold error_line.
    destruct (contains "comment line" (error d)); [|reflexivity].
    now rewrite Hreach.
Qed.

Lemma export_errors_lines_witness :
  let self :=
    mk_parser []
      [mk_diagnostic "flights.csv" 1 "# fares" comment_message;
       mk_diagnostic "flights.csv" 2 "AB1,JFK" "missing required fields"] in
  export_errors " -> " self
  = Some (map (fun d => report_line " -> " (line_number d) (raw_line d)
                          (error d)) (errors self)).
Proof.
  intros self.
  assert (Hreach : reachable (fun _ => "") self).
  { apply (reach_csv _ init "flights.csv" [["# fares"]; ["AB1"; "JFK"]]).
    - apply reach_init.
    - vm_compute. reflexivity. }
  exact (f_equal Some
           (proj2 (export_errors_lines (fun _ => "") " -> " self Hreach)
              (map (error_line " -> ") (errors self)) eq_refl)).
Defined.

(** *** Prices that are not numbers *)

Lemma float_gt_nan_r (x : PyFloat.float) : PyFloat.gt x S754_nan = false.
Proof. now destruct x as [[]|[]| |[] m e]. Qed.

Lemma float_gt_nan_l (x : PyFloat.float) : PyFloat.gt S754_nan x = false.
Proof. now destruct x as [[]|[]| |[] m e]. Qed.

(** X22: NaN passes every comparison of the code.  The loader accepts a
    well-formed flight whose price is NaN and stores it as it is; a price
    entry whose value reads as NaN selects the whole collection; and a
    stored flight whose price is NaN is selected by every price entry
    whose value converts to a float. *)
Theorem nan_prices (float_repr : PyFloat.float -> string) (self : parser)
    (value : pyval) :
  (forall f, flight_wf f = true -> price f = S754_nan ->
     revalidate float_repr (flight_to_json f) = Ok f) /\
  (py_float value = Ok S754_nan ->
   execute_query self [("price", value)] = Ok (valid_flights self)) /\
  (forall query_price f,
     py_float value = Ok query_price ->
     In f (valid_flights self) -> price f = S754_nan ->
     exists ms, execute_query self [("price", value)] = Ok ms /\ In f ms).
Proof.
  split; [|split].
  - intros f Hwf Hnan.
    pose proof (accepted_flight_to_json float_repr f Hwf) as Hacc.
    assert (Hr : reloaded f = Some f).
    { unfold reloaded. rewrite Hnan. destruct f as [a b c d e p].
      cbn in Hnan |- *. now subst p. }
    rewrite Hr in Hacc. unfold accepted in Hacc.
    destruct (revalidate float_repr (flight_to_json f)) as [g|];
      [|discriminate Hacc].
    now injection Hacc as ->.
  - intros Hv.
    rewrite (execute_query_single self "price" value (fun _ => true)).
    + f_equal. induction (valid_flights self) as [|f l IH]; [reflexivity|].
      cbn [List.filter]. now rewrite IH.
    + intros f _. rewrite check_field_price, Hv. now rewrite float_gt_nan_r.
  - intros qp f Hv Hin Hnan.
    rewrite (execute_query_single self "price" value
               (fun f => negb (PyFloat.gt (price f) qp))).
    + eexists. split; [reflexivity|]. apply filter_In. split; [assumption|].
      now rewrite Hnan, float_gt_nan_l.
    + intros g _. now rewrite check_field_price, Hv.
Qed.

Lemma nan_prices_witness :
  let f := mk_flight "AB1" "JFK" "LAX" "2024-01-01 10:00" "2024-01-01 14:00"
             S754_nan in
  revalidate (fun _ => "") (flight_to_json f) = Ok f /\
  execute_query (mk_parser [flight_150_00; f] []) [("price", VStr "nan")]
  = Ok [flight_150_00; f].
Proof.
  intros f. split.
  - apply (proj1 (nan_prices (fun _ => "") init VNone) f);
      vm_compute; reflexivity.
  - apply (proj1 (proj2 (nan_prices (fun _ => "")
                           (mk_parser [flight_150_00; f] []) (VStr "nan")))).
    vm_compute. reflexivity.
Defined.

(** *** Values of other types in a database *)

(** X23: the loader looks at the first five fields only through [str] and
    at the price only through [float]: two objects whose fields have the
    same texts and whose prices convert alike are both rejected or both
    accepted with the same flight.  So a price given as a number, as the
    text of that number or as a boolean is all one to the loader, and the
    flight stored always holds texts and a float. *)
Theorem load_json_database_coerces (float_repr : PyFloat.float -> string)
    (fields fields' : gmap string pyval) :
  (forall field,
     field ∈ ["flight_id"; "origin"; "destination";
              "departure_datetime"; "arrival_datetime"] ->
     py_str float_repr <$> fields !! field
     = py_str float_repr <$> fields' !! field) ->
  py_float <$> fields !! "price" = py_float <$> fields' !! "price" ->
  revalidate float_repr (JObject fields)
  = revalidate float_repr (JObject fields').
Proof.
  intros Htext Hprice. unfold revalidate, getitem.
  cbn [mapM required_fields].
  assert (H1 := Htext "flight_id" ltac:(set_solver)).
  assert (H2 := Htext "origin" ltac:(set_solver)).
  assert (H3 := Htext "destination" ltac:(set_solver)).
  assert (H4 := Htext "departure_datetime" ltac:(set_solver)).
  assert (H5 := Htext "arrival_datetime" ltac:(set_solver)).
  clear Htext.
  destruct (fields !! "flight_id") as [a|], (fields' !! "flight_id") as [a'|];
    try discriminate H1; [injection H1 as H1|reflexivity].
  destruct (fields !! "origin") as [b|], (fields' !! "origin") as [b'|];
    try discriminate H2; [injection H2 as H2|reflexivity].
  destruct (fields !! "destination") as [c|], (fields' !! "destination") as [c'|];
    try discriminate H3; [injection H3 as H3|reflexivity].
  destruct (fields !! "departure_datetime") as [d|],
           (fields' !! "departure_datetime") as [d'|];
    try discriminate H4; [injection H4 as H4|reflexivity].
  destruct (fields !! "arrival_datetime") as [e|],
           (fields' !! "arrival_datetime") as [e'|];
    try discriminate H5; [injection H5 as H5|reflexivity].
  destruct (fields !! "price") as [p|], (fields' !! "price") as [p'|];
    try discriminate Hprice; [injection Hprice as Hprice|reflexivity].
  repeat match goal with
         | |- context [bool_decide (is_Some (Some ?x))] =>
             change (bool_decide (is_Some (Some x))) with true
         end.
  cbn [require mbind mret result_bind result_ret].
  rewrite H1, H2, H3, H4, H5, Hprice. reflexivity.
Qed.

Lemma load_json_database_coerces_witness :
  let object price :=
    <["flight_id" := VStr "AB1"]>
    (<["origin" := VStr "JFK"]>
    (<["destination" := VStr "LAX"]>
    (<["departure_datetime" := VStr "2024-01-01 10:00"]>
    (<["arrival_datetime" := VStr "2024-01-01 14:00"]>
    (<["price" := price]> (∅ : gmap string pyval)))))) in
  revalidate (fun _ => "") (JObject (object (VBool true)))
  = revalidate (fun _ => "") (JObject (object (VStr "1.0"))).
Proof.
  intros object.
  apply (load_json_database_coerces (fun _ => "")
           (object (VBool true)) (object (VStr "1.0"))).
  - intros field Hin. unfold object.
    repeat (apply elem_of_cons in Hin as [->|Hin]; [reflexivity|]).
    now apply elem_of_nil in Hin.
  - vm_compute. reflexivity.
Defined.
